(** * snugglesLIVE: the conversation orchestration core

    A shallow embedding of

      - [src/hooks/useConversation.ts]  (the hook: transcript debouncing, the
        utterance pipeline [handleUserSpeech], the speech callbacks),
      - [src/services/gemini.ts]        ([GeminiService]),
      - [src/services/speech.ts]        ([SpeechService]),
      - [src/services/database.ts]      ([DatabaseService]),
      - [src/utils/session.ts]          (the identifiers kept in the browser),
      - [src/App.tsx]                   (the handlers of the page),

    and the properties of the specification that concern them.

    ** How the program is modelled

    - React state is the record [HookState]; the setters [setX] update the
      live state.  A callback created during a render reads the state
      variables of THAT render: every handler of the hook therefore takes the
      state of the render that created it as its first argument, [render].
      The callbacks registered on the speech service are created inside the
      effect of lines 68-122, whose dependency list holds only the three voice
      preferences; they (and the [handleUserSpeech] they call) keep the render
      of the last run of that effect.
    - [async] functions are terms of the resumption monad [Task]: [Sync] is
      code that runs without suspension, [Await] is a suspension point on a
      request to the outside (Supabase, the Gemini endpoint, the speech
      synthesiser).
    - The outside is the record [World] (tables, timers, clock) and the events
      of [Event]; [System] pairs the world with the suspended tasks, so that
      several pipelines can be in flight at once.
    - Two fields of [World] are observation logs which the program never
      reads: [trace] (every request issued, in order) and [utterances] (the
      argument of every call of [handleUserSpeech] made by a timer).
    - The body of a reply of the Gemini endpoint is any JSON value ([Json]):
      what [makeRequest] returns is typed as a string and is whatever the
      reply holds where the text is expected, [undefined] included.  Reading
      a property of [null] or [undefined] raises a TypeError, which is an
      [Error] whose message is the engine's: the field [typeError] of
      [World] gives that message. *)

From Stdlib Require Import String Ascii List Bool Arith ZArith Lia DecimalString.
Import ListNotations.
Open Scope string_scope.
Open Scope list_scope.
Open Scope nat_scope.

Set Implicit Arguments.

(* ================================================================== *)
(** ** JavaScript values *)

Module Js.

(** A string is kept as the bytes of its UTF-8 encoding, which is how a
    string literal of this file reads. *)
Definition byte (c : ascii) : nat := nat_of_ascii c.

(** The white space and the line terminators of ECMAScript, which
    [String.prototype.trim] strips, by the length of their encoding:
    TAB, LF, VT, FF, CR and SPACE; U+00A0; U+1680, U+2000 to U+200A, U+2028,
    U+2029, U+202F, U+205F, U+3000 and U+FEFF. *)
Definition isWhiteSpace1 (a : ascii) : bool :=
  (byte a =? 32) || ((9 <=? byte a) && (byte a <=? 13)).

Definition isWhiteSpace2 (a b : ascii) : bool :=
  (byte a =? 194) && (byte b =? 160).

Definition isWhiteSpace3 (a b c : ascii) : bool :=
  ((byte a =? 225) && (byte b =? 154) && (byte c =? 128)) ||
  ((byte a =? 226) && (byte b =? 128) &&
   (((128 <=? byte c) && (byte c <=? 138)) ||
    (byte c =? 168) || (byte c =? 169) || (byte c =? 175))) ||
  ((byte a =? 226) && (byte b =? 129) && (byte c =? 159)) ||
  ((byte a =? 227) && (byte b =? 128) && (byte c =? 128)) ||
  ((byte a =? 239) && (byte b =? 187) && (byte c =? 191)).

(** Drops the white space at the head of [l].  With [backwards] the bytes
    are those of a string read from its end, so that each encoding is met
    last byte first. *)
Fixpoint strip (backwards : bool) (l : list ascii) : list ascii :=
  match l with
  | a :: r1 =>
      if isWhiteSpace1 a then strip backwards r1
      else
        match r1 with
        | b :: r2 =>
            if (if backwards then isWhiteSpace2 b a else isWhiteSpace2 a b)
            then strip backwards r2
            else
              match r2 with
              | c :: r3 =>
                  if (if backwards then isWhiteSpace3 c b a
                      else isWhiteSpace3 a b c)
                  then strip backwards r3
                  else l
              | [] => l
              end
        | [] => l
        end
  | [] => []
  end.

Definition trimStart (s : string) : string :=
  string_of_list_ascii (strip false (list_ascii_of_string s)).

Definition trimEnd (s : string) : string :=
  string_of_list_ascii (rev (strip true (rev (list_ascii_of_string s)))).

Definition trim (s : string) : string := trimEnd (trimStart s).

(** Truthiness of a string: every string but the empty one. *)
Definition truthy (s : string) : bool :=
  match s with EmptyString => false | String _ _ => true end.

(** [`${n}`] for a non-negative integer. *)
Definition ofNat (n : nat) : string := NilEmpty.string_of_uint (Nat.to_uint n).

(** [a.slice(start)] for a negative [start = - k]: the last [k] elements,
    or the whole array when it is shorter. *)
Definition sliceLast {A} (k : nat) (a : list A) : list A :=
  skipn (length a - k) a.

(** What a [throw] carries: an [Error] with its message, or anything else. *)
Inductive Thrown : Type :=
| Error (message : string)
| NonError.

(** A settled promise. *)
Inductive Outcome (A : Type) : Type :=
| Resolved (value : A)
| Rejected (reason : Thrown).
Arguments Rejected {A} reason.

(** A value that [JSON.parse] can return.  A number is kept by what this
    program can make of it: whether it is [0], and what [String] gives for
    it.  The members of an object are those of the parsed object, one for
    each key. *)
#[warnings="-register-all"] Inductive Json : Type :=
| JNull
| JBool (b : bool)
| JNumber (isZero : bool) (shown : string)
| JString (s : string)
| JArray (elements : list Json)
| JObject (members : list (string * Json)).

(** A value of the program: [undefined], or one of the above. *)
Inductive Value : Type :=
| undefined
| known (v : Json).

Coercion JString : string >-> Json.
Coercion known : Json >-> Value.

Definition lookup (name : string) (members : list (string * Json)) : Value :=
  match find (fun member => String.eqb (fst member) name) members with
  | Some member => known (snd member)
  | None => undefined
  end.

(** [v === null || v === undefined]: the values of which no property can
    be read. *)
Definition nullish (v : Value) : bool :=
  match v with
  | undefined | known JNull => true
  | _ => false
  end.

(** [v.name], for a [v] that is not nullish and a [name] that no prototype
    defines. *)
Definition property (name : string) (v : Value) : Value :=
  match v with
  | known (JObject members) => lookup name members
  | _ => undefined
  end.

(** [v[0]], for a [v] that is not nullish.  Of a string it is the string
    of its first code unit: this program only ever reads a property of
    it, which is [undefined] whatever the code unit is, and the model
    takes the first byte. *)
Definition first (v : Value) : Value :=
  match v with
  | known (JArray (x :: _)) => known x
  | known (JString (String c _)) => known (JString (String c EmptyString))
  | known (JObject members) => lookup "0" members
  | _ => undefined
  end.

(** [v.length === 0], for a [v] that is not nullish. *)
Definition lengthIsZero (v : Value) : bool :=
  match v with
  | known (JArray elements) => match elements with [] => true | _ => false end
  | known (JString s) => negb (truthy s)
  | known (JObject members) =>
      match lookup "length" members with
      | known (JNumber isZero _) => isZero
      | _ => false
      end
  | _ => false
  end.

(** [!!v] *)
Definition toBoolean (v : Value) : bool :=
  match v with
  | undefined | known JNull => false
  | known (JBool b) => b
  | known (JNumber isZero _) => negb isZero
  | known (JString s) => truthy s
  | known (JArray _) | known (JObject _) => true
  end.

(** [String(v)], which is also what a template literal makes of [v].  An
    array is joined with commas, [null] among its elements reading as the
    empty string.  An object reads ["[object Object]"], unless it has a
    member [toString] of its own: that member is not a function, and the
    conversion raises a TypeError ([None]). *)
Fixpoint jsonToString (v : Json) : option string :=
  match v with
  | JNull => Some "null"
  | JBool b => Some (if b then "true" else "false")
  | JNumber _ shown => Some shown
  | JString s => Some s
  | JArray elements =>
      (fix join (l : list Json) : option string :=
         match l with
         | [] => Some ""
         | x :: rest =>
             match (match x with JNull => Some "" | _ => jsonToString x end) with
             | Some a =>
                 match rest with
                 | [] => Some a
                 | _ :: _ =>
                     match join rest with
                     | Some b => Some (a ++ "," ++ b)%string
                     | None => None
                     end
                 end
             | None => None
             end
         end) elements
  | JObject members =>
      if existsb (fun member => String.eqb (fst member) "toString") members
      then None
      else Some "[object Object]"
  end.

Definition toString (v : Value) : option string :=
  match v with
  | undefined => Some "undefined"
  | known v => jsonToString v
  end.

(** A TypeError of the engine: a property read of [value], which is
    [null] or [undefined], or a [value] that cannot be converted to a
    string.  [expression] is the expression of the source that was being
    evaluated. *)
Inductive TypeError : Type :=
| CannotRead (expression property : string) (value : Value)
| CannotConvert (expression : string) (value : Value).

(** How a piece of synchronous code ends: with a value, with a [throw], or
    with a TypeError raised by the engine. *)
Inductive Completion (A : Type) : Type :=
| Normal (value : A)
| Abrupt (thrown : Thrown)
| Raise (error : TypeError).
Arguments Abrupt {A} thrown.
Arguments Raise {A} error.

End Js.
Import Js.

(* ================================================================== *)
(** ** Data model ([src/types/index.ts]) *)

Inductive MessageRole : Type := user | assistant.

Inductive AvatarState : Type := idle | listening | thinking | speaking.

(** Row identifiers and timestamps are generated by the database; they are
    natural numbers here (a row counter and the clock in milliseconds). *)
Module Message.
Record t : Type := mk {
  id : nat;
  session_id : string;
  role : MessageRole;
  content : string;
  created_at : nat;
  metadata : list (string * string)
}.
End Message.

(** [Omit<Message, 'id' | 'created_at'>].  The type of [content] is not
    checked when the program runs: the content of the assistant message is
    whatever the generator returned. *)
Module NewMessage.
Record t : Type := mk {
  session_id : string;
  role : MessageRole;
  content : Value;
  metadata : list (string * string)
}.
End NewMessage.

Module ConversationSummary.
Record t : Type := mk {
  id : nat;
  session_id : string;
  summary : string;
  message_count : nat;
  created_at : nat;
  updated_at : nat
}.
End ConversationSummary.

(** [Omit<ConversationSummary, 'id' | 'created_at' | 'updated_at'>] *)
Module NewSummary.
Record t : Type := mk {
  session_id : string;
  summary : string;
  message_count : nat
}.
End NewSummary.

(** One entry of the [contents] array sent to the Gemini endpoint:
    [{ role, parts: [{ text }] }]. *)
Module Content.
Record t : Type := mk {
  role : string;
  text : string
}.
End Content.

(** The state variables of [useConversation] (lines 31-38). *)
Record HookState : Type := mkHookState {
  messages : list Message.t;
  currentTranscript : string;
  avatarState : AvatarState;
  isListening : bool;
  isSpeaking : bool;
  isProcessing : bool;
  error : option string;
  sessionId : string
}.

(* ================================================================== *)
(** ** The outside world *)

(** What the program asks of the outside.  [trace] records these. *)
Inductive Request : Type :=
| SupabaseInsertMessage (row : NewMessage.t)
    (* from('conversations').insert([message]).select().single() *)
| SupabaseSelectMessages (session : string)
    (* from('conversations').select('*').eq('session_id', s).order('created_at') *)
| SupabaseSelectSummary (session : string)
    (* from('conversation_summaries').select('*').eq('session_id', s).maybeSingle() *)
| SupabaseUpsertSummary (row : NewSummary.t)
    (* from('conversation_summaries').upsert([...], {onConflict: 'session_id'}) *)
| Fetch (apiKey : string) (contents : list Content.t)
    (* fetch(`${GEMINI_API_URL}?key=${apiKey}`, { method: 'POST', body }) *)
| SynthesisSpeak (this : nat) (text : string).
    (* speechSynthesis.speak(new SpeechSynthesisUtterance(text)), called by
       the speech service instance number [this] *)

(** A Supabase call resolves to [{ data, error }]. *)
Inductive SupabaseResult (A : Type) : Type :=
| SbData (data : A)
| SbError (message : string).
Arguments SbError {A} message.

(** The part of an HTTP response that [makeRequest] looks at. *)
Record HttpResponse : Type := mkHttpResponse {
  ok : bool;
  status : nat;
  statusText : string;
  json : Outcome Json                      (* [await response.json()] *)
}.

(** How an utterance handed to the synthesiser finishes: its [end] event
    or its [error] event. *)
Inductive UtteranceEvent : Type :=
| UtteranceEnd
| UtteranceError (error : string).

(** The type of the value a request resolves to. *)
Definition Resp (req : Request) : Type :=
  match req with
  | SupabaseInsertMessage _ => SupabaseResult Message.t
  | SupabaseSelectMessages _ => SupabaseResult (list Message.t)
  | SupabaseSelectSummary _ => SupabaseResult (option ConversationSummary.t)
  | SupabaseUpsertSummary _ => SupabaseResult ConversationSummary.t
  | Fetch _ _ => Outcome HttpResponse
  | SynthesisSpeak _ _ => UtteranceEvent
  end.

(** The two timer callbacks created by the transcript callback (lines 84-92).
    Both call the [handleUserSpeech] of the render that registered the
    transcript callback. *)
Inductive TimerCallback : Type :=
| FinalTimeout (render : HookState) (transcript : string)
| InterimTimeout (render : HookState).

Record Timer : Type := mkTimer {
  timer_id : nat;
  deadline : nat;
  callback : TimerCallback
}.

(** The current [SpeechService] instance ([speechServiceRef.current]), with
    the state of [window.speechSynthesis], which all instances share. *)
Record SpeechService : Type := mkSpeechService {
  instance : nat;              (* instances created so far: this one's number *)
  recognition : bool;          (* [this.recognition] is not null *)
  isListeningFlag : bool;
  synthesis_speaking : bool;   (* [this.synthesis.speaking] *)
  synthesis_cancels : nat      (* calls of [this.synthesis.cancel()] so far *)
}.

(** The module-level instance of [gemini.ts]. *)
Record GeminiService : Type := mkGeminiService {
  geminiServiceInstance : bool;  (* the instance is not null *)
  apiKey : string;
  requestQueue : list nat;       (* the promises in the queue, by identity *)
  promises : nat                 (* promises created so far *)
}.

(** The two tables of the migration that the pipeline touches. *)
Record Database : Type := mkDatabase {
  conversations : list Message.t;
  conversation_summaries : list ConversationSummary.t;
  rows : nat                     (* rows created so far *)
}.

Record World : Type := mkWorld {
  hook : HookState;
  pendingTranscriptRef : string;
  transcriptTimeoutRef : option nat;
  registered : option HookState;
    (* the render whose callbacks are registered on the current speech
       service; [None] when no callback is registered *)
  speech : SpeechService;
  gemini : GeminiService;
  timers : list Timer;         (* the timers that are set and have not fired *)
  timer_ids : nat;             (* timers created so far *)
  now : nat;                   (* the clock, in milliseconds *)
  database : Database;
  trace : list Request;
  utterances : list string;
  typeError : TypeError -> string
    (* the message the engine gives to a TypeError it raises *)
}.

(* ------------------------------------------------------------------ *)
(** *** Field updates *)

Definition with_hook (f : HookState -> HookState) (w : World) : World :=
  mkWorld (f (hook w)) (pendingTranscriptRef w) (transcriptTimeoutRef w)
    (registered w) (speech w) (gemini w) (timers w) (timer_ids w) (now w)
    (database w) (trace w) (utterances w) (typeError w).

Definition set_pendingTranscriptRef (s : string) (w : World) : World :=
  mkWorld (hook w) s (transcriptTimeoutRef w)
    (registered w) (speech w) (gemini w) (timers w) (timer_ids w) (now w)
    (database w) (trace w) (utterances w) (typeError w).

Definition set_transcriptTimeoutRef (r : option nat) (w : World) : World :=
  mkWorld (hook w) (pendingTranscriptRef w) r
    (registered w) (speech w) (gemini w) (timers w) (timer_ids w) (now w)
    (database w) (trace w) (utterances w) (typeError w).

Definition set_registered (r : option HookState) (w : World) : World :=
  mkWorld (hook w) (pendingTranscriptRef w) (transcriptTimeoutRef w)
    r (speech w) (gemini w) (timers w) (timer_ids w) (now w)
    (database w) (trace w) (utterances w) (typeError w).

Definition with_speech (f : SpeechService -> SpeechService) (w : World) : World :=
  mkWorld (hook w) (pendingTranscriptRef w) (transcriptTimeoutRef w)
    (registered w) (f (speech w)) (gemini w) (timers w) (timer_ids w) (now w)
    (database w) (trace w) (utterances w) (typeError w).

Definition with_gemini (f : GeminiService -> GeminiService) (w : World) : World :=
  mkWorld (hook w) (pendingTranscriptRef w) (transcriptTimeoutRef w)
    (registered w) (speech w) (f (gemini w)) (timers w) (timer_ids w) (now w)
    (database w) (trace w) (utterances w) (typeError w).

Definition set_timers (ts : list Timer) (ids : nat) (w : World) : World :=
  mkWorld (hook w) (pendingTranscriptRef w) (transcriptTimeoutRef w)
    (registered w) (speech w) (gemini w) ts ids (now w)
    (database w) (trace w) (utterances w) (typeError w).

Definition set_now (t : nat) (w : World) : World :=
  mkWorld (hook w) (pendingTranscriptRef w) (transcriptTimeoutRef w)
    (registered w) (speech w) (gemini w) (timers w) (timer_ids w) t
    (database w) (trace w) (utterances w) (typeError w).

Definition set_database (d : Database) (w : World) : World :=
  mkWorld (hook w) (pendingTranscriptRef w) (transcriptTimeoutRef w)
    (registered w) (speech w) (gemini w) (timers w) (timer_ids w) (now w)
    d (trace w) (utterances w) (typeError w).

Definition log_request (req : Request) (w : World) : World :=
  mkWorld (hook w) (pendingTranscriptRef w) (transcriptTimeoutRef w)
    (registered w) (speech w) (gemini w) (timers w) (timer_ids w) (now w)
    (database w) (trace w ++ [req]) (utterances w) (typeError w).

Definition log_utterance (text : string) (w : World) : World :=
  mkWorld (hook w) (pendingTranscriptRef w) (transcriptTimeoutRef w)
    (registered w) (speech w) (gemini w) (timers w) (timer_ids w) (now w)
    (database w) (trace w) (utterances w ++ [text]) (typeError w).

(** The state setters returned by [useState]. *)
Definition setMessages (f : list Message.t -> list Message.t) : World -> World :=
  with_hook (fun h => mkHookState (f (messages h)) (currentTranscript h)
    (avatarState h) (isListening h) (isSpeaking h) (isProcessing h) (error h)
    (sessionId h)).

Definition setCurrentTranscript (s : string) : World -> World :=
  with_hook (fun h => mkHookState (messages h) s
    (avatarState h) (isListening h) (isSpeaking h) (isProcessing h) (error h)
    (sessionId h)).

Definition setAvatarState (a : AvatarState) : World -> World :=
  with_hook (fun h => mkHookState (messages h) (currentTranscript h)
    a (isListening h) (isSpeaking h) (isProcessing h) (error h)
    (sessionId h)).

Definition setIsListening (b : bool) : World -> World :=
  with_hook (fun h => mkHookState (messages h) (currentTranscript h)
    (avatarState h) b (isSpeaking h) (isProcessing h) (error h)
    (sessionId h)).

Definition setIsSpeaking (b : bool) : World -> World :=
  with_hook (fun h => mkHookState (messages h) (currentTranscript h)
    (avatarState h) (isListening h) b (isProcessing h) (error h)
    (sessionId h)).

Definition setIsProcessing (b : bool) : World -> World :=
  with_hook (fun h => mkHookState (messages h) (currentTranscript h)
    (avatarState h) (isListening h) (isSpeaking h) b (error h)
    (sessionId h)).

Definition setError (e : option string) : World -> World :=
  with_hook (fun h => mkHookState (messages h) (currentTranscript h)
    (avatarState h) (isListening h) (isSpeaking h) (isProcessing h) e
    (sessionId h)).

Definition setSessionId (s : string) : World -> World :=
  with_hook (fun h => mkHookState (messages h) (currentTranscript h)
    (avatarState h) (isListening h) (isSpeaking h) (isProcessing h) (error h)
    s).

(* ------------------------------------------------------------------ *)
(** *** Browser timers *)

(** [setTimeout(callback, delay)]: a fresh, non-zero identifier. *)
Definition setTimeout (cb : TimerCallback) (delay : nat) (w : World) : nat * World :=
  let t := S (timer_ids w) in
  (t, set_timers (timers w ++ [mkTimer t (now w + delay) cb]) t w).

(** [clearTimeout(t)]: the timer [t] is dropped if it is still set. *)
Definition clearTimeout (t : nat) (w : World) : World :=
  set_timers (filter (fun x => negb (timer_id x =? t)) (timers w)) (timer_ids w) w.

(* ------------------------------------------------------------------ *)
(** *** The database behind Supabase

    The two tables as the migration declares them: [conversations] gets an
    identifier and [created_at = now()] on insertion, and its column
    [content] is [text NOT NULL]; [conversation_summaries] has [session_id]
    unique, so the upsert on conflict [session_id] replaces the row of that
    session. *)

Definition insert_message (m : NewMessage.t) (content : string) (w : World)
  : Message.t * World :=
  let d := database w in
  let row := Message.mk (S (rows d)) (NewMessage.session_id m) (NewMessage.role m)
               content (now w) (NewMessage.metadata m) in
  (row, set_database (mkDatabase (conversations d ++ [row])
                        (conversation_summaries d) (S (rows d))) w).

Fixpoint insert_by_created_at (m : Message.t) (l : list Message.t) : list Message.t :=
  match l with
  | [] => [m]
  | x :: rest =>
      if Message.created_at m <=? Message.created_at x then m :: l
      else x :: insert_by_created_at m rest
  end.

(** [ORDER BY created_at ASC]; rows with the same time stay in the order of
    their insertion. *)
Definition order_by_created_at (l : list Message.t) : list Message.t :=
  fold_right insert_by_created_at [] l.

Definition select_messages (session : string) (w : World) : list Message.t :=
  order_by_created_at
    (filter (fun m => String.eqb (Message.session_id m) session)
       (conversations (database w))).

Definition select_summary (session : string) (w : World) : option ConversationSummary.t :=
  find (fun s => String.eqb (ConversationSummary.session_id s) session)
    (conversation_summaries (database w)).

Definition upsert_summary (s : NewSummary.t) (w : World) : ConversationSummary.t * World :=
  let d := database w in
  let others := filter (fun x => negb (String.eqb (ConversationSummary.session_id x)
                                         (NewSummary.session_id s)))
                  (conversation_summaries d) in
  match select_summary (NewSummary.session_id s) w with
  | Some old =>
      let row := ConversationSummary.mk (ConversationSummary.id old)
                   (NewSummary.session_id s) (NewSummary.summary s)
                   (NewSummary.message_count s)
                   (ConversationSummary.created_at old) (now w) in
      (row, set_database (mkDatabase (conversations d) (others ++ [row]) (rows d)) w)
  | None =>
      let row := ConversationSummary.mk (S (rows d))
                   (NewSummary.session_id s) (NewSummary.summary s)
                   (NewSummary.message_count s) (now w) (now w) in
      (row, set_database (mkDatabase (conversations d) (others ++ [row]) (S (rows d))) w)
  end.

(** What the outside decides when a request settles. *)
Inductive Reply : Type :=
| BackendOk                              (* Supabase runs the statement *)
| BackendStored (content : string)
    (* Supabase runs an insertion whose content is not a string, and stores
       [content] for it: the cast is the database's *)
| BackendError (message : string)        (* Supabase answers [{ error }] *)
| HttpReply (response : Outcome HttpResponse)
| SpeechReply (event : UtteranceEvent).

(** The value a request resolves to, and what settling it does to the world.
    [None]: this reply cannot answer this request. *)
Definition answer (req : Request) (reply : Reply) (w : World)
  : option (Resp req * World) :=
  match req return option (Resp req * World) with
  | SupabaseInsertMessage m =>
      match reply with
      | BackendOk =>
          match NewMessage.content m with
          | known (JString content) =>
              let '(row, w') := insert_message m content w in Some (SbData row, w')
          | _ => None
          end
      | BackendStored content =>
          match NewMessage.content m with
          | known (JString _) => None
          | undefined | known JNull => None       (* [content] is [NOT NULL] *)
          | _ => let '(row, w') := insert_message m content w in Some (SbData row, w')
          end
      | BackendError e => Some (SbError e, w)
      | _ => None
      end
  | SupabaseSelectMessages session =>
      match reply with
      | BackendOk => Some (SbData (select_messages session w), w)
      | BackendError e => Some (SbError e, w)
      | _ => None
      end
  | SupabaseSelectSummary session =>
      match reply with
      | BackendOk => Some (SbData (select_summary session w), w)
      | BackendError e => Some (SbError e, w)
      | _ => None
      end
  | SupabaseUpsertSummary s =>
      match reply with
      | BackendOk => let '(row, w') := upsert_summary s w in Some (SbData row, w')
      | BackendError e => Some (SbError e, w)
      | _ => None
      end
  | Fetch _ _ =>
      match reply with
      | HttpReply r => Some (r, w)
      | _ => None
      end
  | SynthesisSpeak _ _ =>
      match reply with
      | SpeechReply ev =>
          Some (ev, with_speech (fun s => mkSpeechService (instance s) (recognition s)
                       (isListeningFlag s) false (synthesis_cancels s)) w)
      | _ => None
      end
  end.

(* ================================================================== *)
(** ** Asynchronous code *)

(** An [async] function body.  [Sync] runs to completion at once; [Await]
    issues a request and suspends until it settles. *)
Inductive Task (A : Type) : Type :=
| Return (a : A)
| Throw (e : Thrown)
| Sync (B : Type) (f : World -> B * World) (k : B -> Task A)
| Await (req : Request) (k : Resp req -> Task A).
Arguments Throw {A} e.
Arguments Sync {A B} f k.
Arguments Await {A} req k.

Fixpoint bind {A B} (t : Task A) (f : A -> Task B) : Task B :=
  match t with
  | Return a => f a
  | Throw e => Throw e
  | Sync g k => Sync g (fun b => bind (k b) f)
  | Await req k => Await req (fun r => bind (k r) f)
  end.

(** [try { t } catch (err) { h err }] *)
Fixpoint try_catch {A} (t : Task A) (h : Thrown -> Task A) : Task A :=
  match t with
  | Return a => Return a
  | Throw e => h e
  | Sync g k => Sync g (fun b => try_catch (k b) h)
  | Await req k => Await req (fun r => try_catch (k r) h)
  end.

Notation "x <- t ;; k" := (bind t (fun x => k))
  (at level 61, t at next level, right associativity).
Notation "t ;; k" := (bind t (fun _ => k))
  (at level 61, right associativity).

(** [try { t } finally { fin }] *)
Definition try_finally {A} (t : Task A) (fin : Task unit) : Task A :=
  r <- try_catch (a <- t ;; Return (Resolved a)) (fun e => Return (Rejected e)) ;;
  fin ;;
  match r with
  | Resolved a => Return a
  | Rejected e => Throw e
  end.

(** A statement that only changes the world. *)
Definition act (f : World -> World) : Task unit :=
  Sync (fun w => (tt, f w)) (fun _ => Return tt).

(** An expression that only reads the world. *)
Definition read {B} (f : World -> B) : Task B :=
  Sync (fun w => (f w, w)) (fun b => Return b).

(** [await] on a request. *)
Definition await (req : Request) : Task (Resp req) :=
  Await req (fun r => Return r).

(** Synchronous code that ends as [c] says; a TypeError is an [Error] with
    the message of the engine. *)
Definition complete {A} (c : Completion A) : Task A :=
  match c with
  | Normal a => Return a
  | Abrupt e => Throw e
  | Raise error => Sync (fun w => (typeError w error, w)) (fun m => Throw (Error m))
  end.

(* ================================================================== *)
(** ** [DatabaseService] ([src/services/database.ts]) *)

Module DatabaseService.

Definition saveMessage (message : NewMessage.t) : Task Message.t :=
  r <- await (SupabaseInsertMessage message) ;;
  match r with
  | SbError m => Throw (Error ("Failed to save message: " ++ m))
  | SbData data => Return data
  end.

Definition getConversationMessages (session : string) : Task (list Message.t) :=
  r <- await (SupabaseSelectMessages session) ;;
  match r with
  | SbError m => Throw (Error ("Failed to fetch messages: " ++ m))
  | SbData data => Return data
  end.

Definition saveSummary (summary : NewSummary.t) : Task ConversationSummary.t :=
  r <- await (SupabaseUpsertSummary summary) ;;
  match r with
  | SbError m => Throw (Error ("Failed to save summary: " ++ m))
  | SbData data => Return data
  end.

Definition getSummary (session : string) : Task (option ConversationSummary.t) :=
  r <- await (SupabaseSelectSummary session) ;;
  match r with
  | SbError m => Throw (Error ("Failed to fetch summary: " ++ m))
  | SbData data => Return data
  end.

End DatabaseService.

(* ================================================================== *)
(** ** [GeminiService] ([src/services/gemini.ts]) *)

Module GeminiService.

Definition roleOf (r : MessageRole) : string :=
  match r with user => "user" | assistant => "model" end.

(** [formatMessages], lines 44-64: the array [contextMessages] is built by
    successive [push]. *)
Definition formatMessages (messages : list Message.t) (summary : option string)
  : list Content.t :=
  let contextMessages : list Content.t := [] in
  let contextMessages :=
    match summary with
    | Some s =>
        if truthy s
        then contextMessages ++
             [Content.mk "user" ("[Previous conversation summary: " ++ s ++ "]")]
        else contextMessages
    | None => contextMessages
    end in
  let recentMessages := sliceLast 10 messages in
  fold_left
    (fun contextMessages msg =>
       contextMessages ++
       [Content.mk (roleOf (Message.role msg)) (Message.content msg)])
    recentMessages contextMessages.

(** What is thrown for a response that is not ok, lines 88-95.  A body
    that is not JSON counts as the empty object. *)
Definition errorResponse (response : HttpResponse) : Completion Value :=
  let errorData : Value :=
    match json response with
    | Resolved body => known body
    | Rejected _ => known (JObject [])              (* .catch(() => ({})) *)
    end in
  if nullish errorData then Raise (CannotRead "errorData" "error" errorData)
  else
    let error := property "error" errorData in
    let message :=                                  (* error?.message *)
      if nullish error then undefined else property "message" error in
    let shown : Value :=
      if toBoolean message then message else known (JString (statusText response)) in
    match toString shown with
    | None =>
        Raise (CannotConvert "errorData.error?.message || response.statusText" shown)
    | Some text =>
        Abrupt (Error ("Gemini API error: " ++ ofNat (status response) ++ " - " ++
                       text)%string)
    end.

(** What [makeRequest] makes of the body of a response that is ok, lines
    99-108. *)
Definition firstPartText (data : Json) : Completion Value :=
  if nullish data then Raise (CannotRead "data" "candidates" data)
  else
    let candidates := property "candidates" data in
    if negb (toBoolean candidates) || lengthIsZero candidates then
      Abrupt (Error "No response generated from Gemini API")
    else
      let candidate := first candidates in
      if nullish candidate then Raise (CannotRead "candidate" "content" candidate)
      else
        let content := property "content" candidate in
        if negb (toBoolean content) ||
           negb (toBoolean (property "parts" content)) ||
           lengthIsZero (property "parts" content)
        then Abrupt (Error "Invalid response structure from Gemini API")
        else
          let part := first (property "parts" content) in
          if nullish part
          then Raise (CannotRead "candidate.content.parts[0]" "text" part)
          else Normal (property "text" part).

(** How [makeRequest] ends once its [fetch] has settled, lines 88-108. *)
Definition readReply (r : Outcome HttpResponse) : Completion Value :=
  match r with
  | Rejected e => Abrupt e
  | Resolved response =>
      if negb (ok response) then errorResponse response
      else
        match json response with
        | Rejected e => Abrupt e
        | Resolved data => firstPartText data
        end
  end.

(** [makeRequest], lines 66-109.  What it returns is typed as a string,
    and is whatever the first part holds as its [text]. *)
Definition makeRequest (messages : list Content.t) : Task Value :=
  key <- read (fun w => apiKey (gemini w)) ;;
  r <- await (Fetch key messages) ;;
  complete (readReply r).

Definition newPromise : Task nat :=
  Sync (fun w =>
          let g := gemini w in
          (S (promises g),
           with_gemini (fun g => mkGeminiService (geminiServiceInstance g)
                                   (apiKey g) (requestQueue g) (S (promises g))) w))
       (fun p => Return p).

Definition requestQueue_push (request : nat) : World -> World :=
  with_gemini (fun g => mkGeminiService (geminiServiceInstance g) (apiKey g)
                          (requestQueue g ++ [request]) (promises g)).

Definition requestQueue_remove (request : nat) : World -> World :=
  with_gemini (fun g => mkGeminiService (geminiServiceInstance g) (apiKey g)
                          (filter (fun req => negb (req =? request)) (requestQueue g))
                          (promises g)).

(** [generateResponse], lines 27-42.  [this.makeRequest(...)] runs the body
    of [makeRequest] up to its [fetch] at once and returns a promise, which
    is pushed on the queue and then awaited; nothing suspends in between,
    so the request is issued in the same turn in which the promise enters
    the queue. *)
Definition generateResponse (messages : list Message.t)
    (conversationSummary : option string) : Task Value :=
  let formattedMessages := formatMessages messages conversationSummary in
  request <- newPromise ;;
  act (requestQueue_push request) ;;
  try_finally
    (response <- makeRequest formattedMessages ;; Return response)
    (act (requestQueue_remove request)).

(** [isProcessing()] *)
Definition isProcessing (g : GeminiService) : bool :=
  0 <? length (requestQueue g).

(** [initializeGeminiService(apiKey)] *)
Definition initializeGeminiService (key : string) : World -> World :=
  with_gemini (fun g => mkGeminiService true key [] (promises g)).

(** [isGeminiServiceInitialized()] *)
Definition isGeminiServiceInitialized : Task bool :=
  read (fun w => geminiServiceInstance (gemini w)).

End GeminiService.

(* ================================================================== *)
(** ** The callbacks the hook registers on the speech service
       ([src/hooks/useConversation.ts], lines 75-112) *)

(** Lines 75-94. *)
Definition onTranscript (render : HookState) (transcript : string) (isFinal : bool)
    (w : World) : World :=
  let w := setCurrentTranscript transcript w in
  let w := set_pendingTranscriptRef transcript w in
  let w := match transcriptTimeoutRef w with
           | Some t => clearTimeout t w
           | None => w
           end in
  if isFinal && truthy (trim transcript) then
    let '(t, w) := setTimeout (FinalTimeout render transcript) 1000 w in
    set_transcriptTimeoutRef (Some t) w
  else if negb isFinal then
    let '(t, w) := setTimeout (InterimTimeout render) 2000 w in
    set_transcriptTimeoutRef (Some t) w
  else w.

(** Lines 96-100. *)
Definition onError (errorMsg : string) (w : World) : World :=
  setAvatarState idle (setIsListening false (setError (Some errorMsg) w)).

(** Lines 102-105. *)
Definition onSpeakingStart (w : World) : World :=
  setAvatarState speaking (setIsSpeaking true w).

(** Lines 107-112. *)
Definition onSpeakingEnd (render : HookState) (w : World) : World :=
  let w := setIsSpeaking false w in
  if negb (isListening render) && negb (isProcessing render)
  then setAvatarState idle w
  else w.

(* ================================================================== *)
(** ** [SpeechService] ([src/services/speech.ts]) *)

Module SpeechService.

(** [recognition.onerror], lines 53-65, for any callback slot. *)
Definition recognition_onerror {S : Type}
    (onErrorCallback : option (string -> S -> S)) (event_error : string) (s : S) : S :=
  if String.eqb event_error "no-speech" then s
  else if String.eqb event_error "aborted" then s
  else match onErrorCallback with
       | Some cb => cb ("Speech recognition error: " ++ event_error)%string s
       | None => s
       end.

(** The callback slots of instance [this], as the hook fills them; the
    slots of an instance that was cleaned up are [undefined]. *)
Definition slot {C : Type} (this : nat) (w : World) (cb : HookState -> C) : option C :=
  if instance (speech w) =? this then option_map cb (registered w) else None.

Definition onTranscriptCallback (this : nat) (w : World)
  : option (string -> bool -> World -> World) := slot this w onTranscript.
Definition onErrorCallback (this : nat) (w : World)
  : option (string -> World -> World) := slot this w (fun _ => onError).
Definition onSpeakingStartCallback (this : nat) (w : World)
  : option (World -> World) := slot this w (fun _ => onSpeakingStart).
Definition onSpeakingEndCallback (this : nat) (w : World)
  : option (World -> World) := slot this w onSpeakingEnd.

Definition call (cb : option (World -> World)) (w : World) : World :=
  match cb with Some f => f w | None => w end.

(** [recognition.onresult], lines 34-43, on the last result of the event. *)
Definition recognition_onresult (this : nat) (transcript : string) (isFinal : bool)
    (w : World) : World :=
  match onTranscriptCallback this w with
  | Some cb => cb transcript isFinal w
  | None => w
  end.

Definition set_isListeningFlag (b : bool) : World -> World :=
  with_speech (fun s => mkSpeechService (instance s) (recognition s) b
                          (synthesis_speaking s) (synthesis_cancels s)).

(** Lines 68-86. *)
Definition startListening (w : World) : World :=
  if negb (recognition (speech w)) then
    match onErrorCallback (instance (speech w)) w with
    | Some cb => cb "Speech recognition not available in this browser" w
    | None => w
    end
  else if isListeningFlag (speech w) then w
  else set_isListeningFlag true w.

(** Lines 88-99. *)
Definition stopListening (w : World) : World :=
  if negb (recognition (speech w)) || negb (isListeningFlag (speech w)) then w
  else set_isListeningFlag false w.

(** Lines 146-150. *)
Definition stopSpeaking (w : World) : World :=
  if synthesis_speaking (speech w) then
    with_speech (fun s => mkSpeechService (instance s) (recognition s)
                            (isListeningFlag s) (synthesis_speaking s)
                            (S (synthesis_cancels s))) w
  else w.

(** [this.synthesis.speak(utterance)] makes [synthesis.speaking] true. *)
Definition synthesis_speak : World -> World :=
  with_speech (fun s => mkSpeechService (instance s) (recognition s)
                          (isListeningFlag s) true (synthesis_cancels s)).

(** The text of [new SpeechSynthesisUtterance(text)]: the argument is
    optional, so that [undefined] gives the empty text, and anything else
    is converted to a string. *)
Definition utteranceText (text : Value) : Completion string :=
  match text with
  | undefined => Normal ""
  | known v =>
      match jsonToString v with
      | Some s => Normal s
      | None => Raise (CannotConvert "text" text)
      end
  end.

(** [speak], lines 105-144: the promise settles in [utterance.onend] or
    [utterance.onerror], after the speaking-end callback.  Its argument is
    typed as a string, and is whatever the generator returned. *)
Definition speak (text : Value) : Task unit :=
  this <- read (fun w => instance (speech w)) ;;
  act stopSpeaking ;;
  utterance <- complete (utteranceText text) ;;
  act synthesis_speak ;;
  ev <- await (SynthesisSpeak this utterance) ;;
  match ev with
  | UtteranceEnd =>
      act (fun w => call (onSpeakingEndCallback this w) w) ;;
      Return tt
  | UtteranceError e =>
      act (fun w => call (onSpeakingEndCallback this w) w) ;;
      Throw (Error ("Speech synthesis error: " ++ e))
  end.

(** [utterance.onstart], lines 122-126. *)
Definition utterance_onstart (this : nat) (w : World) : World :=
  call (onSpeakingStartCallback this w) w.

(** [isSupported()] *)
Definition isSupported (w : World) : bool := recognition (speech w).

(** [cleanup], lines 189-197. *)
Definition cleanup (w : World) : World :=
  set_registered None (stopSpeaking (stopListening w)).

End SpeechService.

(* ================================================================== *)
(** ** The hook ([src/hooks/useConversation.ts]) *)

(** Lines 127-130. *)
Definition clearTranscriptTimeout (w : World) : World :=
  match transcriptTimeoutRef w with
  | Some t => set_transcriptTimeoutRef None (clearTimeout t w)
  | None => w
  end.

(** The message of the [catch] block, line 186. *)
Definition errorMessage (err : Thrown) : string :=
  match err with
  | Error message => message
  | NonError => "Failed to process message"
  end.

(** [handleUserSpeech], lines 124-190.  [render] is the render that created
    this instance of the callback: [sessionId], [messages] and [isProcessing]
    are its state variables (the dependency list of line 190). *)
Definition handleUserSpeech (render : HookState) (text : string) : Task unit :=
  if negb (truthy (trim text)) || isProcessing render then Return tt
  else
    act clearTranscriptTimeout ;;
    act (setCurrentTranscript "") ;;
    act (set_pendingTranscriptRef "") ;;
    act SpeechService.stopListening ;;
    act (setIsListening false) ;;
    act (setIsProcessing true) ;;
    act (setAvatarState thinking) ;;
    let userMessage := NewMessage.mk (sessionId render) user text [] in
    try_catch
      (savedUserMessage <- DatabaseService.saveMessage userMessage ;;
       act (setMessages (fun prev => prev ++ [savedUserMessage])) ;;
       initialized <- GeminiService.isGeminiServiceInitialized ;;
       if negb initialized then
         Throw (Error "Gemini API is not configured. Please set your API key in settings.")
       else
         (* [getGeminiService()] cannot throw: the instance was just tested *)
         let allMessages := messages render ++ [savedUserMessage] in
         summary <- DatabaseService.getSummary (sessionId render) ;;
         aiResponse <- GeminiService.generateResponse allMessages
                         (option_map ConversationSummary.summary summary) ;;
         let aiMessage := NewMessage.mk (sessionId render) assistant aiResponse [] in
         savedAiMessage <- DatabaseService.saveMessage aiMessage ;;
         act (setMessages (fun prev => prev ++ [savedAiMessage])) ;;
         act (setIsProcessing false) ;;
         SpeechService.speak aiResponse ;;
         if 20 <? length (messages render) then
           DatabaseService.saveSummary
             (NewSummary.mk (sessionId render)
                ("Conversation with " ++ ofNat (length (messages render)) ++
                 " messages. Recent topics discussed.")
                (length (messages render))) ;;
           Return tt
         else Return tt)
      (fun err =>
         act (setError (Some (errorMessage err))) ;;
         act (setIsProcessing false) ;;
         act (setAvatarState idle)).

(** [initSession], lines 44-66.  [stored] is what [getCurrentSessionId()]
    returns and [fresh] what [generateSessionId()] would return; the failure
    of the load is only written to the console. *)
Definition initSession (stored : option string) (fresh : string)
    (memory_enabled : bool) : Task unit :=
  let currentSession :=
    match stored with
    | Some s => if truthy s then s else fresh
    | None => fresh
    end in
  act (setSessionId currentSession) ;;
  if memory_enabled then
    try_catch
      (loadedMessages <- DatabaseService.getConversationMessages currentSession ;;
       act (setMessages (fun _ => loadedMessages)))
      (fun err => Return tt)
  else Return tt.

(** [startListening], lines 192-202. *)
Definition startListening (w : World) : World :=
  if negb (SpeechService.isSupported w) then
    setError (Some "Speech recognition is not supported in this browser") w
  else
    setAvatarState listening
      (setIsListening true (SpeechService.startListening (setError None w))).

(** [stopListening], lines 204-210; its dependency list is
    [[isSpeaking, isProcessing]]. *)
Definition stopListening (render : HookState) (w : World) : World :=
  let w := setIsListening false (SpeechService.stopListening w) in
  if negb (isSpeaking render) && negb (isProcessing render)
  then setAvatarState idle w
  else w.

(** [stopSpeaking], lines 212-214. *)
Definition stopSpeaking (w : World) : World := SpeechService.stopSpeaking w.

(** [clearError], lines 216-218. *)
Definition clearError (w : World) : World := setError None w.

(** The effect of lines 68-122, run for the render [render]: a new speech
    service, with the callbacks of that render registered on it.  Its
    dependency list (line 122) holds the three voice preferences only: it does
    not run again when [sessionId], [messages], [isListening] or
    [isProcessing] change, and until it does its callbacks read the values
    these had in [render]. *)
Definition speechEffect (render : HookState) (w : World) : World :=
  set_registered (Some render)
    (with_speech (fun s => mkSpeechService (S (instance s)) (recognition s) false
                             (synthesis_speaking s) (synthesis_cancels s)) w).

(** Its cleanup, lines 116-121. *)
Definition speechEffectCleanup (w : World) : World :=
  let w := SpeechService.cleanup w in
  match transcriptTimeoutRef w with
  | Some t => clearTimeout t w
  | None => w
  end.

(** What a timer runs when it fires (lines 84-86 and 88-92).  The call of
    [handleUserSpeech] is logged in [utterances]. *)
Definition timerTask (cb : TimerCallback) : Task unit :=
  match cb with
  | FinalTimeout render transcript =>
      act (log_utterance (trim transcript)) ;;
      handleUserSpeech render (trim transcript)
  | InterimTimeout render =>
      pending <- read pendingTranscriptRef ;;
      if truthy (trim pending) then
        act (log_utterance (trim pending)) ;;
        handleUserSpeech render (trim pending)
      else Return tt
  end.

(* ================================================================== *)
(** ** The event loop *)

(** A task suspended on a request. *)
Record Suspended : Type := mkSuspended {
  waiting_on : Request;
  resume : Resp waiting_on -> Task unit
}.

Record System : Type := mkSystem {
  world : World;
  inflight : list Suspended
}.

(** Runs a task up to its first suspension (or to its end). *)
Fixpoint start (t : Task unit) (w : World) : World * option Suspended :=
  match t with
  | Return _ => (w, None)
  | Throw _ => (w, None)
  | Sync f k => let '(b, w') := f w in start (k b) w'
  | Await req k => (log_request req w, Some (mkSuspended req k))
  end.

Definition option_list {A} (o : option A) : list A :=
  match o with Some a => [a] | None => [] end.

(** Calls an [async] function without awaiting it. *)
Definition spawn (t : Task unit) (s : System) : System :=
  let '(w, o) := start t (world s) in
  mkSystem w (inflight s ++ option_list o).

Definition over_world (f : World -> World) (s : System) : System :=
  mkSystem (f (world s)) (inflight s).

(** The request of the task in slot [slot] settles with [reply]; the task
    runs on to its next suspension and keeps its slot, or ends and frees it. *)
Definition settle (slot : nat) (reply : Reply) (s : System) : System :=
  match nth_error (inflight s) slot with
  | None => s
  | Some task =>
      match answer (waiting_on task) reply (world s) with
      | None => s
      | Some (r, w) =>
          let '(w', o) := start (resume task r) w in
          mkSystem w' (firstn slot (inflight s) ++ option_list o ++
                       skipn (S slot) (inflight s))
      end
  end.

Fixpoint insert_by_deadline (t : Timer) (l : list Timer) : list Timer :=
  match l with
  | [] => [t]
  | x :: rest =>
      if deadline t <=? deadline x then t :: l else x :: insert_by_deadline t rest
  end.

(** A timer fires, unless it was cleared in the meantime. *)
Definition fire (t : Timer) (s : System) : System :=
  if existsb (fun x => timer_id x =? timer_id t) (timers (world s)) then
    spawn (timerTask (callback t)) (over_world (clearTimeout (timer_id t)) s)
  else s.

(** [ms] milliseconds pass with no other event: the timers that are due fire,
    earliest deadline first, and in the order they were set when the
    deadlines are equal. *)
Definition elapse (ms : nat) (s : System) : System :=
  let s := over_world (fun w => set_now (now w + ms) w) s in
  let due := fold_right insert_by_deadline []
               (filter (fun t => deadline t <=? now (world s)) (timers (world s))) in
  fold_left (fun s t => fire t s) due s.

Inductive Event : Type :=
| Elapse (ms : nat)
| RecognitionResult (transcript : string) (isFinal : bool)
    (* [recognition.onresult] of the current speech service *)
| RecognitionError (error : string)
    (* [recognition.onerror] of the current speech service *)
| UtteranceStart (slot : nat)
    (* [utterance.onstart] of the utterance the task in [slot] waits on *)
| Settle (slot : nat) (reply : Reply)
| StartListening
| StopListening
| StopSpeaking
| ClearError
| VoiceChange.
    (* a voice preference changes: the effect of lines 68-122 is cleaned up
       and runs again, in the render of the current state *)

Definition step (e : Event) (s : System) : System :=
  match e with
  | Elapse ms => elapse ms s
  | RecognitionResult transcript isFinal =>
      over_world (fun w => SpeechService.recognition_onresult
                             (instance (speech w)) transcript isFinal w) s
  | RecognitionError err =>
      over_world (fun w => SpeechService.recognition_onerror
                             (SpeechService.onErrorCallback (instance (speech w)) w)
                             err w) s
  | UtteranceStart slot =>
      match option_map waiting_on (nth_error (inflight s) slot) with
      | Some (SynthesisSpeak this _) =>
          over_world (SpeechService.utterance_onstart this) s
      | _ => s
      end
  | Settle slot reply => settle slot reply s
  | StartListening => over_world startListening s
  | StopListening => over_world (fun w => stopListening (hook w) w) s
  | StopSpeaking => over_world stopSpeaking s
  | ClearError => over_world clearError s
  | VoiceChange =>
      over_world (fun w => speechEffect (hook w) (speechEffectCleanup w)) s
  end.

Definition run (es : list Event) (s : System) : System :=
  fold_left (fun s e => step e s) es s.

(** What the page finds when it loads. *)
Record Boot : Type := mkBoot {
  gemini_api_key : option string;   (* [localStorage], read by [App] *)
  current_session_id : option string;   (* [sessionStorage] *)
  next_session_id : string;         (* what [generateSessionId()] would return *)
  memory_enabled : bool;            (* [preferences.memory_enabled] *)
  stored : Database;
  engine : TypeError -> string      (* the wording of the engine's TypeErrors *)
}.

(** The state of the first render, lines 31-38. *)
Definition firstRender : HookState :=
  mkHookState [] "" idle false false false None "".

Definition unmounted (b : Boot) : World :=
  mkWorld firstRender "" None None
    (mkSpeechService 0 true false false 0)
    (mkGeminiService false "" [] 0)
    [] 0 0
    (stored b)
    [] [] (engine b).

(** The hook is mounted: [App] has initialised the Gemini service if a key
    was stored; then the two effects of the hook run, both in the first
    render: [initSession] is called (lines 44-66) and the speech callbacks are
    registered (lines 68-122). *)
Definition mount (b : Boot) : System :=
  let w := match gemini_api_key b with
           | Some key => GeminiService.initializeGeminiService key (unmounted b)
           | None => unmounted b
           end in
  over_world (speechEffect firstRender)
    (spawn (initSession (current_session_id b) (next_session_id b) (memory_enabled b))
       (mkSystem w [])).

(** How the promise of code that ends as [c] says settles, [typeError]
    being the wording of the engine. *)
Definition settled {A} (typeError : TypeError -> string) (c : Completion A)
  : Outcome A :=
  match c with
  | Normal a => Resolved a
  | Abrupt e => Rejected e
  | Raise error => Rejected (Error (typeError error))
  end.

(** The replies of the endpoint for which [makeRequest] returns the string
    [text] (line 108). *)
Inductive Generates : Outcome HttpResponse -> string -> Prop :=
| generates response data text :
    ok response = true -> json response = Resolved data ->
    GeminiService.firstPartText data = Normal (known (JString text)) ->
    Generates (Resolved response) text.

(** The body of a well-formed reply with one part, and with one part that
    carries [text]: [{ candidates: [{ content: { parts: [{ text }] } }] }]. *)
Definition body_of_part (part : Json) : Json :=
  JObject [("candidates",
            JArray [JObject [("content", JObject [("parts", JArray [part])])]])].

Definition body_with (text : string) : Json :=
  body_of_part (JObject [("text", JString text)]).

Definition reply_with (text : string) : Reply :=
  HttpReply (Resolved (mkHttpResponse true 200 "OK" (Resolved (body_with text)))).

(* ================================================================== *)
(** ** The invariant of the finalizer *)

(** At most one timer is set, and [transcriptTimeoutRef] holds it. *)
Definition single_timer (w : World) : Prop :=
  match timers w with
  | [] => True
  | [t] => transcriptTimeoutRef w = Some (timer_id t)
  | _ => False
  end.

(** What code other than the transcript callback does to the finalizer: it
    keeps [single_timer] and leaves the registered callbacks alone. *)
Definition keeps_finalizer (w w' : World) : Prop :=
  (single_timer w -> single_timer w') /\ registered w' = registered w.

(** A task all of whose synchronous steps keep the finalizer. *)
Inductive safe_task {A : Type} : Task A -> Prop :=
| safe_Return (a : A) : safe_task (Return a)
| safe_Throw (e : Thrown) : safe_task (Throw e)
| safe_Sync (B : Type) (f : World -> B * World) (k : B -> Task A) :
    (forall w, keeps_finalizer w (snd (f w))) ->
    (forall b, safe_task (k b)) ->
    safe_task (Sync f k)
| safe_Await (req : Request) (k : Resp req -> Task A) :
    (forall r, safe_task (k r)) ->
    safe_task (Await req k).

Definition finalizer_inv (s : System) : Prop :=
  single_timer (world s) /\
  registered (world s) <> None /\
  Forall (fun task => forall r, safe_task (resume task r)) (inflight s).

(* ================================================================== *)
(** ** Scenarios *)

(** The wording of V8. *)
Definition v8 (error : TypeError) : string :=
  match error with
  | CannotRead _ property value =>
      ("Cannot read properties of " ++
       match value with undefined => "undefined" | known _ => "null" end ++
       " (reading '" ++ property ++ "')")%string
  | CannotConvert _ _ => "Cannot convert object to primitive value"
  end.

(** A page with a stored API key, a stored session and an empty database. *)
Definition plain : Boot :=
  mkBoot (Some "key") (Some "session") "session_1" true (mkDatabase [] [] 0) v8.

(** Messages [1 .. n] of the session ["session"], user and assistant in turn. *)
Definition history (n : nat) : list Message.t :=
  map (fun i => Message.mk i "session" (if Nat.odd i then user else assistant)
                  "..." i [])
      (seq 1 n).

(** The same page when the session already has 25 messages stored. *)
Definition with_history : Boot :=
  mkBoot (Some "key") (Some "session") "session_1" true
    (mkDatabase (history 25) [] 25) v8.

(** One utterance taken through the whole pipeline by the task in slot 0:
    both messages saved, the reply generated and spoken to its end. *)
Definition one_exchange (utterance reply : string) : list Event :=
  [RecognitionResult utterance true; Elapse 1000;
   Settle 0 BackendOk; Settle 0 BackendOk; Settle 0 (reply_with reply);
   Settle 0 BackendOk; UtteranceStart 0; Settle 0 (SpeechReply UtteranceEnd)].

(** The page once its history has been loaded. *)
Definition loaded (b : Boot) : System := run [Settle 0 BackendOk] (mount b).

(** The session with 25 messages takes one more utterance.  In
    [next_exchange] a voice preference has changed after the history was
    loaded, so the callbacks are those of a render that has the 25 messages;
    in [next_exchange_first_render] they are still those of the first
    render. *)
Definition next_exchange : System :=
  run (VoiceChange :: one_exchange "one more" "sure") (loaded with_history).

Definition next_exchange_first_render : System :=
  run (one_exchange "one more" "sure") (loaded with_history).

Definition is_upsert (req : Request) : bool :=
  match req with SupabaseUpsertSummary _ => true | _ => false end.

(** An utterance is submitted, and while its user message is being saved the
    recogniser delivers one more final result. *)
Definition first_submitted : System :=
  run [StartListening; RecognitionResult "hello" true; Elapse 1000] (loaded plain).

Definition second_submitted : System :=
  run [RecognitionResult "hello again" true; Elapse 1000] first_submitted.

Definition both_generating : System :=
  run [Settle 0 BackendOk; Settle 1 BackendOk; Settle 0 BackendOk; Settle 1 BackendOk]
    second_submitted.

(** [generateResponse] is called twice before any request settles. *)
Definition greeting (n : nat) (text : string) : Message.t :=
  Message.mk n "session" user text n [].

Definition two_calls : System :=
  spawn (GeminiService.generateResponse [greeting 2 "second"] None ;; Return tt)
    (spawn (GeminiService.generateResponse [greeting 1 "first"] None ;; Return tt)
       (loaded plain)).

(** The microphone is switched on while a reply is about to be spoken, and
    the reply is then spoken to its end.  In [spoken_while_listening] the
    callbacks are those of the first render; in
    [spoken_while_listening_fresh] the microphone was already on when a voice
    preference changed, so the callbacks are those of a render in which it is
    on. *)
Definition speak_while_listening : list Event :=
  [RecognitionResult "hello" true; Elapse 1000;
   Settle 0 BackendOk; Settle 0 BackendOk; Settle 0 (reply_with "hi");
   Settle 0 BackendOk; StartListening; UtteranceStart 0;
   Settle 0 (SpeechReply UtteranceEnd)].

Definition spoken_while_listening : System :=
  run speak_while_listening (loaded plain).

Definition spoken_while_listening_fresh : System :=
  run ([StartListening; VoiceChange] ++ speak_while_listening) (loaded plain).

(** The generator answers the first utterance of the page with the status
    503. *)
Definition generator_unavailable : System :=
  run [RecognitionResult "hello" true; Elapse 1000;
       Settle 0 BackendOk; Settle 0 BackendOk;
       Settle 0 (HttpReply (Resolved (mkHttpResponse false 503 "Service Unavailable"
                                        (Rejected NonError))))]
    (loaded plain).

(** After the exchange of [next_exchange] and its summary, one more
    utterance is taken up to the call of the generator. *)
Definition second_exchange : System :=
  run [Settle 0 BackendOk; RecognitionResult "and again" true; Elapse 1000;
       Settle 0 BackendOk; Settle 0 BackendOk]
    next_exchange.

(** The page with 25 messages takes its next utterance up to the call of
    the generator, with the callbacks of the first render. *)
Definition next_request_first_render : System :=
  run [RecognitionResult "one more" true; Elapse 1000;
       Settle 0 BackendOk; Settle 0 BackendOk]
    (loaded with_history).

(** The white space U+00A0, and an utterance that carries it at both
    ends. *)
Definition nbsp : string := String (ascii_of_nat 194) (String (ascii_of_nat 160) "").

Definition padded_hello : string := (nbsp ++ "hello" ++ nbsp)%string.

(** An API key pasted with that white space around it. *)
Definition padded_key : string := (nbsp ++ "AIza-key" ++ nbsp)%string.

(* ================================================================== *)
(** ** One task by itself *)

(** Runs an [async] function to its end, its requests being answered in turn
    by [replies]; the result is how its promise settles.  [None]: the replies
    run out, or one of them cannot answer the request it meets. *)
Fixpoint perform {A} (t : Task A) (replies : list Reply) (w : World)
  : option (Outcome A * World) :=
  match t with
  | Return a => Some (Resolved a, w)
  | Throw e => Some (Rejected e, w)
  | Sync f k => let '(b, w') := f w in perform (k b) replies w'
  | Await req k =>
      match replies with
      | [] => None
      | reply :: rest =>
          match answer req reply (log_request req w) with
          | Some (r, w') => perform (k r) rest w'
          | None => None
          end
      end
  end.

(* ================================================================== *)
(** ** More of JavaScript *)

Module JsOps.

(** [`${z}`] for an integer. *)
Definition ofInt (z : Z) : string := NilEmpty.string_of_int (Z.to_int z).

(** [a > b] on strings: the order of the code units, position by
    position; a proper prefix is smaller. *)
Fixpoint gt (a b : string) : bool :=
  match a, b with
  | EmptyString, _ => false
  | String _ _, EmptyString => true
  | String x a', String y b' =>
      if nat_of_ascii y <? nat_of_ascii x then true
      else if nat_of_ascii x <? nat_of_ascii y then false
      else gt a' b'
  end.

End JsOps.

(* ================================================================== *)
(** ** [src/utils/session.ts] *)

Module Session.

(** A Web Storage area: its keys and their values. *)
Definition Storage : Type := list (string * string).

Definition getItem (key : string) (st : Storage) : option string :=
  option_map snd (find (fun kv => String.eqb (fst kv) key) st).

Definition removeItem (key : string) (st : Storage) : Storage :=
  filter (fun kv => negb (String.eqb (fst kv) key)) st.

Definition setItem (key value : string) (st : Storage) : Storage :=
  removeItem key st ++ [(key, value)].

(** The browser: its two storage areas, and the wording its engine gives
    to the TypeErrors it raises. *)
Record Browser : Type := mkBrowser {
  localStorage : Storage;
  sessionStorage : Storage;
  typeErrors : TypeError -> string
}.

(** [generateDeviceId], lines 6-15.  [date_now] is [Date.now()] and
    [random] the string [Math.random().toString(36).substr(2, 9)]. *)
Definition generateDeviceId (date_now : nat) (random : string) (b : Browser)
  : string * Browser :=
  let generated :=
    let deviceId := ("device_" ++ ofNat date_now ++ "_" ++ random)%string in
    (deviceId,
     mkBrowser (setItem "device_id" deviceId (localStorage b)) (sessionStorage b)
       (typeErrors b)) in
  match getItem "device_id" (localStorage b) with
  | Some stored => if truthy stored then (stored, b) else generated
  | None => generated
  end.

(** [generateSessionId], lines 21-23. *)
Definition generateSessionId (date_now : nat) (random : string) : string :=
  ("session_" ++ ofNat date_now ++ "_" ++ random)%string.

(** [getCurrentSessionId], lines 29-31. *)
Definition getCurrentSessionId (b : Browser) : option string :=
  getItem "current_session_id" (sessionStorage b).

(** [setCurrentSessionId], lines 37-39. *)
Definition setCurrentSessionId (sessionId : string) (b : Browser) : Browser :=
  mkBrowser (localStorage b) (setItem "current_session_id" sessionId (sessionStorage b))
    (typeErrors b).

(** [clearCurrentSession], lines 44-46. *)
Definition clearCurrentSession (b : Browser) : Browser :=
  mkBrowser (localStorage b) (removeItem "current_session_id" (sessionStorage b))
    (typeErrors b).

(** [formatTimeAgo], lines 53-67.  [date] is the time value of
    [new Date(dateString)] in milliseconds, [None] when the string does not
    parse (the time value is then [NaN], every comparison is false and
    [toLocaleDateString()] is ["Invalid Date"]); [now] is that of
    [new Date()]. *)
Definition formatTimeAgo (toLocaleDateString : Z -> string)
    (date : option Z) (now : Z) : string :=
  match date with
  | None => "Invalid Date"
  | Some date =>
      let diffMs := (now - date)%Z in
      let diffMins := (diffMs / 60000)%Z in
      let diffHours := (diffMs / 3600000)%Z in
      let diffDays := (diffMs / 86400000)%Z in
      if (diffMins <? 1)%Z then "Just now"
      else if (diffMins <? 60)%Z then (JsOps.ofInt diffMins ++ " min ago")%string
      else if (diffHours <? 24)%Z then
        (JsOps.ofInt diffHours ++ " hour" ++
         (if (1 <? diffHours)%Z then "s" else "") ++ " ago")%string
      else if (diffDays <? 7)%Z then
        (JsOps.ofInt diffDays ++ " day" ++
         (if (1 <? diffDays)%Z then "s" else "") ++ " ago")%string
      else toLocaleDateString date
  end.

End Session.

(** The first lines of [initSession] ([src/hooks/useConversation.ts], lines
    46-51): the session of this tab, a new one being stored when there is
    none.  Its result is what [initSession] goes on with. *)
Definition currentSession (date_now : nat) (random : string) (b : Session.Browser)
  : string * Session.Browser :=
  let generated :=
    let s := Session.generateSessionId date_now random in
    (s, Session.setCurrentSessionId s b) in
  match Session.getCurrentSessionId b with
  | Some s => if truthy s then (s, b) else generated
  | None => generated
  end.

(* ================================================================== *)
(** ** The rest of [DatabaseService] ([src/services/database.ts])

    These methods are not part of the utterance pipeline.  Each is written
    as a function of what Supabase answers: [None] when the statement runs,
    the error object otherwise (the statement then changes nothing). *)

Module PostgrestError.
Record t : Type := mk {
  code : string;
  message : string
}.
End PostgrestError.

Module SessionRow.
(** A row of [select('session_id, created_at')]; the time is the ISO
    string the column is serialised to. *)
Record t : Type := mk {
  session_id : string;
  created_at : string
}.
End SessionRow.

Module SessionData.
(** A value of [sessionMap]. *)
Record t : Type := mk {
  last_activity : string;
  message_count : nat
}.
End SessionData.

Module SessionEntry.
Record t : Type := mk {
  session_id : string;
  last_activity : string;
  message_count : nat
}.
End SessionEntry.

Module SessionStore.

(** A [Map] with string keys: its entries in the order of insertion. *)
Definition Map (V : Type) : Type := list (string * V).

Definition Map_get {V} (key : string) (m : Map V) : option V :=
  option_map snd (find (fun kv => String.eqb (fst kv) key) m).

(** [m.set(key, v)]: a new key goes last, a key that is present keeps its
    place. *)
Fixpoint Map_set {V} (key : string) (v : V) (m : Map V) : Map V :=
  match m with
  | [] => [(key, v)]
  | (k, old) :: rest =>
      if String.eqb k key then (k, v) :: rest else (k, old) :: Map_set key v rest
  end.

(** The body of the [forEach] of [getAllSessions], second listing of the
    file, lines 244-257.  [existing] is the object held by the map, so the
    two assignments change the map's entry. *)
Definition countMessage (sessionMap : Map SessionData.t) (msg : SessionRow.t)
  : Map SessionData.t :=
  match Map_get (SessionRow.session_id msg) sessionMap with
  | None =>
      Map_set (SessionRow.session_id msg)
        (SessionData.mk (SessionRow.created_at msg) 1) sessionMap
  | Some existing =>
      let existing :=
        SessionData.mk (SessionData.last_activity existing)
          (S (SessionData.message_count existing)) in
      let existing :=
        if JsOps.gt (SessionRow.created_at msg) (SessionData.last_activity existing)
        then SessionData.mk (SessionRow.created_at msg)
               (SessionData.message_count existing)
        else existing in
      Map_set (SessionRow.session_id msg) existing sessionMap
  end.

(** [getAllSessions], second listing of the file, lines 232-263: the
    aggregation is done by the client.  [data] is [None] for [null]. *)
Definition getAllSessions (answer : SupabaseResult (option (list SessionRow.t)))
  : Outcome (list SessionEntry.t) :=
  match answer with
  | SbError m => Rejected (Error ("Failed to fetch sessions: " ++ m)%string)
  | SbData data =>
      let sessionMap :=
        match data with
        | Some rows => fold_left countMessage rows []
        | None => []
        end in
      Resolved
        (map (fun '(session_id, data) =>
                SessionEntry.mk session_id (SessionData.last_activity data)
                  (SessionData.message_count data))
             sessionMap)
  end.

(** The rows of one session. *)
Definition rows_of (session : string) (data : list SessionRow.t)
  : list SessionRow.t :=
  filter (fun msg => String.eqb (SessionRow.session_id msg) session) data.

(** What [sessionMap] holds once the rows [data] have gone through the
    [forEach]: one entry for each session that has a row, with the number
    of its rows and a time that is the time of one of its rows and that
    none of its rows exceeds. *)
Definition counted (data : list SessionRow.t) (sessionMap : Map SessionData.t)
  : Prop :=
  NoDup (map fst sessionMap) /\
  (forall session, Map_get session sessionMap = None <-> rows_of session data = []) /\
  (forall session existing,
     Map_get session sessionMap = Some existing ->
     SessionData.message_count existing = length (rows_of session data) /\
     In (SessionRow.mk session (SessionData.last_activity existing)) data /\
     forall msg, In msg (rows_of session data) ->
                 JsOps.gt (SessionRow.created_at msg)
                   (SessionData.last_activity existing) = false) /\
  list_sum (map (fun kv => SessionData.message_count (snd kv)) sessionMap) =
    length data.

(** Times with the newest first: none is exceeded by a later one. *)
Fixpoint newest_first (times : list string) : bool :=
  match times with
  | [] => true
  | time :: later =>
      forallb (fun t => negb (JsOps.gt t time)) later && newest_first later
  end.

(** [DELETE FROM conversations WHERE session_id = s] *)
Definition delete_messages (session : string) (d : Database) : Database :=
  mkDatabase
    (filter (fun m => negb (String.eqb (Message.session_id m) session))
       (conversations d))
    (conversation_summaries d) (rows d).

(** [DELETE FROM conversation_summaries WHERE session_id = s] *)
Definition delete_summary (session : string) (d : Database) : Database :=
  mkDatabase (conversations d)
    (filter (fun s => negb (String.eqb (ConversationSummary.session_id s) session))
       (conversation_summaries d))
    (rows d).

Definition run_statement (error : option PostgrestError.t)
    (statement : Database -> Database) (d : Database) : Database :=
  match error with
  | None => statement d
  | Some _ => d
  end.

(** [deleteSession], lines 71-89. *)
Definition deleteSession (sessionId : string)
    (messagesError summaryError : option PostgrestError.t) (d : Database)
  : Outcome unit * Database :=
  let d := run_statement messagesError (delete_messages sessionId) d in
  match messagesError with
  | Some e =>
      (Rejected (Error ("Failed to delete messages: " ++ PostgrestError.message e)%string), d)
  | None =>
      let d := run_statement summaryError (delete_summary sessionId) d in
      match summaryError with
      | Some e =>
          if negb (String.eqb (PostgrestError.code e) "PGRST116") then
            (Rejected (Error ("Failed to delete summary: " ++ PostgrestError.message e)%string),
             d)
          else (Resolved tt, d)
      | None => (Resolved tt, d)
      end
  end.

End SessionStore.

(** The table [user_preferences] and the three methods on it.  The numbers
    of the voice settings are only stored and handed on: their type is left
    open. *)
Section Preferences.

Variable number : Type.
Variable one : number.                              (* [1.0] *)

(** [Omit<UserPreferences, 'id' | 'created_at' | 'updated_at'>] *)
Record NewPreferences : Type := mkNewPreferences {
  new_user_id : string;
  new_voice_name : string;
  new_voice_rate : number;
  new_voice_pitch : number;
  new_theme : string;
  new_memory_enabled : bool;
  new_push_to_talk : bool
}.

Record UserPreferences : Type := mkUserPreferences {
  pref_id : nat;
  pref_settings : NewPreferences;
  pref_created_at : nat;
  pref_updated_at : nat
}.

Definition pref_user_id (p : UserPreferences) : string :=
  new_user_id (pref_settings p).

Record PreferencesTable : Type := mkPreferencesTable {
  user_preferences : list UserPreferences;
  preferences_rows : nat;
  preferences_now : nat
}.

Definition select_preferences (userId : string) (t : PreferencesTable)
  : option UserPreferences :=
  find (fun p => String.eqb (pref_user_id p) userId) (user_preferences t).

(** The upsert on conflict [user_id] ([user_id] is unique in the table). *)
Definition upsert_preferences (p : NewPreferences) (t : PreferencesTable)
  : UserPreferences * PreferencesTable :=
  let others := filter (fun x => negb (String.eqb (pref_user_id x) (new_user_id p)))
                  (user_preferences t) in
  match select_preferences (new_user_id p) t with
  | Some old =>
      let row := mkUserPreferences (pref_id old) p (pref_created_at old)
                   (preferences_now t) in
      (row, mkPreferencesTable (others ++ [row]) (preferences_rows t)
              (preferences_now t))
  | None =>
      let row := mkUserPreferences (S (preferences_rows t)) p (preferences_now t)
                   (preferences_now t) in
      (row, mkPreferencesTable (others ++ [row]) (S (preferences_rows t))
              (preferences_now t))
  end.

(** [savePreferences], lines 139-153. *)
Definition savePreferences (preferences : NewPreferences)
    (error : option PostgrestError.t) (t : PreferencesTable)
  : Outcome UserPreferences * PreferencesTable :=
  match error with
  | Some e =>
      (Rejected (Error ("Failed to save preferences: " ++ PostgrestError.message e)%string), t)
  | None =>
      let '(data, t) := upsert_preferences preferences t in (Resolved data, t)
  end.

(** [getPreferences], lines 161-173. *)
Definition getPreferences (userId : string) (error : option PostgrestError.t)
    (t : PreferencesTable) : Outcome (option UserPreferences) :=
  match error with
  | Some e =>
      Rejected (Error ("Failed to fetch preferences: " ++ PostgrestError.message e)%string)
  | None => Resolved (select_preferences userId t)
  end.

(** [getOrCreatePreferences], lines 180-196. *)
Definition getOrCreatePreferences (userId : string)
    (getError saveError : option PostgrestError.t) (t : PreferencesTable)
  : Outcome UserPreferences * PreferencesTable :=
  match getPreferences userId getError t with
  | Rejected e => (Rejected e, t)
  | Resolved (Some existing) => (Resolved existing, t)
  | Resolved None =>
      savePreferences
        (mkNewPreferences userId "" one one "dark" true false) saveError t
  end.

End Preferences.

(* ================================================================== *)
(** ** [recognition.onend] ([src/services/speech.ts], lines 45-51)

    [SpeechService] above keeps the flag of the recogniser only.  Here the
    recogniser itself is followed: whether it is running, and the calls of
    its [start()] and of the end callback. *)

Module Recogniser.

Record t : Type := mk {
  isListeningFlag : bool;
  running : bool;            (* started, and its [end] event not yet delivered *)
  starts : nat;              (* calls of [recognition.start()] that succeeded *)
  failed_starts : nat;       (* calls that threw [InvalidStateError]: already started *)
  end_callbacks : nat        (* calls of [onEndCallback] *)
}.

(** [recognition.start()]: throws if the recogniser is already started. *)
Definition start (r : t) : t :=
  if running r
  then mk (isListeningFlag r) true (starts r) (S (failed_starts r)) (end_callbacks r)
  else mk (isListeningFlag r) true (S (starts r)) (failed_starts r) (end_callbacks r).

(** Lines 68-86, for a browser that has the recogniser; the exception of
    [start()] is caught. *)
Definition startListening (r : t) : t :=
  if isListeningFlag r then r
  else start (mk true (running r) (starts r) (failed_starts r) (end_callbacks r)).

(** Lines 88-99; [recognition.stop()] ends the recogniser later, with an
    [end] event. *)
Definition stopListening (r : t) : t :=
  if negb (isListeningFlag r) then r
  else mk false (running r) (starts r) (failed_starts r) (end_callbacks r).

(** The [end] event, lines 45-51; [onEndCallback] says whether an end
    callback is registered. *)
Definition onend (onEndCallback : bool) (r : t) : t :=
  let r := mk (isListeningFlag r) false (starts r) (failed_starts r)
             (end_callbacks r) in
  if isListeningFlag r then start r
  else if onEndCallback
  then mk (isListeningFlag r) (running r) (starts r) (failed_starts r)
         (S (end_callbacks r))
  else r.

End Recogniser.

(* ================================================================== *)
(** ** [App] ([src/App.tsx]) *)

Module App.

(** The API key part of the first effect, lines 30-34. *)
Definition loadApiKey (b : Session.Browser) (w : World) : World :=
  match Session.getItem "gemini_api_key" (Session.localStorage b) with
  | Some storedApiKey =>
      if truthy storedApiKey
      then GeminiService.initializeGeminiService storedApiKey w
      else w
  | None => w
  end.

(** [handleSetApiKey], lines 127-137, without its two React setters. *)
Definition handleSetApiKey (apiKeyInput : string) (b : Session.Browser) (w : World)
  : Session.Browser * World :=
  if negb (truthy (trim apiKeyInput)) then (b, w)
  else
    (Session.mkBrowser
       (Session.setItem "gemini_api_key" (trim apiKeyInput) (Session.localStorage b))
       (Session.sessionStorage b) (Session.typeErrors b),
     GeminiService.initializeGeminiService (trim apiKeyInput) w).

(** [handleClearConversation], lines 95-108.  [confirmed] is the answer to
    the dialog; the result says whether the page is reloaded. *)
Definition handleClearConversation (confirmed : bool) (sessionId : string)
    (messagesError summaryError : option PostgrestError.t)
    (b : Session.Browser) (d : Database) : bool * Session.Browser * Database :=
  if negb confirmed then (false, b, d)
  else
    match SessionStore.deleteSession sessionId messagesError summaryError d with
    | (Resolved _, d) => (true, Session.clearCurrentSession b, d)
    | (Rejected _, d) => (false, b, d)
    end.

(** What the page finds when it is loaded in the browser [b] over the
    tables [d]. *)
Definition boot (date_now : nat) (random : string) (memory_enabled : bool)
    (b : Session.Browser) (d : Database) : Boot :=
  mkBoot
    match Session.getItem "gemini_api_key" (Session.localStorage b) with
    | Some storedApiKey => if truthy storedApiKey then Some storedApiKey else None
    | None => None
    end
    (Session.getCurrentSessionId b)
    (Session.generateSessionId date_now random)
    memory_enabled d (Session.typeErrors b).

End App.

(* ================================================================== *)
(** ** White space at the head of a string *)

(** Whether [l] begins with a white space (read backwards with
    [backwards]): what [strip] tests at each of its steps. *)
Definition headWhiteSpace (backwards : bool) (l : list ascii) : bool :=
  match l with
  | a :: r1 =>
      isWhiteSpace1 a ||
      match r1 with
      | b :: r2 =>
          (if backwards then isWhiteSpace2 b a else isWhiteSpace2 a b) ||
          match r2 with
          | c :: _ => if backwards then isWhiteSpace3 c b a else isWhiteSpace3 a b c
          | [] => false
          end
      | [] => false
      end
  | [] => false
  end.

(* ================================================================== *)
(** * Properties *)

(* ------------------------------------------------------------------ *)
(** ** The world functions that branch, as unconditional updates *)

Section WorldEquations.

Lemma clearTranscriptTimeout_eq w :
  clearTranscriptTimeout w =
  set_transcriptTimeoutRef None
    (set_timers
       (match transcriptTimeoutRef w with
        | Some t => filter (fun x => negb (timer_id x =? t)) (timers w)
        | None => timers w
        end) (timer_ids w) w).
Proof. destruct w as [h p [t|] r sp g ts ids nw db tr ut te]; reflexivity. Qed.

Lemma stopListening_eq w :
  SpeechService.stopListening w =
  SpeechService.set_isListeningFlag
    (isListeningFlag (speech w) && negb (recognition (speech w))) w.
Proof.
  destruct w as [h p t r [i [|] [|] sk sc] g ts ids nw db tr ut te]; reflexivity.
Qed.

Lemma stopSpeaking_eq w :
  SpeechService.stopSpeaking w =
  with_speech (fun s => mkSpeechService (instance s) (recognition s)
                 (isListeningFlag s) (synthesis_speaking s)
                 (if synthesis_speaking s then S (synthesis_cancels s)
                  else synthesis_cancels s)) w.
Proof.
  destruct w as [h p t r [i rc l [|] sc] g ts ids nw db tr ut te]; reflexivity.
Qed.

Lemma call_onSpeakingEndCallback_eq this w :
  SpeechService.call (SpeechService.onSpeakingEndCallback this w) w =
  with_hook (fun h =>
    let cb := if instance (speech w) =? this then registered w else None in
    mkHookState (messages h) (currentTranscript h)
      match cb with
      | Some render =>
          if negb (isListening render) && negb (isProcessing render)
          then idle else avatarState h
      | None => avatarState h
      end
      (isListening h)
      match cb with Some _ => false | None => isSpeaking h end
      (isProcessing h) (error h) (sessionId h)) w.
Proof.
  unfold SpeechService.onSpeakingEndCallback, SpeechService.slot, SpeechService.call.
  destruct w as [[m c a l sp pr e sid] p t r s g ts ids nw db tr ut te]; cbn.
  destruct (instance s =? this); [|reflexivity].
  destruct r as [render|]; [|reflexivity]. cbn. unfold onSpeakingEnd.
  destruct (negb (isListening render) && negb (isProcessing render)); reflexivity.
Qed.

Lemma utterance_onstart_eq this w :
  SpeechService.utterance_onstart this w =
  with_hook (fun h =>
    let cb := if instance (speech w) =? this then registered w else None in
    mkHookState (messages h) (currentTranscript h)
      match cb with Some _ => speaking | None => avatarState h end
      (isListening h)
      match cb with Some _ => true | None => isSpeaking h end
      (isProcessing h) (error h) (sessionId h)) w.
Proof.
  unfold SpeechService.utterance_onstart, SpeechService.onSpeakingStartCallback,
    SpeechService.slot, SpeechService.call.
  destruct w as [[m c a l sp pr e sid] p t r s g ts ids nw db tr ut te]; cbn.
  destruct (instance s =? this); [|reflexivity].
  destruct r as [render|]; reflexivity.
Qed.

End WorldEquations.

(* ------------------------------------------------------------------ *)
(** ** Running the task in the last slot *)

Lemma settle_last (fl : list Suspended) (task : Suspended) (w : World) (reply : Reply)
    (r : Resp (waiting_on task)) (w1 : World) :
  answer (waiting_on task) reply w = Some (r, w1) ->
  settle (length fl) reply (mkSystem w (fl ++ [task])) =
  mkSystem (fst (start (resume task r) w1))
           (fl ++ option_list (snd (start (resume task r) w1))).
Proof.
  intros H. unfold settle. cbn [inflight world].
  rewrite nth_error_app2 by lia. rewrite Nat.sub_diag. cbn [nth_error].
  rewrite H. destruct (start (resume task r) w1) as [w' o]. cbn [fst snd].
  f_equal.
  rewrite firstn_app, Nat.sub_diag, firstn_all. cbn [firstn]. rewrite app_nil_r.
  f_equal.
  replace (S (length fl)) with (length (fl ++ [task])) by (rewrite length_app; cbn; lia).
  rewrite skipn_all. apply app_nil_r.
Qed.

Lemma utterance_start_last (fl : list Suspended) (task : Suspended) (w : World) :
  step (UtteranceStart (length fl)) (mkSystem w (fl ++ [task])) =
  match waiting_on task with
  | SynthesisSpeak this _ =>
      mkSystem (SpeechService.utterance_onstart this w) (fl ++ [task])
  | _ => mkSystem w (fl ++ [task])
  end.
Proof.
  cbn [step inflight]. rewrite nth_error_app2 by lia.
  rewrite Nat.sub_diag. cbn [nth_error option_map].
  destruct (waiting_on task); reflexivity.
Qed.

(** Symbolic execution of a pipeline: [exec] runs the code up to the next
    suspension and brings the world to constructor form; [settle_step]
    settles the request of the last slot. *)
Lemma world_eta (w : World) :
  w = mkWorld (hook w) (pendingTranscriptRef w) (transcriptTimeoutRef w)
        (registered w) (speech w) (gemini w) (timers w) (timer_ids w) (now w)
        (database w) (trace w) (utterances w) (typeError w).
Proof. destruct w; reflexivity. Qed.

Ltac world_cbn :=
  cbn -[trim ofNat String.append settle step clearTranscriptTimeout
        SpeechService.stopListening SpeechService.stopSpeaking
        SpeechService.call SpeechService.onSpeakingEndCallback
        SpeechService.utterance_onstart
        GeminiService.formatMessages GeminiService.errorResponse
        GeminiService.firstPartText select_summary select_messages Nat.ltb].

Ltac norm_world :=
  repeat match goal with
    | |- context [mkSystem ?W _] =>
        lazymatch W with
        | mkWorld _ _ _ _ _ _ _ _ _ _ _ _ _ => fail
        | fst _ => fail
        | _ => rewrite (world_eta W); world_cbn
        end
    end.

Ltac exec :=
  world_cbn;
  rewrite ?clearTranscriptTimeout_eq, ?stopListening_eq, ?stopSpeaking_eq,
          ?call_onSpeakingEndCallback_eq, ?utterance_onstart_eq;
  norm_world.

Ltac settle_step :=
  repeat match goal with
         | |- context [step (Settle ?n ?r) ?s] =>
             change (step (Settle n r) s) with (settle n r s)
         end;
  erewrite settle_last by (exec; reflexivity); exec.

Lemma insert_by_created_at_In (m x : Message.t) (l : list Message.t) :
  In m (insert_by_created_at x l) <-> m = x \/ In m l.
Proof.
  induction l as [|y l IH]; cbn [insert_by_created_at].
  - cbn [In]. intuition (subst; auto).
  - destruct (Message.created_at x <=? Message.created_at y); cbn [In].
    + intuition (subst; auto).
    + rewrite IH. intuition (subst; auto).
Qed.

Lemma order_by_created_at_In (m : Message.t) (l : list Message.t) :
  In m (order_by_created_at l) <-> In m l.
Proof.
  induction l as [|x l IH]; cbn [order_by_created_at fold_right].
  - reflexivity.
  - fold (order_by_created_at l).
    rewrite insert_by_created_at_In, IH. cbn [In]. intuition (subst; auto).
Qed.

(** The two lookups read the tables only. *)
Lemma select_summary_database session w w' :
  database w' = database w -> select_summary session w' = select_summary session w.
Proof. unfold select_summary. intros ->. reflexivity. Qed.

Lemma select_messages_In session m w :
  In m (conversations (database w)) ->
  Message.session_id m = session ->
  In m (select_messages session w).
Proof.
  intros Hin Hs. unfold select_messages.
  apply order_by_created_at_In, filter_In. split; [exact Hin|].
  rewrite Hs. apply String.eqb_refl.
Qed.

Ltac start_step :=
  rewrite utterance_start_last; exec.

Ltac submit Ht Hp :=
  unfold run, spawn, handleUserSpeech; rewrite Ht, Hp; exec.

(* ------------------------------------------------------------------ *)
(** ** The finalizer keeps a single timer *)

Section Finalizer.

Lemma keeps_refl w : keeps_finalizer w w.
Proof. split; auto. Qed.

Lemma keeps_trans w1 w2 w3 :
  keeps_finalizer w1 w2 -> keeps_finalizer w2 w3 -> keeps_finalizer w1 w3.
Proof. intros [H1 R1] [H2 R2]. split; [auto | congruence]. Qed.

(** Code that touches neither the timers, nor the reference to the pending
    timer, nor the registered callbacks. *)
Lemma keeps_frame w w' :
  timers w' = timers w ->
  transcriptTimeoutRef w' = transcriptTimeoutRef w ->
  registered w' = registered w ->
  keeps_finalizer w w'.
Proof.
  intros Ht Hr Hg. split; [|exact Hg].
  unfold single_timer. rewrite Ht, Hr. auto.
Qed.

Lemma single_timer_clear (t : nat) (w : World) :
  single_timer w -> transcriptTimeoutRef w = Some t ->
  timers (clearTimeout t w) = [].
Proof.
  unfold single_timer, clearTimeout. intros Hs Hr. cbn.
  destruct (timers w) as [|x [|y l]]; cbn; [reflexivity | | contradiction].
  rewrite Hr in Hs. injection Hs as ->. rewrite Nat.eqb_refl. reflexivity.
Qed.

Lemma single_timer_none (w : World) :
  single_timer w -> transcriptTimeoutRef w = None -> timers w = [].
Proof.
  unfold single_timer. intros Hs Hr.
  destruct (timers w) as [|x [|y l]]; [reflexivity | congruence | contradiction].
Qed.

Lemma keeps_clearTranscriptTimeout w :
  keeps_finalizer w (clearTranscriptTimeout w).
Proof.
  split.
  - intros Hs. unfold clearTranscriptTimeout.
    destruct (transcriptTimeoutRef w) as [t|] eqn:Hr; [|exact Hs].
    unfold single_timer. cbn [timers set_transcriptTimeoutRef].
    rewrite (single_timer_clear w Hs Hr). exact I.
  - unfold clearTranscriptTimeout.
    destruct (transcriptTimeoutRef w); reflexivity.
Qed.

Lemma keeps_stopListening w : keeps_finalizer w (SpeechService.stopListening w).
Proof. rewrite stopListening_eq. apply keeps_frame; reflexivity. Qed.

Lemma keeps_stopSpeaking w : keeps_finalizer w (SpeechService.stopSpeaking w).
Proof. rewrite stopSpeaking_eq. apply keeps_frame; reflexivity. Qed.

Lemma keeps_onSpeakingEnd this w :
  keeps_finalizer w (SpeechService.call (SpeechService.onSpeakingEndCallback this w) w).
Proof. rewrite call_onSpeakingEndCallback_eq. apply keeps_frame; reflexivity. Qed.

Lemma keeps_utterance_onstart this w :
  keeps_finalizer w (SpeechService.utterance_onstart this w).
Proof. rewrite utterance_onstart_eq. apply keeps_frame; reflexivity. Qed.

Lemma keeps_answer req reply w r w' :
  answer req reply w = Some (r, w') -> keeps_finalizer w w'.
Proof.
  destruct req as [m| | | | |], reply; cbn [answer];
    unfold insert_message, upsert_summary;
    try destruct (select_summary _ _);
    try destruct (NewMessage.content m) as [|[]];
    intros H; try discriminate; inversion H; subst;
    apply keeps_frame; reflexivity.
Qed.

(** The composition of tasks. *)
Lemma safe_bind A B (t : Task A) (f : A -> Task B) :
  safe_task t -> (forall a, safe_task (f a)) -> safe_task (bind t f).
Proof.
  intros Ht Hf. induction Ht; cbn [bind]; auto; constructor; auto.
Qed.

Lemma safe_try_catch A (t : Task A) (h : Thrown -> Task A) :
  safe_task t -> (forall e, safe_task (h e)) -> safe_task (try_catch t h).
Proof.
  intros Ht Hh. induction Ht; cbn [try_catch]; auto; constructor; auto.
Qed.

Lemma safe_act (f : World -> World) :
  (forall w, keeps_finalizer w (f w)) -> safe_task (act f).
Proof. intros H. constructor; [exact H | constructor]. Qed.

Lemma safe_frame (f : World -> World) :
  (forall w, timers (f w) = timers w) ->
  (forall w, transcriptTimeoutRef (f w) = transcriptTimeoutRef w) ->
  (forall w, registered (f w) = registered w) ->
  safe_task (act f).
Proof. intros. apply safe_act. intros w. apply keeps_frame; auto. Qed.

Lemma safe_read B (f : World -> B) : safe_task (read f).
Proof. constructor; [intros w; apply keeps_refl | constructor]. Qed.

Lemma safe_await req : safe_task (await req).
Proof. constructor. constructor. Qed.

Lemma safe_try_finally A (t : Task A) (fin : Task unit) :
  safe_task t -> safe_task fin -> safe_task (try_finally t fin).
Proof.
  intros Ht Hf. unfold try_finally.
  apply safe_bind.
  - apply safe_try_catch; [|constructor].
    apply safe_bind; [exact Ht | constructor].
  - intros r. apply safe_bind; [exact Hf|]. intros _. destruct r; constructor.
Qed.

Create HintDb safe.
Hint Resolve safe_bind safe_try_catch safe_try_finally safe_read safe_await
  safe_Return safe_Throw keeps_refl : safe.

Lemma safe_saveMessage m : safe_task (DatabaseService.saveMessage m).
Proof.
  unfold DatabaseService.saveMessage. apply safe_bind; auto with safe.
  intros [d|e]; constructor.
Qed.

Lemma safe_getSummary session : safe_task (DatabaseService.getSummary session).
Proof.
  unfold DatabaseService.getSummary. apply safe_bind; auto with safe.
  intros [d|e]; constructor.
Qed.

Lemma safe_saveSummary summary : safe_task (DatabaseService.saveSummary summary).
Proof.
  unfold DatabaseService.saveSummary. apply safe_bind; auto with safe.
  intros [d|e]; constructor.
Qed.

Lemma safe_getConversationMessages session :
  safe_task (DatabaseService.getConversationMessages session).
Proof.
  unfold DatabaseService.getConversationMessages. apply safe_bind; auto with safe.
  intros [d|e]; constructor.
Qed.

Lemma safe_complete A (c : Completion A) : safe_task (complete c).
Proof.
  destruct c; cbn [complete]; constructor;
    [intros w; apply keeps_refl | constructor].
Qed.

Lemma safe_makeRequest contents : safe_task (GeminiService.makeRequest contents).
Proof.
  unfold GeminiService.makeRequest.
  apply safe_bind; auto with safe. intros key.
  apply safe_bind; auto with safe. intros r. apply safe_complete.
Qed.

Lemma safe_generateResponse msgs summary :
  safe_task (GeminiService.generateResponse msgs summary).
Proof.
  unfold GeminiService.generateResponse, GeminiService.newPromise.
  cbn [bind]. constructor.
  - intros w. apply keeps_frame; reflexivity.
  - intros request. cbn [bind]. apply safe_bind.
    + apply safe_frame; reflexivity.
    + intros _. apply safe_try_finally.
      * apply safe_bind; [apply safe_makeRequest | constructor].
      * apply safe_frame; reflexivity.
Qed.

Lemma safe_speak text : safe_task (SpeechService.speak text).
Proof.
  unfold SpeechService.speak.
  apply safe_bind; auto with safe. intros this.
  apply safe_bind; [apply safe_act, keeps_stopSpeaking|]. intros _.
  apply safe_bind; [apply safe_complete|]. intros utterance.
  apply safe_bind; [apply safe_frame; reflexivity|]. intros _.
  apply safe_bind; auto with safe. intros [|e];
    (apply safe_bind; [apply safe_act; intros w; apply keeps_onSpeakingEnd|]);
    intros _; constructor.
Qed.

Lemma safe_handleUserSpeech render text :
  safe_task (handleUserSpeech render text).
Proof.
  unfold handleUserSpeech.
  destruct (negb (truthy (trim text)) || isProcessing render); [constructor|].
  apply safe_bind; [apply safe_act, keeps_clearTranscriptTimeout|]. intros _.
  apply safe_bind; [apply safe_frame; reflexivity|]. intros _.
  apply safe_bind; [apply safe_frame; reflexivity|]. intros _.
  apply safe_bind; [apply safe_act, keeps_stopListening|]. intros _.
  apply safe_bind; [apply safe_frame; reflexivity|]. intros _.
  apply safe_bind; [apply safe_frame; reflexivity|]. intros _.
  apply safe_bind; [apply safe_frame; reflexivity|]. intros _.
  apply safe_try_catch.
  - apply safe_bind; [apply safe_saveMessage|]. intros savedUserMessage.
    apply safe_bind; [apply safe_frame; reflexivity|]. intros _.
    apply safe_bind; [apply safe_read|]. intros initialized.
    destruct (negb initialized); [constructor|].
    apply safe_bind; [apply safe_getSummary|]. intros summary.
    apply safe_bind; [apply safe_generateResponse|]. intros aiResponse.
    apply safe_bind; [apply safe_saveMessage|]. intros savedAiMessage.
    apply safe_bind; [apply safe_frame; reflexivity|]. intros _.
    apply safe_bind; [apply safe_frame; reflexivity|]. intros _.
    apply safe_bind; [apply safe_speak|]. intros _.
    destruct (20 <? length (messages render)); [|constructor].
    apply safe_bind; [apply safe_saveSummary|]. intros _. constructor.
  - intros err.
    apply safe_bind; [apply safe_frame; reflexivity|]. intros _.
    apply safe_bind; [apply safe_frame; reflexivity|]. intros _.
    apply safe_frame; reflexivity.
Qed.

Lemma safe_timerTask cb : safe_task (timerTask cb).
Proof.
  destruct cb as [render transcript | render]; cbn [timerTask].
  - apply safe_bind; [apply safe_frame; reflexivity|]. intros _.
    apply safe_handleUserSpeech.
  - apply safe_bind; [apply safe_read|]. intros pending.
    destruct (truthy (trim pending)); [|constructor].
    apply safe_bind; [apply safe_frame; reflexivity|]. intros _.
    apply safe_handleUserSpeech.
Qed.

Lemma safe_initSession stored fresh memory :
  safe_task (initSession stored fresh memory).
Proof.
  unfold initSession.
  apply safe_bind; [apply safe_frame; reflexivity|]. intros _.
  destruct memory; [|constructor].
  apply safe_try_catch; [|constructor].
  apply safe_bind; [apply safe_getConversationMessages|]. intros loaded.
  apply safe_frame; reflexivity.
Qed.

(** Running a safe task keeps the finalizer, and what it leaves suspended
    is safe. *)
Lemma start_safe (t : Task unit) :
  safe_task t ->
  forall w,
    keeps_finalizer w (fst (start t w)) /\
    (forall task, snd (start t w) = Some task ->
                  forall r, safe_task (resume task r)).
Proof.
  induction 1 as [a | e | B f k Hf Hk IH | req k Hk IH]; intros w; cbn [start].
  - split; [apply keeps_refl | discriminate].
  - split; [apply keeps_refl | discriminate].
  - specialize (Hf w). destruct (f w) as [b w']. cbn [snd] in Hf.
    destruct (IH b w') as [H1 H2]. split; [|exact H2].
    eapply keeps_trans; eassumption.
  - cbn [fst snd]. split.
    + apply keeps_frame; reflexivity.
    + intros task [= <-]. exact Hk.
Qed.

Lemma spawn_keeps (t : Task unit) (s : System) :
  safe_task t ->
  single_timer (world s) ->
  Forall (fun task => forall r, safe_task (resume task r)) (inflight s) ->
  single_timer (world (spawn t s)) /\
  registered (world (spawn t s)) = registered (world s) /\
  Forall (fun task => forall r, safe_task (resume task r)) (inflight (spawn t s)).
Proof.
  intros Ht Hs Hf. unfold spawn.
  destruct (start_safe Ht (world s)) as [[K1 K2] K3].
  destruct (start t (world s)) as [w' o]. cbn [fst snd] in *.
  repeat split; cbn [world inflight]; auto.
  apply Forall_app. split; [exact Hf|].
  destruct o as [task|]; cbn; constructor; [|constructor].
  apply K3. reflexivity.
Qed.

Lemma spawn_inv (t : Task unit) (s : System) :
  safe_task t -> finalizer_inv s -> finalizer_inv (spawn t s).
Proof.
  intros Ht (Hs & Hr & Hf).
  destruct (spawn_keeps s Ht Hs Hf) as (H1 & H2 & H3).
  repeat split; auto. congruence.
Qed.

Lemma over_world_inv (f : World -> World) (s : System) :
  keeps_finalizer (world s) (f (world s)) ->
  finalizer_inv s -> finalizer_inv (over_world f s).
Proof.
  intros [K1 K2] (Hs & Hr & Hf). repeat split; cbn; auto. congruence.
Qed.

Lemma In_firstn_skipn A (x : A) n l :
  In x (firstn n l) \/ In x (skipn n l) -> In x l.
Proof.
  intros H. rewrite <- (firstn_skipn n l). apply in_or_app. exact H.
Qed.

Lemma settle_inv slot reply (s : System) :
  finalizer_inv s -> finalizer_inv (settle slot reply s).
Proof.
  intros Hinv. pose proof Hinv as (Hs & Hr & Hf). unfold settle.
  destruct (nth_error (inflight s) slot) as [task|] eqn:Hn; [|exact Hinv].
  destruct (answer (waiting_on task) reply (world s)) as [[r w]|] eqn:Ha;
    [|exact Hinv].
  apply keeps_answer in Ha. destruct Ha as [A1 A2].
  assert (Htask : safe_task (resume task r)).
  { rewrite Forall_forall in Hf. eapply Hf, nth_error_In, Hn. }
  destruct (start_safe Htask w) as [[K1 K2] K3].
  destruct (start (resume task r) w) as [w' o]. cbn [fst snd] in *.
  repeat split; cbn [world inflight].
  - auto.
  - congruence.
  - rewrite Forall_forall in *. intros x Hx.
    apply in_app_or in Hx as [Hx | Hx];
      [apply Hf; eapply In_firstn_skipn; left; eassumption|].
    apply in_app_or in Hx as [Hx | Hx];
      [|apply Hf; eapply In_firstn_skipn; right; eassumption].
    destruct o as [task'|]; cbn in Hx; [|contradiction].
    destruct Hx as [<- | []]. apply K3. reflexivity.
Qed.

Lemma keeps_onTranscript render transcript isFinal w :
  keeps_finalizer w (onTranscript render transcript isFinal w).
Proof.
  split.
  - intros Hs. unfold onTranscript.
    assert (Hclear :
      timers (match transcriptTimeoutRef
                      (set_pendingTranscriptRef transcript
                         (setCurrentTranscript transcript w)) with
              | Some t => clearTimeout t
                            (set_pendingTranscriptRef transcript
                               (setCurrentTranscript transcript w))
              | None => set_pendingTranscriptRef transcript
                          (setCurrentTranscript transcript w)
              end) = []).
    { cbn [transcriptTimeoutRef set_pendingTranscriptRef setCurrentTranscript
             with_hook].
      destruct (transcriptTimeoutRef w) as [t|] eqn:Hr.
      - apply (single_timer_clear
                 (set_pendingTranscriptRef transcript
                    (setCurrentTranscript transcript w))); assumption.
      - apply (single_timer_none w Hs Hr). }
    destruct (isFinal && truthy (trim transcript));
      [|destruct (negb isFinal)];
      unfold single_timer, setTimeout;
      cbn [timers transcriptTimeoutRef set_transcriptTimeoutRef set_timers];
      rewrite Hclear; cbn; auto.
  - unfold onTranscript.
    destruct (isFinal && truthy (trim transcript));
      [|destruct (negb isFinal)];
      cbn; destruct (transcriptTimeoutRef w); reflexivity.
Qed.

Lemma single_timer_voice_change render w :
  single_timer w -> single_timer (speechEffect render (speechEffectCleanup w)).
Proof.
  intros Hs. unfold speechEffect, speechEffectCleanup, SpeechService.cleanup.
  rewrite stopSpeaking_eq, stopListening_eq.
  unfold single_timer in *. cbn.
  destruct (transcriptTimeoutRef w) as [t|] eqn:Hr; cbn.
  - destruct (timers w) as [|x [|y l]]; cbn; [exact I | | contradiction].
    injection Hs as ->. rewrite Nat.eqb_refl. exact I.
  - destruct (timers w) as [|x [|y l]]; [exact I | discriminate | contradiction].
Qed.

Lemma fire_inv (t : Timer) (s : System) :
  finalizer_inv s -> finalizer_inv (fire t s).
Proof.
  intros Hinv. unfold fire.
  destruct (existsb _ _) eqn:He; [|exact Hinv].
  apply spawn_inv; [apply safe_timerTask|].
  apply over_world_inv; [|exact Hinv].
  destruct Hinv as (Hs & _ & _). split; [|reflexivity].
  intros _. unfold single_timer, clearTimeout. cbn [timers set_timers transcriptTimeoutRef].
  unfold single_timer in Hs.
  destruct (timers (world s)) as [|x [|y l]]; cbn; [exact I | | contradiction].
  destruct (negb (timer_id x =? timer_id t)); cbn; auto.
Qed.

Lemma elapse_inv ms (s : System) :
  finalizer_inv s -> finalizer_inv (elapse ms s).
Proof.
  intros Hinv. unfold elapse.
  set (s' := over_world _ s).
  assert (Hs' : finalizer_inv s').
  { apply over_world_inv; [apply keeps_frame; reflexivity | exact Hinv]. }
  generalize (fold_right insert_by_deadline []
                (filter (fun t => deadline t <=? now (world s')) (timers (world s')))).
  intros due. revert Hs'. generalize s'. clear.
  induction due as [|t due IH]; intros s Hs; cbn [fold_left]; auto using fire_inv.
Qed.

Lemma step_inv (e : Event) (s : System) :
  finalizer_inv s -> finalizer_inv (step e s).
Proof.
  intros Hinv.
  destruct e as [ms | transcript isFinal | err | slot | slot reply | | | | | ];
    cbn [step].
  - apply elapse_inv, Hinv.
  - apply over_world_inv; [|exact Hinv].
    unfold SpeechService.recognition_onresult, SpeechService.onTranscriptCallback,
      SpeechService.slot.
    rewrite Nat.eqb_refl.
    destruct (registered (world s)); cbn;
      [apply keeps_onTranscript | apply keeps_refl].
  - apply over_world_inv; [|exact Hinv].
    unfold SpeechService.recognition_onerror, SpeechService.onErrorCallback,
      SpeechService.slot.
    rewrite Nat.eqb_refl.
    destruct (String.eqb err "no-speech"); [apply keeps_refl|].
    destruct (String.eqb err "aborted"); [apply keeps_refl|].
    destruct (registered (world s)); cbn;
      [apply keeps_frame; reflexivity | apply keeps_refl].
  - destruct (option_map waiting_on (nth_error (inflight s) slot)) as [[]|];
      try exact Hinv.
    apply over_world_inv; [apply keeps_utterance_onstart | exact Hinv].
  - apply settle_inv, Hinv.
  - apply over_world_inv; [|exact Hinv].
    unfold startListening.
    destruct (negb (SpeechService.isSupported (world s)));
      [apply keeps_frame; reflexivity|].
    unfold SpeechService.startListening. cbn [speech setError with_hook].
    destruct (negb (recognition (speech (world s)))).
    + unfold SpeechService.onErrorCallback, SpeechService.slot.
      cbn [speech setError with_hook registered]. rewrite Nat.eqb_refl.
      destruct (registered (world s)); apply keeps_frame; reflexivity.
    + destruct (isListeningFlag (speech (world s))); apply keeps_frame; reflexivity.
  - apply over_world_inv; [|exact Hinv].
    unfold stopListening. rewrite stopListening_eq.
    destruct (negb _ && negb _); apply keeps_frame; reflexivity.
  - apply over_world_inv; [apply keeps_stopSpeaking | exact Hinv].
  - apply over_world_inv; [apply keeps_frame; reflexivity | exact Hinv].
  - destruct Hinv as (Hs & Hr & Hf). repeat split; cbn [over_world world inflight].
    + apply single_timer_voice_change, Hs.
    + discriminate.
    + exact Hf.
Qed.

Lemma mount_inv (b : Boot) : finalizer_inv (mount b).
Proof.
  unfold mount.
  set (w := match gemini_api_key b with Some _ => _ | None => _ end).
  assert (Hw : single_timer w).
  { subst w. destruct (gemini_api_key b); exact I. }
  destruct (spawn_keeps (mkSystem w [])
              (safe_initSession (current_session_id b) (next_session_id b)
                 (memory_enabled b)) Hw (Forall_nil _)) as (H1 & H2 & H3).
  repeat split; cbn [over_world world inflight]; auto.
  discriminate.
Qed.

(** Every state the hook can reach satisfies the invariant. *)
Lemma run_inv (es : list Event) (s : System) :
  finalizer_inv s -> finalizer_inv (run es s).
Proof.
  unfold run. revert s.
  induction es as [|e es IH]; intros s Hs; cbn [fold_left]; auto using step_inv.
Qed.

Lemma reachable_inv (b : Boot) (es : list Event) :
  finalizer_inv (run es (mount b)).
Proof. apply run_inv, mount_inv. Qed.

End Finalizer.

(* ------------------------------------------------------------------ *)
(** ** Debouncing *)

Section Debounce.

Lemma truthy_true (s : string) : truthy s = true <-> s <> "".
Proof. destruct s; cbn; split; congruence. Qed.

Lemma truthy_false (s : string) : truthy s = false <-> s = "".
Proof. destruct s; cbn; split; congruence. Qed.

(** What the transcript callback leaves behind. *)
Lemma onTranscript_timers render transcript isFinal w :
  single_timer w ->
  timers (onTranscript render transcript isFinal w) =
    if isFinal && truthy (trim transcript)
    then [mkTimer (S (timer_ids w)) (now w + 1000) (FinalTimeout render transcript)]
    else if negb isFinal
         then [mkTimer (S (timer_ids w)) (now w + 2000) (InterimTimeout render)]
         else [].
Proof.
  intros Hs. unfold onTranscript.
  set (w1 := set_pendingTranscriptRef transcript (setCurrentTranscript transcript w)).
  assert (Hc : timers (match transcriptTimeoutRef w1 with
                       | Some t => clearTimeout t w1
                       | None => w1
                       end) = []).
  { subst w1. cbn [transcriptTimeoutRef set_pendingTranscriptRef
                     setCurrentTranscript with_hook].
    destruct (transcriptTimeoutRef w) as [t|] eqn:Hr.
    - apply (single_timer_clear
               (set_pendingTranscriptRef transcript
                  (setCurrentTranscript transcript w))); assumption.
    - apply (single_timer_none w Hs Hr). }
  assert (Hn : now (match transcriptTimeoutRef w1 with
                    | Some t => clearTimeout t w1
                    | None => w1
                    end) = now w /\
               timer_ids (match transcriptTimeoutRef w1 with
                          | Some t => clearTimeout t w1
                          | None => w1
                          end) = timer_ids w).
  { subst w1. cbn. destruct (transcriptTimeoutRef w); cbn; auto. }
  destruct Hn as (Hnow & Hids).
  destruct (isFinal && truthy (trim transcript)); [|destruct (negb isFinal)];
    unfold setTimeout; cbn [timers set_transcriptTimeoutRef set_timers];
    rewrite ?Hc, ?Hnow, ?Hids; reflexivity.
Qed.

Lemma onTranscript_frame render transcript isFinal w :
  utterances (onTranscript render transcript isFinal w) = utterances w /\
  now (onTranscript render transcript isFinal w) = now w /\
  pendingTranscriptRef (onTranscript render transcript isFinal w) = transcript.
Proof.
  unfold onTranscript.
  destruct (isFinal && truthy (trim transcript)); [|destruct (negb isFinal)];
    cbn; destruct (transcriptTimeoutRef w); cbn; auto.
Qed.

Lemma recognition_result_world render transcript isFinal (s : System) :
  registered (world s) = Some render ->
  world (step (RecognitionResult transcript isFinal) s) =
  onTranscript render transcript isFinal (world s).
Proof.
  intros Hr. cbn [step over_world world].
  unfold SpeechService.recognition_onresult, SpeechService.onTranscriptCallback,
    SpeechService.slot.
  rewrite Nat.eqb_refl, Hr. reflexivity.
Qed.

(** Time passing when no timer, or one timer, is set. *)
Lemma elapse_no_timer ms (s : System) :
  timers (world s) = [] ->
  elapse ms s = over_world (fun w => set_now (now w + ms) w) s.
Proof.
  intros Ht. unfold elapse. cbn [over_world world timers set_now].
  rewrite Ht. reflexivity.
Qed.

Lemma elapse_one_timer ms (t : Timer) (s : System) :
  timers (world s) = [t] ->
  elapse ms s =
  if deadline t <=? now (world s) + ms
  then spawn (timerTask (callback t))
         (over_world (fun w => clearTimeout (timer_id t) (set_now (now w + ms) w)) s)
  else over_world (fun w => set_now (now w + ms) w) s.
Proof.
  intros Ht. unfold elapse. cbn [over_world world timers set_now now].
  rewrite Ht. cbn [filter].
  destruct (deadline t <=? now (world s) + ms); cbn [fold_right fold_left];
    [|reflexivity].
  cbn [insert_by_deadline fold_left]. unfold fire.
  cbn [over_world world timers set_now]. rewrite Ht. cbn [existsb].
  rewrite Nat.eqb_refl. reflexivity.
Qed.

End Debounce.
(* ------------------------------------------------------------------ *)
(** ** Trimming *)

Section Trim.

Lemma strip_fix (backwards : bool) (l : list ascii) :
  headWhiteSpace backwards l = false -> strip backwards l = l.
Proof.
  destruct l as [|a [|b [|c r]]]; cbn [headWhiteSpace strip]; [reflexivity| | |].
  - rewrite orb_false_r. intros ->. reflexivity.
  - intros H. apply orb_false_elim in H as [-> H].
    rewrite orb_false_r in H. rewrite H. reflexivity.
  - intros H. apply orb_false_elim in H as [-> H].
    apply orb_false_elim in H as [-> ->]. reflexivity.
Qed.

Lemma strip_head_bounded (backwards : bool) (n : nat) :
  forall l, length l <= n -> headWhiteSpace backwards (strip backwards l) = false.
Proof.
  induction n as [|n IH]; intros l Hl.
  - destruct l; [reflexivity | cbn in Hl; lia].
  - destruct l as [|a r1]; [reflexivity|]. cbn [length] in Hl. cbn [strip].
    destruct (isWhiteSpace1 a) eqn:E1; [apply IH; lia|].
    destruct r1 as [|b r2]; [cbn; rewrite E1; reflexivity|]. cbn [length] in Hl.
    destruct (if backwards then isWhiteSpace2 b a else isWhiteSpace2 a b) eqn:E2;
      [apply IH; lia|].
    destruct r2 as [|c r3]; [cbn; rewrite E1, E2; reflexivity|]. cbn [length] in Hl.
    destruct (if backwards then isWhiteSpace3 c b a else isWhiteSpace3 a b c) eqn:E3;
      [apply IH; lia|].
    cbn [headWhiteSpace]. rewrite E1, E2, E3. reflexivity.
Qed.

(** What [strip] returns does not begin with a white space, *)
Lemma strip_head (backwards : bool) (l : list ascii) :
  headWhiteSpace backwards (strip backwards l) = false.
Proof. apply (strip_head_bounded backwards (n := length l)). lia. Qed.

Lemma strip_suffix_bounded (backwards : bool) (n : nat) :
  forall l, length l <= n -> exists p, l = p ++ strip backwards l.
Proof.
  induction n as [|n IH]; intros l Hl.
  - destruct l; [exists []; reflexivity | cbn in Hl; lia].
  - destruct l as [|a r1]; [exists []; reflexivity|]. cbn [length] in Hl.
    cbn [strip].
    destruct (isWhiteSpace1 a).
    { destruct (IH r1) as [p Hp]; [lia|]. exists (a :: p). cbn. congruence. }
    destruct r1 as [|b r2]; [exists []; reflexivity|]. cbn [length] in Hl.
    destruct (if backwards then isWhiteSpace2 b a else isWhiteSpace2 a b).
    { destruct (IH r2) as [p Hp]; [lia|]. exists (a :: b :: p). cbn. congruence. }
    destruct r2 as [|c r3]; [exists []; reflexivity|]. cbn [length] in Hl.
    destruct (if backwards then isWhiteSpace3 c b a else isWhiteSpace3 a b c).
    { destruct (IH r3) as [p Hp]; [lia|]. exists (a :: b :: c :: p). cbn. congruence. }
    exists []. reflexivity.
Qed.

(** and it is the end of what [strip] was given. *)
Lemma strip_suffix (backwards : bool) (l : list ascii) :
  exists p, l = p ++ strip backwards l.
Proof. apply (strip_suffix_bounded backwards (n := length l)). lia. Qed.

(** A string that does not begin with a white space has no beginning
    that does. *)
Lemma headWhiteSpace_prefix (v t : list ascii) :
  headWhiteSpace false (v ++ t) = false -> headWhiteSpace false v = false.
Proof.
  destruct v as [|a [|b [|c v]]]; cbn [app headWhiteSpace]; [reflexivity| | |].
  - intros H. apply orb_false_elim in H as [-> _]. reflexivity.
  - intros H. apply orb_false_elim in H as [-> H].
    apply orb_false_elim in H as [-> _]. reflexivity.
  - intros H. exact H.
Qed.

(** Trimming twice is trimming once. *)
Lemma trim_idempotent (s : string) : trim (trim s) = trim s.
Proof.
  unfold trim, trimEnd, trimStart.
  rewrite !list_ascii_of_string_of_list_ascii.
  set (u := strip false (list_ascii_of_string s)).
  set (x := strip true (rev u)).
  assert (Hv : strip false (rev x) = rev x).
  { apply strip_fix.
    destruct (strip_suffix true (rev u)) as [p Hp]. fold x in Hp.
    assert (Hu : u = rev x ++ rev p).
    { rewrite <- (rev_involutive u), Hp, rev_app_distr. reflexivity. }
    apply (@headWhiteSpace_prefix (rev x) (rev p)).
    rewrite <- Hu. apply strip_head. }
  rewrite Hv, rev_involutive.
  rewrite (strip_fix true x) by apply strip_head.
  reflexivity.
Qed.

End Trim.
(* ------------------------------------------------------------------ *)
(** ** The render the speech callbacks belong to *)

Section FirstRender.

(** No event but a change of a voice preference touches the registered
    callbacks. *)
Lemma fire_registered (t : Timer) (s : System) :
  finalizer_inv s -> registered (world (fire t s)) = registered (world s).
Proof.
  intros Hinv. unfold fire.
  destruct (existsb _ _) eqn:He; [|reflexivity].
  assert (H : finalizer_inv (over_world (clearTimeout (timer_id t)) s)).
  { apply over_world_inv; [|exact Hinv].
    destruct Hinv as (Hs & _ & _). split; [|reflexivity].
    intros _. unfold single_timer, clearTimeout.
    cbn [timers set_timers transcriptTimeoutRef].
    unfold single_timer in Hs.
    destruct (timers (world s)) as [|x [|y l]]; cbn; [exact I | | contradiction].
    destruct (negb (timer_id x =? timer_id t)); cbn; auto. }
  destruct H as (Hs & _ & Hf).
  destruct (spawn_keeps _ (safe_timerTask (callback t)) Hs Hf) as (_ & -> & _).
  reflexivity.
Qed.

Lemma elapse_registered ms (s : System) :
  finalizer_inv s -> registered (world (elapse ms s)) = registered (world s).
Proof.
  intros Hinv. unfold elapse.
  set (s' := over_world _ s).
  assert (Hs' : finalizer_inv s').
  { apply over_world_inv; [apply keeps_frame; reflexivity | exact Hinv]. }
  change (registered (world s)) with (registered (world s')).
  generalize (fold_right insert_by_deadline []
                (filter (fun t => deadline t <=? now (world s')) (timers (world s')))).
  intros due. revert Hs'. generalize s'. clear.
  induction due as [|t due IH]; intros s Hs; cbn [fold_left]; [reflexivity|].
  rewrite IH by (apply fire_inv, Hs). apply fire_registered, Hs.
Qed.

Lemma settle_registered slot reply (s : System) :
  finalizer_inv s -> registered (world (settle slot reply s)) = registered (world s).
Proof.
  intros (Hs & Hr & Hf). unfold settle.
  destruct (nth_error (inflight s) slot) as [task|] eqn:Hn; [|reflexivity].
  destruct (answer (waiting_on task) reply (world s)) as [[r w]|] eqn:Ha;
    [|reflexivity].
  apply keeps_answer in Ha. destruct Ha as [A1 A2].
  assert (Htask : safe_task (resume task r)).
  { rewrite Forall_forall in Hf. eapply Hf, nth_error_In, Hn. }
  destruct (start_safe Htask w) as [[K1 K2] K3].
  destruct (start (resume task r) w) as [w' o]. cbn [fst snd world] in *.
  congruence.
Qed.

Lemma step_registered (e : Event) (s : System) :
  finalizer_inv s -> e <> VoiceChange ->
  registered (world (step e s)) = registered (world s).
Proof.
  intros Hinv He.
  destruct e as [ms | transcript isFinal | err | slot | slot reply | | | | | ];
    cbn [step]; try congruence.
  - apply elapse_registered, Hinv.
  - cbn [over_world world].
    unfold SpeechService.recognition_onresult, SpeechService.onTranscriptCallback,
      SpeechService.slot.
    rewrite Nat.eqb_refl.
    destruct (registered (world s)) eqn:Hr; cbn; [|exact Hr].
    rewrite <- Hr. apply keeps_onTranscript.
  - cbn [over_world world].
    unfold SpeechService.recognition_onerror, SpeechService.onErrorCallback,
      SpeechService.slot.
    rewrite Nat.eqb_refl.
    destruct (String.eqb err "no-speech"); [reflexivity|].
    destruct (String.eqb err "aborted"); [reflexivity|].
    destruct (registered (world s)) eqn:Hr; cbn; exact Hr.
  - destruct (option_map waiting_on (nth_error (inflight s) slot)) as [[]|];
      try reflexivity.
    apply keeps_utterance_onstart.
  - apply settle_registered, Hinv.
  - cbn [over_world world]. unfold startListening.
    destruct (negb (SpeechService.isSupported (world s))); [reflexivity|].
    unfold SpeechService.startListening. cbn [speech setError with_hook].
    destruct (negb (recognition (speech (world s)))).
    + unfold SpeechService.onErrorCallback, SpeechService.slot.
      cbn [speech setError with_hook registered]. rewrite Nat.eqb_refl.
      destruct (registered (world s)) eqn:Hr; cbn; exact Hr.
    + destruct (isListeningFlag (speech (world s))); reflexivity.
  - cbn [over_world world]. unfold stopListening. rewrite stopListening_eq.
    destruct (negb _ && negb _); reflexivity.
  - apply keeps_stopSpeaking.
  - reflexivity.
Qed.

Lemma registered_first_render (b : Boot) (history : list Event) :
  ~ In VoiceChange history ->
  registered (world (run history (mount b))) = Some firstRender.
Proof.
  intros Hno. unfold run. rewrite <- (rev_involutive history) in *.
  induction (rev history) as [|e es IH]; cbn [rev].
  - cbn [fold_left]. reflexivity.
  - rewrite fold_left_app. cbn [fold_left].
    cbn [rev] in Hno. rewrite in_app_iff in Hno.
    rewrite step_registered.
    + apply IH. tauto.
    + apply (run_inv (rev es) (mount_inv b)).
    + intros ->. apply Hno. right. left. reflexivity.
Qed.

End FirstRender.

Lemma select_messages_iff session m w :
  In m (select_messages session w) <->
  In m (conversations (database w)) /\ Message.session_id m = session.
Proof.
  unfold select_messages. rewrite order_by_created_at_In, filter_In.
  rewrite String.eqb_eq. reflexivity.
Qed.

(* ------------------------------------------------------------------ *)
(** ** When the timer of a transcript fires *)

Section TimerFires.

(** What the two timer callbacks run. *)
Lemma spawn_final_timeout render transcript (s : System) :
  spawn (timerTask (FinalTimeout render transcript)) s =
  spawn (handleUserSpeech render (trim transcript))
    (over_world (log_utterance (trim transcript)) s).
Proof. reflexivity. Qed.

Lemma spawn_interim_timeout render (s : System) :
  spawn (timerTask (InterimTimeout render)) s =
  if truthy (trim (pendingTranscriptRef (world s)))
  then spawn (handleUserSpeech render (trim (pendingTranscriptRef (world s))))
         (over_world (log_utterance (trim (pendingTranscriptRef (world s)))) s)
  else s.
Proof.
  unfold spawn. cbn [timerTask bind read start].
  destruct (truthy (trim (pendingTranscriptRef (world s)))); [reflexivity|].
  destruct s as [w fl]. cbn. rewrite app_nil_r. reflexivity.
Qed.

(** A call that passes the guard issues the insertion of the user message
    and stays suspended on it; it leaves no timer. *)
Lemma spawn_handleUserSpeech render text (s : System) :
  truthy (trim text) = true ->
  isProcessing render = false ->
  let s' := spawn (handleUserSpeech render text) s in
  let insertion :=
    SupabaseInsertMessage (NewMessage.mk (sessionId render) user text []) in
  trace (world s') = trace (world s) ++ [insertion] /\
  map waiting_on (inflight s') = map waiting_on (inflight s) ++ [insertion] /\
  (timers (world s) = [] -> timers (world s') = []) /\
  utterances (world s') = utterances (world s) /\
  database (world s') = database (world s) /\
  messages (hook (world s')) = messages (hook (world s)).
Proof.
  intros Ht Hp. destruct s as [w fl].
  unfold spawn, handleUserSpeech. rewrite Ht, Hp.
  cbn -[clearTranscriptTimeout SpeechService.stopListening trim].
  rewrite stopListening_eq, clearTranscriptTimeout_eq. cbn -[trim].
  rewrite map_app. repeat split.
  intros ->. destruct (transcriptTimeoutRef w); reflexivity.
Qed.

(** The transcript callback, in a state with at most one timer: what it
    leaves and what happens when the time is over. *)
Lemma final_transcript_fires render T quiet (s : System) :
  single_timer (world s) ->
  registered (world s) = Some render ->
  truthy (trim T) = true ->
  let s1 := step (RecognitionResult T true) s in
  timers (world s1) =
    [mkTimer (S (timer_ids (world s))) (now (world s) + 1000)
       (FinalTimeout render T)] /\
  (quiet < 1000 ->
     elapse quiet s1 = over_world (fun w => set_now (now w + quiet) w) s1) /\
  (1000 <= quiet ->
     elapse quiet s1 =
     spawn (handleUserSpeech render (trim T))
       (over_world
          (fun w => log_utterance (trim T)
                      (clearTimeout (S (timer_ids (world s)))
                         (set_now (now w + quiet) w))) s1)).
Proof.
  intros Hs Hreg HT s1.
  pose proof (recognition_result_world T true s Hreg) as Hw. fold s1 in Hw.
  pose proof (onTranscript_timers render T true (world s) Hs) as Ht.
  destruct (onTranscript_frame render T true (world s)) as (_ & Hn & _).
  rewrite <- Hw in Ht, Hn. cbn [andb] in Ht. rewrite HT in Ht.
  split; [exact Ht|].
  rewrite (elapse_one_timer quiet s1 Ht). cbn [deadline timer_id callback].
  rewrite Hn. split; intros Hq.
  - replace (_ <=? _) with false by (symmetry; apply Nat.leb_gt; lia).
    reflexivity.
  - replace (_ <=? _) with true by (symmetry; apply Nat.leb_le; lia).
    rewrite spawn_final_timeout. reflexivity.
Qed.

Lemma interim_transcript_fires render T quiet (s : System) :
  single_timer (world s) ->
  registered (world s) = Some render ->
  let s1 := step (RecognitionResult T false) s in
  timers (world s1) =
    [mkTimer (S (timer_ids (world s))) (now (world s) + 2000)
       (InterimTimeout render)] /\
  (quiet < 2000 ->
     elapse quiet s1 = over_world (fun w => set_now (now w + quiet) w) s1) /\
  (2000 <= quiet ->
     elapse quiet s1 =
     if truthy (trim T)
     then spawn (handleUserSpeech render (trim T))
            (over_world
               (fun w => log_utterance (trim T)
                           (clearTimeout (S (timer_ids (world s)))
                              (set_now (now w + quiet) w))) s1)
     else over_world
            (fun w => clearTimeout (S (timer_ids (world s)))
                        (set_now (now w + quiet) w)) s1).
Proof.
  intros Hs Hreg s1.
  pose proof (recognition_result_world T false s Hreg) as Hw. fold s1 in Hw.
  pose proof (onTranscript_timers render T false (world s) Hs) as Ht.
  destruct (onTranscript_frame render T false (world s)) as (_ & Hn & Hp).
  rewrite <- Hw in Ht, Hn, Hp. cbn [andb negb] in Ht.
  split; [exact Ht|].
  rewrite (elapse_one_timer quiet s1 Ht). cbn [deadline timer_id callback].
  rewrite Hn. split; intros Hq.
  - replace (_ <=? _) with false by (symmetry; apply Nat.leb_gt; lia).
    reflexivity.
  - replace (_ <=? _) with true by (symmetry; apply Nat.leb_le; lia).
    rewrite spawn_interim_timeout.
    cbn [over_world world pendingTranscriptRef clearTimeout set_timers set_now].
    rewrite Hp. reflexivity.
Qed.

(** What the transcript callback leaves of the rest of the world. *)
Lemma onTranscript_rest render transcript isFinal w :
  trace (onTranscript render transcript isFinal w) = trace w /\
  database (onTranscript render transcript isFinal w) = database w /\
  gemini (onTranscript render transcript isFinal w) = gemini w /\
  messages (hook (onTranscript render transcript isFinal w)) = messages (hook w).
Proof.
  unfold onTranscript.
  destruct (isFinal && truthy (trim transcript)); [|destruct (negb isFinal)];
    cbn; destruct (transcriptTimeoutRef w); cbn; auto.
Qed.

(** An utterance in the page as it was mounted: as long as no voice
    preference has changed, one second after a final transcript with text
    the handler of the first render is called with the trimmed text, in a
    world [w1] that differs from the one before the transcript by the
    transcript shown, the clock and the log of calls only. *)
Lemma mounted_utterance (b : Boot) (history : list Event) (T : string)
    (es : list Event) :
  ~ In VoiceChange history ->
  trim T <> "" ->
  let s := run history (mount b) in
  exists w1,
    run ([RecognitionResult T true; Elapse 1000] ++ es) s =
      run es (spawn (handleUserSpeech firstRender (trim T))
                (mkSystem w1 (inflight s))) /\
    truthy (trim (trim T)) = true /\
    trace w1 = trace (world s) /\
    database w1 = database (world s) /\
    gemini w1 = gemini (world s) /\
    messages (hook w1) = messages (hook (world s)) /\
    sessionId (hook w1) = sessionId (hook (world s)) /\
    speech w1 = speech (world s) /\
    typeError w1 = typeError (world s) /\
    now w1 = now (world s) + 1000.
Proof.
  intros Hno HT s.
  pose proof (registered_first_render b history Hno) as Hreg. fold s in Hreg.
  destruct (reachable_inv b history) as (Hs & _ & _). fold s in Hs.
  apply truthy_true in HT.
  destruct (@final_transcript_fires firstRender T 1000 s Hs Hreg HT) as (_ & _ & Hq).
  eexists. split.
  - unfold run at 1. cbn [app fold_left].
    change (step (Elapse 1000) ?x) with (elapse 1000 x).
    rewrite (Hq (le_n _)). unfold over_world. cbn [inflight step over_world].
    reflexivity.
  - rewrite trim_idempotent. split; [exact HT|].
    cbn [world log_utterance clearTimeout set_timers set_now trace database gemini
           hook speech typeError now step over_world].
    unfold SpeechService.recognition_onresult, SpeechService.onTranscriptCallback,
      SpeechService.slot.
    rewrite Nat.eqb_refl, Hreg. cbn [option_map].
    destruct (onTranscript_rest firstRender T true (world s)) as (E1 & E2 & E3 & E4).
    destruct (onTranscript_frame firstRender T true (world s)) as (_ & E5 & _).
    rewrite E1, E2, E3, E4, E5.
    repeat split;
      unfold onTranscript; rewrite HT; cbn;
      destruct (transcriptTimeoutRef (world s)); reflexivity.
Qed.

End TimerFires.

(* ------------------------------------------------------------------ *)
(** ** The utterance pipeline *)

(** The guard of line 125, for the render the handler was created in. *)
Lemma handleUserSpeech_guard render text :
  isProcessing render = true -> handleUserSpeech render text = Return tt.
Proof.
  intros H. unfold handleUserSpeech. rewrite H, orb_true_r. reflexivity.
Qed.

(** C4.  If saving the user message fails, the pipeline ends there: the only
    request it ever made is the insertion (the generator is not called, the
    insertion is not repeated, no timer is set), nothing is left in flight,
    the error of the database service is the current error, the state is
    [idle] and the processing flag is down. *)
Theorem C4_user_message_not_saved :
  forall (render : HookState) (text : string) (w : World) (fl : list Suspended)
         (message : string),
    truthy (trim text) = true ->
    isProcessing render = false ->
    let s := run [Settle (length fl) (BackendError message)]
               (spawn (handleUserSpeech render text) (mkSystem w fl)) in
    trace (world s) =
      trace w ++ [SupabaseInsertMessage (NewMessage.mk (sessionId render) user text [])] /\
    inflight s = fl /\
    timer_ids (world s) = timer_ids w /\
    error (hook (world s)) = Some ("Failed to save message: " ++ message)%string /\
    avatarState (hook (world s)) = idle /\
    isProcessing (hook (world s)) = false /\
    messages (hook (world s)) = messages (hook w) /\
    database (world s) = database w.
Proof.
  intros render text w fl message Ht Hp s. subst s.
  submit Ht Hp. settle_step. rewrite app_nil_r.
  repeat split; reflexivity.
Qed.

(** The pipeline up to the settling of the generator's request: the
    insertion of the user message and the lookup of the summary have run. *)
Ltac to_the_generator Ht Hp Hg :=
  submit Ht Hp; settle_step; rewrite Hg; exec; settle_step.

(** What the pipeline of the handler of any render leaves when the
    generator fails with [e] after the user message was saved. *)
Lemma pipeline_generator_fails
    (render : HookState) (text : string) (w : World) (fl : list Suspended)
    (r : Outcome HttpResponse) (e : Thrown) :
  truthy (trim text) = true ->
  isProcessing render = false ->
  geminiServiceInstance (gemini w) = true ->
  settled (typeError w) (GeminiService.readReply r) = Rejected e ->
  let n := length fl in
  let savedUserMessage :=
    Message.mk (S (rows (database w))) (sessionId render) user text (now w) [] in
  let s := run [Settle n BackendOk; Settle n BackendOk; Settle n (HttpReply r)]
             (spawn (handleUserSpeech render text) (mkSystem w fl)) in
  conversations (database (world s)) =
    conversations (database w) ++ [savedUserMessage] /\
  (forall session,
     In savedUserMessage (select_messages session (world s)) <->
     session = sessionId render) /\
  trace (world s) =
    trace w ++
    [SupabaseInsertMessage (NewMessage.mk (sessionId render) user text []);
     SupabaseSelectSummary (sessionId render);
     Fetch (apiKey (gemini w))
       (GeminiService.formatMessages (messages render ++ [savedUserMessage])
          (option_map ConversationSummary.summary
             (select_summary (sessionId render) w)))] /\
  error (hook (world s)) =
    Some match e with
         | Error message => message
         | NonError => "Failed to process message"
         end /\
  avatarState (hook (world s)) = idle /\
  isProcessing (hook (world s)) = false /\
  messages (hook (world s)) = messages (hook w) ++ [savedUserMessage] /\
  sessionId (hook (world s)) = sessionId (hook w) /\
  inflight s = fl.
Proof.
  intros Ht Hp Hg Hr n savedUserMessage s.
  subst n savedUserMessage s.
  to_the_generator Ht Hp Hg. settle_step.
  assert (Hin : forall session,
            In (Message.mk (S (rows (database w))) (sessionId render) user text
                  (now w) [])
               (select_messages session
                  (set_database
                     (mkDatabase
                        (conversations (database w) ++
                         [Message.mk (S (rows (database w))) (sessionId render) user
                            text (now w) []])
                        (conversation_summaries (database w))
                        (S (rows (database w)))) w)) <->
            session = sessionId render).
  { intros session. rewrite select_messages_iff. cbn. split.
    - intros [_ H]. symmetry. exact H.
    - intros ->. split; [apply in_or_app; right; left|]; reflexivity. }
  destruct (GeminiService.readReply r) as [v | e' | te]; cbn [settled] in Hr;
    [discriminate Hr | injection Hr as -> | injection Hr as <-];
    exec; rewrite app_nil_r.
  all: split; [reflexivity|].
  all: split; [intros session; rewrite <- (Hin session); unfold select_messages;
               reflexivity|].
  all: split; [rewrite <- !app_assoc; reflexivity|].
  all: repeat split.
Qed.

(** C5.  If the generator fails after the user message was saved, nothing
    deletes the row of the user message: the only requests are the insertion,
    the summary lookup and the generator call; what was thrown is shown as
    line 186 has it (the message of an [Error], a fixed text otherwise); the
    state is [idle] and the pipeline is over.  The row carries the session
    identifier of the render that created the handler, and
    [getConversationMessages] returns it for that identifier and for no
    other.  The callbacks registered when the hook is mounted are those of
    the first render, whose [sessionId] is the empty string, and nothing but
    a change of a voice preference replaces them: until then, whatever
    happened before, the row of an utterance is stored with the empty
    identifier, and the query for the messages of a session whose identifier
    is not empty does not return it.  So it is in the page of
    [generator_unavailable], whose session is ["session"]. *)
Theorem C5_generator_failure_keeps_user_message :
  (forall (render : HookState) (text : string) (w : World) (fl : list Suspended)
          (r : Outcome HttpResponse) (e : Thrown),
     truthy (trim text) = true ->
     isProcessing render = false ->
     geminiServiceInstance (gemini w) = true ->
     settled (typeError w) (GeminiService.readReply r) = Rejected e ->
     let n := length fl in
     let savedUserMessage :=
       Message.mk (S (rows (database w))) (sessionId render) user text (now w) [] in
     let s := run [Settle n BackendOk; Settle n BackendOk; Settle n (HttpReply r)]
                (spawn (handleUserSpeech render text) (mkSystem w fl)) in
     conversations (database (world s)) =
       conversations (database w) ++ [savedUserMessage] /\
     (forall session,
        In savedUserMessage (select_messages session (world s)) <->
        session = sessionId render) /\
     trace (world s) =
       trace w ++
       [SupabaseInsertMessage (NewMessage.mk (sessionId render) user text []);
        SupabaseSelectSummary (sessionId render);
        Fetch (apiKey (gemini w))
          (GeminiService.formatMessages (messages render ++ [savedUserMessage])
             (option_map ConversationSummary.summary
                (select_summary (sessionId render) w)))] /\
     error (hook (world s)) =
       Some match e with
            | Error message => message
            | NonError => "Failed to process message"
            end /\
     avatarState (hook (world s)) = idle /\
     isProcessing (hook (world s)) = false /\
     messages (hook (world s)) = messages (hook w) ++ [savedUserMessage] /\
     sessionId (hook (world s)) = sessionId (hook w) /\
     inflight s = fl) /\
  (forall (b : Boot) (history : list Event),
     ~ In VoiceChange history ->
     registered (world (run history (mount b))) = Some firstRender) /\
  (forall (b : Boot) (history : list Event) (T : string)
          (r : Outcome HttpResponse) (e : Thrown),
     ~ In VoiceChange history ->
     trim T <> "" ->
     let mounted := run history (mount b) in
     geminiServiceInstance (gemini (world mounted)) = true ->
     settled (typeError (world mounted)) (GeminiService.readReply r) = Rejected e ->
     let n := length (inflight mounted) in
     let savedUserMessage :=
       Message.mk (S (rows (database (world mounted)))) "" user (trim T)
         (now (world mounted) + 1000) [] in
     let s := run [RecognitionResult T true; Elapse 1000;
                   Settle n BackendOk; Settle n BackendOk; Settle n (HttpReply r)]
                mounted in
     conversations (database (world s)) =
       conversations (database (world mounted)) ++ [savedUserMessage] /\
     (forall session,
        In savedUserMessage (select_messages session (world s)) <-> session = "") /\
     sessionId (hook (world s)) = sessionId (hook (world mounted)) /\
     error (hook (world s)) =
       Some match e with
            | Error message => message
            | NonError => "Failed to process message"
            end /\
     avatarState (hook (world s)) = idle /\
     inflight s = inflight mounted) /\
  (sessionId (hook (world generator_unavailable)) = "session" /\
   conversations (database (world generator_unavailable)) =
     [Message.mk 1 "" user "hello" 1000 []] /\
   select_messages "session" (world generator_unavailable) = [] /\
   error (hook (world generator_unavailable)) =
     Some "Gemini API error: 503 - Service Unavailable" /\
   avatarState (hook (world generator_unavailable)) = idle /\
   inflight generator_unavailable = []).
Proof.
  split; [exact pipeline_generator_fails|].
  split; [exact registered_first_render|].
  split.
  - intros b history T r e Hno HT mounted Hg Hr n savedUserMessage s.
    destruct (@mounted_utterance b history T
                [Settle n BackendOk; Settle n BackendOk; Settle n (HttpReply r)]
                Hno HT)
      as (w1 & Hrun & Ht1 & _ & Hdb & Hgem & _ & Hsid & _ & Hte & Hnow).
    fold mounted in Hrun, Hdb, Hgem, Hsid, Hte, Hnow.
    change (run [RecognitionResult T true; Elapse 1000; Settle n BackendOk;
                 Settle n BackendOk; Settle n (HttpReply r)] mounted)
      with (run ([RecognitionResult T true; Elapse 1000] ++
                 [Settle n BackendOk; Settle n BackendOk; Settle n (HttpReply r)])
              mounted) in s.
    subst s. rewrite Hrun.
    rewrite <- Hgem in Hg. rewrite <- Hte in Hr.
    destruct (@pipeline_generator_fails firstRender (trim T) w1 (inflight mounted) r e
                Ht1 eq_refl Hg Hr)
      as (P1 & P2 & _ & P4 & P5 & _ & _ & P7 & P8).
    fold n in P1, P2, P4, P5, P7, P8. cbn [firstRender sessionId] in P1, P2.
    rewrite Hdb, Hnow in P1, P2. fold savedUserMessage in P1, P2.
    split; [exact P1|]. split; [exact P2|].
    split; [rewrite P7; exact Hsid|].
    split; [exact P4|]. split; [exact P5 | exact P8].
  - repeat split; vm_compute; reflexivity.
Qed.

(** A reply that carries a text, in the pipeline. *)
Ltac generated H1 H2 H3 :=
  rewrite H1; exec; rewrite H2; exec; rewrite H3; exec.

(** A submission that runs to the end of playback, for the handler of any
    render: the transcript gains the two saved messages, and the summary is
    requested exactly when the transcript of that render holds more than 20
    messages, with the length of that transcript. *)
Lemma pipeline_to_the_end_of_playback
    (render : HookState) (text : string) (w : World) (fl : list Suspended)
    (r : Outcome HttpResponse) (aiResponse : string) (started : bool) :
  truthy (trim text) = true ->
  isProcessing render = false ->
  geminiServiceInstance (gemini w) = true ->
  Generates r aiResponse ->
  let n := length fl in
  let count := length (messages render) in
  let savedUserMessage :=
    Message.mk (S (rows (database w))) (sessionId render) user text (now w) [] in
  let savedAiMessage :=
    Message.mk (S (S (rows (database w)))) (sessionId render) assistant aiResponse
      (now w) [] in
  let s := run ([Settle n BackendOk; Settle n BackendOk; Settle n (HttpReply r);
                 Settle n BackendOk] ++
                (if started then [UtteranceStart n] else []) ++
                [Settle n (SpeechReply UtteranceEnd)])
             (spawn (handleUserSpeech render text) (mkSystem w fl)) in
  messages (hook (world s)) =
    messages (hook w) ++ [savedUserMessage; savedAiMessage] /\
  trace (world s) =
    trace w ++
    [SupabaseInsertMessage (NewMessage.mk (sessionId render) user text []);
     SupabaseSelectSummary (sessionId render);
     Fetch (apiKey (gemini w))
       (GeminiService.formatMessages (messages render ++ [savedUserMessage])
          (option_map ConversationSummary.summary
             (select_summary (sessionId render) w)));
     SupabaseInsertMessage (NewMessage.mk (sessionId render) assistant aiResponse []);
     SynthesisSpeak (instance (speech w)) aiResponse] ++
    (if 20 <? count
     then [SupabaseUpsertSummary
             (NewSummary.mk (sessionId render)
                ("Conversation with " ++ ofNat count ++
                 " messages. Recent topics discussed.")
                count)]
     else []) /\
  map waiting_on (inflight s) =
    map waiting_on fl ++
    (if 20 <? count
     then [SupabaseUpsertSummary
             (NewSummary.mk (sessionId render)
                ("Conversation with " ++ ofNat count ++
                 " messages. Recent topics discussed.")
                count)]
     else []).
Proof.
  intros Ht Hp Hg Hr n count savedUserMessage savedAiMessage s.
  subst n count savedUserMessage savedAiMessage s.
  destruct Hr as [resp body ai H1 H2 H3].
  to_the_generator Ht Hp Hg.
  settle_step. generated H1 H2 H3.
  settle_step.
  destruct started; exec; [start_step|]; settle_step;
    destruct (20 <? length (messages render)) eqn:Hc; exec;
    rewrite ?map_app, ?app_nil_r; cbn [map waiting_on];
    repeat split;
    try (rewrite <- !app_assoc; reflexivity).
Qed.

(** C1.  The summary is requested after playback, by the handler that ran
    the pipeline, from the transcript of the render that created that
    handler.  The callbacks registered when the hook is mounted are those of
    the first render, whose transcript is empty, and nothing but a change of
    a voice preference replaces them: until then, whatever happened before
    and however long the transcript is, an utterance that runs successfully
    to the end of playback adds its two messages to the transcript and
    requests no summary.  A handler that holds the current transcript
    requests the summary exactly when that transcript holds more than 20
    messages, and the count it sends is the length before the two messages
    of this submission were appended.  In the session of 25 messages the
    next submission leaves 27 messages and no summary request
    ([next_exchange_first_render]); after a change of a voice preference it
    sends the count 25 ([next_exchange]). *)
Theorem C1_summary_after_a_submission :
  (forall (b : Boot) (history : list Event),
     ~ In VoiceChange history ->
     registered (world (run history (mount b))) = Some firstRender) /\
  (forall (b : Boot) (history : list Event) (T : string)
          (r : Outcome HttpResponse) (aiResponse : string) (started : bool),
     ~ In VoiceChange history ->
     trim T <> "" ->
     let mounted := run history (mount b) in
     geminiServiceInstance (gemini (world mounted)) = true ->
     Generates r aiResponse ->
     let n := length (inflight mounted) in
     let s := run ([RecognitionResult T true; Elapse 1000;
                    Settle n BackendOk; Settle n BackendOk; Settle n (HttpReply r);
                    Settle n BackendOk] ++
                   (if started then [UtteranceStart n] else []) ++
                   [Settle n (SpeechReply UtteranceEnd)])
                mounted in
     length (messages (hook (world s))) =
       length (messages (hook (world mounted))) + 2 /\
     filter is_upsert (trace (world s)) = filter is_upsert (trace (world mounted)) /\
     map waiting_on (inflight s) = map waiting_on (inflight mounted)) /\
  (forall (render : HookState) (text : string) (w : World) (fl : list Suspended)
          (r : Outcome HttpResponse) (aiResponse : string) (started : bool),
     truthy (trim text) = true ->
     isProcessing render = false ->
     geminiServiceInstance (gemini w) = true ->
     Generates r aiResponse ->
     messages render = messages (hook w) ->
     let n := length fl in
     let before := length (messages (hook w)) in
     let s := run ([Settle n BackendOk; Settle n BackendOk; Settle n (HttpReply r);
                    Settle n BackendOk] ++
                   (if started then [UtteranceStart n] else []) ++
                   [Settle n (SpeechReply UtteranceEnd)])
                (spawn (handleUserSpeech render text) (mkSystem w fl)) in
     length (messages (hook (world s))) = before + 2 /\
     map waiting_on (inflight s) =
       map waiting_on fl ++
       (if 20 <? before
        then [SupabaseUpsertSummary
                (NewSummary.mk (sessionId render)
                   ("Conversation with " ++ ofNat before ++
                    " messages. Recent topics discussed.")
                   before)]
        else [])) /\
  (length (messages (hook (world (loaded with_history)))) = 25 /\
   length (messages (hook (world next_exchange_first_render))) = 27 /\
   filter is_upsert (trace (world next_exchange_first_render)) = [] /\
   inflight next_exchange_first_render = []) /\
  (length (messages (hook (world next_exchange))) = 27 /\
   filter is_upsert (trace (world next_exchange)) =
     [SupabaseUpsertSummary
        (NewSummary.mk "session"
           "Conversation with 25 messages. Recent topics discussed." 25)]).
Proof.
  split; [exact registered_first_render|].
  split; [|split].
  - intros b history T r aiResponse started Hno HT mounted Hg Hr n s.
    destruct (@mounted_utterance b history T
                ([Settle n BackendOk; Settle n BackendOk; Settle n (HttpReply r);
                  Settle n BackendOk] ++
                 (if started then [UtteranceStart n] else []) ++
                 [Settle n (SpeechReply UtteranceEnd)])
                Hno HT)
      as (w1 & Hrun & Ht1 & Htr & _ & Hgem & Hm & _).
    fold mounted in Hrun, Htr, Hgem, Hm.
    change (run ([RecognitionResult T true; Elapse 1000] ++ ?es) mounted)
      with s in Hrun.
    rewrite <- Hgem in Hg.
    destruct (@pipeline_to_the_end_of_playback firstRender (trim T) w1
                (inflight mounted) r aiResponse started Ht1 eq_refl Hg Hr)
      as (H1 & H2 & H3).
    fold n in H1, H2, H3. rewrite <- Hrun in H1, H2, H3.
    cbn [firstRender messages length Nat.ltb Nat.leb app] in H2, H3.
    rewrite app_nil_r in H3.
    split; [rewrite H1, length_app, Hm; reflexivity|].
    split; [|exact H3].
    rewrite H2, filter_app, Htr. cbn. apply app_nil_r.
  - intros render text w fl r aiResponse started Ht Hp Hg Hr Hm n before s.
    destruct (@pipeline_to_the_end_of_playback render text w fl r aiResponse
                started Ht Hp Hg Hr) as (H1 & _ & H3).
    fold n in H1, H3. fold s in H1, H3. rewrite Hm in H3. fold before in H3.
    split; [rewrite H1, length_app; reflexivity | exact H3].
  - split; repeat split; vm_compute; reflexivity.
Qed.

(* ------------------------------------------------------------------ *)
(** ** The context sent to the generator *)

Lemma fold_left_push A B (g : A -> B) (l : list A) (acc : list B) :
  fold_left (fun acc x => acc ++ [g x]) l acc = acc ++ map g l.
Proof.
  revert acc. induction l as [|x l IH]; intros acc; cbn [fold_left map].
  - symmetry. apply app_nil_r.
  - rewrite IH, <- app_assoc. reflexivity.
Qed.

Lemma sliceLast_spec A (k : nat) (a : list A) :
  a = firstn (length a - k) a ++ sliceLast k a /\
  length (sliceLast k a) = Nat.min k (length a).
Proof.
  unfold sliceLast. split.
  - symmetry. apply firstn_skipn.
  - rewrite length_skipn. lia.
Qed.

Lemma formatMessages_eq (msgs : list Message.t) (summary : option string) :
  GeminiService.formatMessages msgs summary =
  match summary with
  | Some s =>
      if truthy s
      then [Content.mk "user" ("[Previous conversation summary: " ++ s ++ "]")]
      else []
  | None => []
  end ++
  map (fun m => Content.mk (GeminiService.roleOf (Message.role m)) (Message.content m))
      (sliceLast 10 msgs).
Proof.
  unfold GeminiService.formatMessages. rewrite fold_left_push.
  destruct summary as [s|]; [destruct (truthy s)|]; reflexivity.
Qed.

(** The pipeline of the handler of any render, up to the call of the
    generator: the request carries the transcript of that render followed by
    the user message just saved, and the summary of that render's session. *)
Lemma pipeline_to_the_generator
    (render : HookState) (text : string) (w : World) (fl : list Suspended) :
  truthy (trim text) = true ->
  isProcessing render = false ->
  geminiServiceInstance (gemini w) = true ->
  let n := length fl in
  let savedUserMessage :=
    Message.mk (S (rows (database w))) (sessionId render) user text (now w) [] in
  let s := run [Settle n BackendOk; Settle n BackendOk]
             (spawn (handleUserSpeech render text) (mkSystem w fl)) in
  trace (world s) =
    trace w ++
    [SupabaseInsertMessage (NewMessage.mk (sessionId render) user text []);
     SupabaseSelectSummary (sessionId render);
     Fetch (apiKey (gemini w))
       (GeminiService.formatMessages (messages render ++ [savedUserMessage])
          (option_map ConversationSummary.summary
             (select_summary (sessionId render) w)))] /\
  messages (hook (world s)) = messages (hook w) ++ [savedUserMessage].
Proof.
  intros Ht Hp Hg n savedUserMessage s. subst n savedUserMessage s.
  to_the_generator Ht Hp Hg.
  rewrite <- !app_assoc. split; reflexivity.
Qed.

(** C8.  [formatMessages] sends the last 10 messages of the list it is given
    (all of them when there are at most 10), in their order, after one entry
    for the summary when the summary is a non-empty string and nothing else.
    The list the pipeline gives it is the transcript of the render that
    created the handler, followed by the user message just saved; when that
    transcript is empty and there is no summary, the generator receives
    exactly the user message.  But the callbacks registered when the hook is
    mounted are those of the first render, whose transcript is empty and
    whose session is the empty string, and nothing but a change of a voice
    preference replaces them: until then, whatever happened before and
    whatever the session holds, the request made for an utterance carries
    that utterance alone (after the summary of the empty session, if there
    is one).  The page with 25 messages sends one entry
    ([next_request_first_render]); after a change of a voice preference, the
    second request leaves out the exchange made in between
    ([second_exchange]). *)
Theorem C8_generator_context :
  (forall (msgs : list Message.t) (summary : option string),
     exists older recent,
       msgs = older ++ recent /\
       length recent = Nat.min 10 (length msgs) /\
       GeminiService.formatMessages msgs summary =
         match summary with
         | Some s =>
             if truthy s
             then [Content.mk "user" ("[Previous conversation summary: " ++ s ++ "]")]
             else []
         | None => []
         end ++
         map (fun m => Content.mk (GeminiService.roleOf (Message.role m))
                         (Message.content m))
             recent) /\
  (forall (render : HookState) (text : string) (w : World) (fl : list Suspended),
     truthy (trim text) = true ->
     isProcessing render = false ->
     geminiServiceInstance (gemini w) = true ->
     let n := length fl in
     let savedUserMessage :=
       Message.mk (S (rows (database w))) (sessionId render) user text (now w) [] in
     let s := run [Settle n BackendOk; Settle n BackendOk]
                (spawn (handleUserSpeech render text) (mkSystem w fl)) in
     trace (world s) =
       trace w ++
       [SupabaseInsertMessage (NewMessage.mk (sessionId render) user text []);
        SupabaseSelectSummary (sessionId render);
        Fetch (apiKey (gemini w))
          (GeminiService.formatMessages (messages render ++ [savedUserMessage])
             (option_map ConversationSummary.summary
                (select_summary (sessionId render) w)))] /\
     (messages render = [] ->
      select_summary (sessionId render) w = None ->
      trace (world s) =
        trace w ++
        [SupabaseInsertMessage (NewMessage.mk (sessionId render) user text []);
         SupabaseSelectSummary (sessionId render);
         Fetch (apiKey (gemini w)) [Content.mk "user" text]])) /\
  (forall (b : Boot) (history : list Event),
     ~ In VoiceChange history ->
     registered (world (run history (mount b))) = Some firstRender) /\
  (forall (b : Boot) (history : list Event) (T : string),
     ~ In VoiceChange history ->
     trim T <> "" ->
     let mounted := run history (mount b) in
     geminiServiceInstance (gemini (world mounted)) = true ->
     let n := length (inflight mounted) in
     let s := run [RecognitionResult T true; Elapse 1000;
                   Settle n BackendOk; Settle n BackendOk]
                mounted in
     trace (world s) =
       trace (world mounted) ++
       [SupabaseInsertMessage (NewMessage.mk "" user (trim T) []);
        SupabaseSelectSummary "";
        Fetch (apiKey (gemini (world mounted)))
          (match select_summary "" (world mounted) with
           | Some row =>
               if truthy (ConversationSummary.summary row)
               then [Content.mk "user"
                       ("[Previous conversation summary: " ++
                        ConversationSummary.summary row ++ "]")]
               else []
           | None => []
           end ++
           [Content.mk "user" (trim T)])]) /\
  (length (messages (hook (world next_request_first_render))) = 26 /\
   map waiting_on (inflight next_request_first_render) =
     [Fetch "key" [Content.mk "user" "one more"]]) /\
  (map Message.content (skipn 25 (messages (hook (world second_exchange)))) =
     ["one more"; "sure"; "and again"] /\
   map waiting_on (inflight second_exchange) =
     [Fetch "key"
        ([Content.mk "user"
            ("[Previous conversation summary: " ++
             "Conversation with 25 messages. Recent topics discussed.]")] ++
         map (fun m => Content.mk (GeminiService.roleOf (Message.role m))
                         (Message.content m))
             (skipn 16 (history 25)) ++
         [Content.mk "user" "and again"])]).
Proof.
  split; [|split; [|split; [exact registered_first_render|split]]].
  - intros msgs summary.
    exists (firstn (length msgs - 10) msgs), (sliceLast 10 msgs).
    destruct (sliceLast_spec 10 msgs) as [H1 H2].
    repeat split; [exact H1 | exact H2 | apply formatMessages_eq].
  - intros render text w fl Ht Hp Hg n savedUserMessage s.
    destruct (pipeline_to_the_generator render text w fl Ht Hp Hg) as [Htrace _].
    fold n savedUserMessage in Htrace. fold s in Htrace.
    split; [exact Htrace|].
    intros Hm Hsum. rewrite Htrace, Hm, Hsum. reflexivity.
  - intros b history T Hno HT mounted Hg n s.
    destruct (@mounted_utterance b history T [Settle n BackendOk; Settle n BackendOk]
                Hno HT)
      as (w1 & Hrun & Ht1 & Htr & Hdb & Hgem & _).
    fold mounted in Hrun, Htr, Hdb, Hgem.
    change (run ([RecognitionResult T true; Elapse 1000] ++ ?es) mounted)
      with s in Hrun.
    rewrite <- Hgem in Hg.
    destruct (pipeline_to_the_generator firstRender (trim T) w1 (inflight mounted)
                Ht1 eq_refl Hg) as [Htrace _].
    fold n in Htrace. rewrite <- Hrun in Htrace. rewrite Htrace.
    rewrite formatMessages_eq. cbn [firstRender sessionId messages app].
    rewrite (@select_summary_database "" (world mounted) w1 Hdb), Htr, Hgem.
    destruct (select_summary "" (world mounted)) as [row|]; reflexivity.
  - split; split; vm_compute; reflexivity.
Qed.

(* ------------------------------------------------------------------ *)
(** ** The end of playback *)

(** C3.  The handler of the end of playback lowers the speaking flag.  It
    sets the state to [idle] when the two flags it holds, [isListening] and
    [isProcessing], are both down, and leaves the state as it is otherwise:
    the state is set to [idle] or left alone, and is never set to
    [listening].  Both ways an utterance can finish, its [end] event and its
    [error] event (which is also how a cancelled utterance finishes), run
    this handler and nothing else that touches the state of the hook. *)
Theorem C3_playback_end :
  forall (render : HookState) (w : World),
    let w' := onSpeakingEnd render w in
    isSpeaking (hook w') = false /\
    avatarState (hook w') =
      (if negb (isListening render) && negb (isProcessing render)
       then idle else avatarState (hook w)) /\
    (avatarState (hook w') = idle \/ avatarState (hook w') = avatarState (hook w)) /\
    (avatarState (hook w') = listening -> avatarState (hook w) = listening) /\
    (forall (text : string) (fl : list Suspended) (ev : UtteranceEvent),
       registered w = Some render ->
       hook (world (run [Settle (length fl) (SpeechReply ev)]
                      (spawn (SpeechService.speak text) (mkSystem w fl)))) =
       hook w').
Proof.
  intros render w w'. subst w'. unfold onSpeakingEnd.
  repeat split.
  - destruct (negb (isListening render) && negb (isProcessing render)); reflexivity.
  - destruct (negb (isListening render) && negb (isProcessing render)); reflexivity.
  - destruct (negb (isListening render) && negb (isProcessing render));
      [left | right]; reflexivity.
  - destruct (negb (isListening render) && negb (isProcessing render));
      cbn; [discriminate | auto].
  - intros text fl ev Hreg.
    unfold run, spawn, SpeechService.speak. exec.
    destruct ev as [|e]; settle_step;
      rewrite Nat.eqb_refl, Hreg; cbn;
      destruct (negb (isListening render) && negb (isProcessing render));
      reflexivity.
Qed.

(* ------------------------------------------------------------------ *)
(** ** Recognition errors *)

(** C10.  For the reasons [no-speech] and [aborted] the error callback is not
    called, whatever it is: the state it would act on is returned untouched,
    and the hook is left as it was.  For every other reason a registered
    callback is called, once, with the message built from the reason. *)
Theorem C10_recognition_errors :
  forall (event_error : string),
    (event_error = "no-speech" \/ event_error = "aborted" ->
       (forall (S : Type) (cb : string -> S -> S) (st : S),
          SpeechService.recognition_onerror (Some cb) event_error st = st) /\
       (forall s : System, step (RecognitionError event_error) s = s)) /\
    (event_error <> "no-speech" -> event_error <> "aborted" ->
       (forall (S : Type) (cb : string -> S -> S) (st : S),
          SpeechService.recognition_onerror (Some cb) event_error st =
          cb ("Speech recognition error: " ++ event_error)%string st) /\
       (forall (s : System) (render : HookState),
          registered (world s) = Some render ->
          step (RecognitionError event_error) s =
          over_world (onError ("Speech recognition error: " ++ event_error)) s)).
Proof.
  intros event_error. split.
  - intros H.
    assert (Hs : forall (S : Type) (cb : option (string -> S -> S)) (st : S),
               SpeechService.recognition_onerror cb event_error st = st).
    { intros S cb st. unfold SpeechService.recognition_onerror.
      destruct H as [-> | ->]; reflexivity. }
    split; [intros; apply Hs|].
    intros [w fl]. cbn [step]. unfold over_world. cbn [world inflight].
    rewrite Hs. reflexivity.
  - intros H1 H2.
    apply String.eqb_neq in H1. apply String.eqb_neq in H2.
    split.
    + intros S cb st. unfold SpeechService.recognition_onerror.
      rewrite H1, H2. reflexivity.
    + intros [w fl] render Hreg. cbn [step]. unfold over_world.
      cbn [world inflight] in *.
      unfold SpeechService.recognition_onerror, SpeechService.onErrorCallback,
        SpeechService.slot.
      rewrite H1, H2, Nat.eqb_refl, Hreg. reflexivity.
Qed.

(** In every state the hook can reach at most one timer is set. *)
Lemma at_most_one_timer (b : Boot) (history : list Event) :
  length (timers (world (run history (mount b)))) <= 1.
Proof.
  destruct (reachable_inv b history) as (Hs & _ & _).
  unfold single_timer in Hs.
  destruct (timers (world (run history (mount b)))) as [|x [|y l]];
    cbn; [lia | lia | contradiction].
Qed.

(** A call of the handler of a render in which [isProcessing] is up does
    nothing at all. *)
Lemma spawn_while_processing (render : HookState) (text : string) (s : System) :
  isProcessing render = true ->
  spawn (handleUserSpeech render text) s = s.
Proof.
  intros H. unfold spawn. rewrite (handleUserSpeech_guard render text H).
  destruct s as [w fl]. cbn. rewrite app_nil_r. reflexivity.
Qed.

(** A call of [handleUserSpeech] made by a timer, in a state in which no
    timer is left: the call is logged; it sets no timer; when the
    [isProcessing] of its render is down it issues the insertion of the user
    message and stays suspended on it, and when it is up it does nothing. *)
Lemma utterance_ready render text (s : System) :
  truthy (trim text) = true ->
  timers (world s) = [] ->
  let called :=
    spawn (handleUserSpeech render text) (over_world (log_utterance text) s) in
  let insertion :=
    SupabaseInsertMessage (NewMessage.mk (sessionId render) user text []) in
  utterances (world called) = utterances (world s) ++ [text] /\
  timers (world called) = [] /\
  (isProcessing render = false ->
     trace (world called) = trace (world s) ++ [insertion] /\
     map waiting_on (inflight called) = map waiting_on (inflight s) ++ [insertion]) /\
  (isProcessing render = true ->
     trace (world called) = trace (world s) /\ inflight called = inflight s).
Proof.
  intros Ht Hno called insertion. subst called insertion.
  destruct (isProcessing render) eqn:Hp.
  - rewrite (@spawn_while_processing render text _ Hp). cbn. repeat split; congruence.
  - destruct (@spawn_handleUserSpeech render text (over_world (log_utterance text) s)
                Ht Hp) as (H1 & H2 & H3 & H4 & _).
    cbn [over_world world inflight log_utterance timers trace utterances] in *.
    repeat split; try congruence; auto.
Qed.

(** C6.  In any state the hook can reach, a final transcript whose trimmed
    text [trim T] is not empty replaces whatever timer was pending by one
    timer due 1000 ms later.  If nothing else happens, nothing but the clock
    changes before the 1000 ms are over; when they are over the timer is
    gone and [handleUserSpeech] is called, once, with [trim T]: with the
    [isProcessing] of the registered render down the call issues the
    insertion of the user message [trim T] and nothing else, with it up the
    call does nothing; no timer is left, so that however much more time
    passes no other call follows.  An interim transcript replaces the
    pending timer in the same way (by one due 2000 ms later).  A final
    transcript whose trimmed text is empty leaves no timer, and time passing
    after it changes nothing but the clock. *)
Theorem C6_final_transcript_debounce :
  forall (b : Boot) (history : list Event) (T : string) (quiet : nat),
    let s := run history (mount b) in
    let s1 := step (RecognitionResult T true) s in
    exists render,
      registered (world s) = Some render /\
      (trim T <> "" ->
         timers (world s1) =
           [mkTimer (S (timer_ids (world s))) (now (world s) + 1000)
              (FinalTimeout render T)] /\
         (quiet < 1000 ->
            elapse quiet s1 = over_world (fun w => set_now (now w + quiet) w) s1) /\
         (1000 <= quiet ->
            let called := elapse quiet s1 in
            let insertion :=
              SupabaseInsertMessage
                (NewMessage.mk (sessionId render) user (trim T) []) in
            called =
              spawn (handleUserSpeech render (trim T))
                (over_world
                   (fun w => log_utterance (trim T)
                               (clearTimeout (S (timer_ids (world s)))
                                  (set_now (now w + quiet) w))) s1) /\
            (isProcessing render = false ->
               trace (world called) = trace (world s) ++ [insertion] /\
               map waiting_on (inflight called) =
                 map waiting_on (inflight s) ++ [insertion]) /\
            (isProcessing render = true ->
               trace (world called) = trace (world s) /\
               inflight called = inflight s) /\
            utterances (world called) = utterances (world s) ++ [trim T] /\
            timers (world called) = [] /\
            (forall more,
               elapse more called =
               over_world (fun w => set_now (now w + more) w) called))) /\
      (trim T = "" ->
         timers (world s1) = [] /\
         elapse quiet s1 = over_world (fun w => set_now (now w + quiet) w) s1) /\
      timers (world (step (RecognitionResult T false) s)) =
        [mkTimer (S (timer_ids (world s))) (now (world s) + 2000)
           (InterimTimeout render)].
Proof.
  intros b history T quiet s s1.
  destruct (reachable_inv b history) as (Hs & Hr & _). fold s in Hs, Hr.
  destruct (registered (world s)) as [render|] eqn:Hreg; [clear Hr|congruence].
  exists render. split; [reflexivity|].
  pose proof (recognition_result_world T true s Hreg) as Hw. fold s1 in Hw.
  destruct (onTranscript_rest render T true (world s)) as (Htr & _).
  destruct (onTranscript_frame render T true (world s)) as (Hu & _ & _).
  rewrite <- Hw in Htr, Hu.
  split; [|split].
  - intros HT. apply truthy_true in HT.
    destruct (@final_transcript_fires render T quiet s Hs Hreg HT) as (Ht & Hq1 & Hq2).
    fold s1 in Ht, Hq1, Hq2.
    split; [exact Ht|]. split; [exact Hq1|].
    intros Hq. cbv zeta. rewrite (Hq2 Hq).
    set (s2 := over_world
                 (fun w => clearTimeout (S (timer_ids (world s)))
                             (set_now (now w + quiet) w)) s1).
    assert (H2 : timers (world s2) = []).
    { subst s2. cbn [over_world world clearTimeout timers set_timers set_now].
      rewrite Ht. cbn. rewrite Nat.eqb_refl. reflexivity. }
    pose proof (@utterance_ready render (trim T) s2) as Hready.
    rewrite trim_idempotent in Hready. specialize (Hready HT H2).
    cbv zeta in Hready. destruct Hready as (U1 & U2 & U3 & U4).
    change (over_world (log_utterance (trim T)) s2) with
      (over_world
         (fun w => log_utterance (trim T)
                     (clearTimeout (S (timer_ids (world s)))
                        (set_now (now w + quiet) w))) s1) in U1, U2, U3, U4.
    assert (Hs2 : trace (world s2) = trace (world s) /\
                  utterances (world s2) = utterances (world s) /\
                  inflight s2 = inflight s).
    { subst s2. cbn [over_world world inflight clearTimeout set_timers set_now trace
                       utterances].
      rewrite Htr, Hu. repeat split. }
    destruct Hs2 as (E1 & E2 & E3). rewrite E1, E3 in U3, U4. rewrite E2 in U1.
    split; [reflexivity|].
    split; [exact U3|]. split; [exact U4|]. split; [exact U1|].
    split; [exact U2|].
    intros more. apply elapse_no_timer, U2.
  - intros HT. apply truthy_false in HT.
    pose proof (onTranscript_timers render T true (world s) Hs) as Ht.
    rewrite <- Hw in Ht. cbn [andb negb] in Ht. rewrite HT in Ht.
    split; [exact Ht|]. apply elapse_no_timer, Ht.
  - rewrite (recognition_result_world T false s Hreg).
    rewrite (onTranscript_timers render T false (world s) Hs). reflexivity.
Qed.

(** C7.  In any state the hook can reach, an interim transcript replaces
    whatever timer was pending by one timer due 2000 ms later.  If nothing
    else happens, nothing but the clock changes before the 2000 ms are over;
    when they are over the timer is gone, and if the trimmed text [trim T]
    of that transcript is not empty [handleUserSpeech] is called, once, with
    [trim T]: with the [isProcessing] of the registered render down the call
    issues the insertion of the user message [trim T] and nothing else, with
    it up the call does nothing.  If the trimmed text is empty no call is
    made.  Either way no timer is left, so that however much more time
    passes no other call follows. *)
Theorem C7_interim_transcript_fallback :
  forall (b : Boot) (history : list Event) (T : string) (quiet : nat),
    let s := run history (mount b) in
    let s1 := step (RecognitionResult T false) s in
    exists render,
      registered (world s) = Some render /\
      timers (world s1) =
        [mkTimer (S (timer_ids (world s))) (now (world s) + 2000)
           (InterimTimeout render)] /\
      (quiet < 2000 ->
         elapse quiet s1 = over_world (fun w => set_now (now w + quiet) w) s1) /\
      (2000 <= quiet ->
         let called := elapse quiet s1 in
         let insertion :=
           SupabaseInsertMessage
             (NewMessage.mk (sessionId render) user (trim T) []) in
         timers (world called) = [] /\
         (forall more,
            elapse more called =
            over_world (fun w => set_now (now w + more) w) called) /\
         (trim T <> "" ->
            called =
              spawn (handleUserSpeech render (trim T))
                (over_world
                   (fun w => log_utterance (trim T)
                               (clearTimeout (S (timer_ids (world s)))
                                  (set_now (now w + quiet) w))) s1) /\
            (isProcessing render = false ->
               trace (world called) = trace (world s) ++ [insertion] /\
               map waiting_on (inflight called) =
                 map waiting_on (inflight s) ++ [insertion]) /\
            (isProcessing render = true ->
               trace (world called) = trace (world s) /\
               inflight called = inflight s) /\
            utterances (world called) = utterances (world s) ++ [trim T]) /\
         (trim T = "" ->
            called =
              over_world
                (fun w => clearTimeout (S (timer_ids (world s)))
                            (set_now (now w + quiet) w)) s1 /\
            trace (world called) = trace (world s) /\
            inflight called = inflight s /\
            utterances (world called) = utterances (world s))).
Proof.
  intros b history T quiet s s1.
  destruct (reachable_inv b history) as (Hs & Hr & _). fold s in Hs, Hr.
  destruct (registered (world s)) as [render|] eqn:Hreg; [clear Hr|congruence].
  exists render. split; [reflexivity|].
  pose proof (recognition_result_world T false s Hreg) as Hw. fold s1 in Hw.
  destruct (onTranscript_rest render T false (world s)) as (Htr & _).
  destruct (onTranscript_frame render T false (world s)) as (Hu & _ & _).
  rewrite <- Hw in Htr, Hu.
  destruct (@interim_transcript_fires render T quiet s Hs Hreg) as (Ht & Hq1 & Hq2).
  fold s1 in Ht, Hq1, Hq2.
  split; [exact Ht|]. split; [exact Hq1|].
  intros Hq. cbv zeta. rewrite (Hq2 Hq).
  set (s2 := over_world
               (fun w => clearTimeout (S (timer_ids (world s)))
                           (set_now (now w + quiet) w)) s1).
  assert (H2 : timers (world s2) = []).
  { subst s2. cbn [over_world world clearTimeout timers set_timers set_now].
    rewrite Ht. cbn. rewrite Nat.eqb_refl. reflexivity. }
  assert (Hs2 : trace (world s2) = trace (world s) /\
                utterances (world s2) = utterances (world s) /\
                inflight s2 = inflight s).
  { subst s2. cbn [over_world world inflight clearTimeout set_timers set_now trace
                     utterances].
    rewrite Htr, Hu. repeat split. }
  destruct Hs2 as (E1 & E2 & E3).
  destruct (truthy (trim T)) eqn:HT.
  - pose proof (@utterance_ready render (trim T) s2) as Hready.
    rewrite trim_idempotent in Hready. specialize (Hready HT H2).
    cbv zeta in Hready. destruct Hready as (U1 & U2 & U3 & U4).
    change (over_world (log_utterance (trim T)) s2) with
      (over_world
         (fun w => log_utterance (trim T)
                     (clearTimeout (S (timer_ids (world s)))
                        (set_now (now w + quiet) w))) s1) in U1, U2, U3, U4.
    rewrite E1, E3 in U3, U4. rewrite E2 in U1.
    split; [exact U2|]. split; [intros more; apply elapse_no_timer, U2|].
    split.
    + intros _. split; [reflexivity|]. split; [exact U3|]. split; [exact U4|].
      exact U1.
    + intros HT'. apply truthy_false in HT'. congruence.
  - fold s2. split; [exact H2|]. split; [intros more; apply elapse_no_timer, H2|].
    split.
    + intros HT'. apply truthy_true in HT'. congruence.
    + intros _. repeat split; assumption.
Qed.

(* ------------------------------------------------------------------ *)
(** ** The guard of the pipeline and the request queue *)

(** The guard does not look at the live flag: the handler of a render in
    which [isProcessing] is down starts a pipeline whatever the state is
    now. *)
Lemma guard_reads_the_render (render : HookState) (text : string) (w : World)
    (fl : list Suspended) :
  truthy (trim text) = true ->
  isProcessing render = false ->
  let s := spawn (handleUserSpeech render text) (mkSystem w fl) in
  trace (world s) =
    trace w ++ [SupabaseInsertMessage (NewMessage.mk (sessionId render) user text [])] /\
  length (inflight s) = S (length fl).
Proof.
  intros Ht Hp. submit Ht Hp. rewrite length_app. cbn. split; [reflexivity | lia].
Qed.

(** Whatever the queue holds, [generateResponse] issues its request at
    once. *)
Lemma generateResponse_fetches_at_once
    (msgs : list Message.t) (summary : option string) (w : World)
    (fl : list Suspended) :
  let s := spawn (GeminiService.generateResponse msgs summary ;; Return tt)
             (mkSystem w fl) in
  trace (world s) =
    trace w ++ [Fetch (apiKey (gemini w)) (GeminiService.formatMessages msgs summary)] /\
  requestQueue (gemini (world s)) = requestQueue (gemini w) ++ [S (promises (gemini w))] /\
  length (inflight s) = S (length fl).
Proof.
  unfold spawn, GeminiService.generateResponse. exec.
  rewrite length_app. cbn. repeat split. lia.
Qed.

(** C2.  The callbacks registered when the hook is mounted keep the handler
    of the first render, in which [isProcessing] is down.  A first utterance
    is submitted and raises the flag; while its user message is still being
    saved a second final transcript arrives and its timer fires: the guard
    lets the second call through.  Two pipelines are then in flight, both
    user messages are saved and the generator is called twice. *)
Theorem C2_second_pipeline_while_processing :
  isProcessing (hook (world first_submitted)) = true /\
  map waiting_on (inflight first_submitted) =
    [SupabaseInsertMessage (NewMessage.mk "" user "hello" [])] /\
  map waiting_on (inflight second_submitted) =
    [SupabaseInsertMessage (NewMessage.mk "" user "hello" []);
     SupabaseInsertMessage (NewMessage.mk "" user "hello again" [])] /\
  map Message.content (conversations (database (world both_generating))) =
    ["hello"; "hello again"] /\
  map waiting_on (inflight both_generating) =
    [Fetch "key" [Content.mk "user" "hello"];
     Fetch "key" [Content.mk "user" "hello again"]].
Proof. repeat split; vm_compute; reflexivity. Qed.

(** C9.  Two calls of [generateResponse] made one after the other, before
    anything settles: both requests have been sent to the endpoint and are
    outstanding at the same time; the queue only records them. *)
Theorem C9_requests_not_serialized :
  map waiting_on (inflight two_calls) =
    [Fetch "key" [Content.mk "user" "first"];
     Fetch "key" [Content.mk "user" "second"]] /\
  requestQueue (gemini (world two_calls)) = [1; 2] /\
  GeminiService.isProcessing (gemini (world two_calls)) = true.
Proof. repeat split; vm_compute; reflexivity. Qed.

(* ------------------------------------------------------------------ *)
(** ** Where the code departs from the specification *)

(** C3 does not hold as stated: playback ends while the microphone is on.
    When the microphone was already on as the callbacks were registered, the
    state stays [speaking]; with the callbacks of the first render it becomes
    [idle]; it is [listening] in neither case. *)
Lemma C3_counterexample :
  (isListening (hook (world spoken_while_listening_fresh)) = true /\
   isSpeaking (hook (world spoken_while_listening_fresh)) = false /\
   avatarState (hook (world spoken_while_listening_fresh)) = speaking /\
   avatarState (hook (world spoken_while_listening_fresh)) <> listening) /\
  (isListening (hook (world spoken_while_listening)) = true /\
   isSpeaking (hook (world spoken_while_listening)) = false /\
   avatarState (hook (world spoken_while_listening)) = idle /\
   avatarState (hook (world spoken_while_listening)) <> listening).
Proof. repeat split; vm_compute; solve [reflexivity | discriminate]. Qed.

(* ------------------------------------------------------------------ *)
(** ** The theorems at concrete inputs *)

Lemma C4_witness :
  truthy (trim "hello") = true /\
  isProcessing firstRender = false /\
  let s := run [Settle 0 (BackendError "connection lost")]
             (spawn (handleUserSpeech firstRender "hello") (loaded plain)) in
  error (hook (world s)) = Some "Failed to save message: connection lost" /\
  avatarState (hook (world s)) = idle /\
  trace (world s) =
    [SupabaseSelectMessages "session";
     SupabaseInsertMessage (NewMessage.mk "" user "hello" [])].
Proof.
  split; [reflexivity|]. split; [reflexivity|].
  pose proof (C4_user_message_not_saved firstRender "hello"
                (world (loaded plain)) [] "connection lost" eq_refl eq_refl) as H.
  cbv zeta in H. destruct H as (H1 & _ & _ & H4 & H5 & _).
  cbv zeta. split; [exact H4|]. split; [exact H5 | exact H1].
Defined.

Lemma C5_witness :
  let typeError := typeError (world (loaded plain)) in
  let unavailable :=
    Resolved (mkHttpResponse false 503 "Service Unavailable" (Rejected NonError)) in
  let no_body := Resolved (mkHttpResponse true 200 "OK" (Resolved JNull)) in
  truthy (trim "hello") = true /\
  isProcessing firstRender = false /\
  geminiServiceInstance (gemini (world (loaded plain))) = true /\
  settled typeError (GeminiService.readReply unavailable) =
    Rejected (Error "Gemini API error: 503 - Service Unavailable") /\
  settled typeError (GeminiService.readReply no_body) =
    Rejected (Error "Cannot read properties of null (reading 'candidates')") /\
  (let s := run [Settle 0 BackendOk; Settle 0 BackendOk; Settle 0 (HttpReply unavailable)]
              (spawn (handleUserSpeech firstRender "hello") (loaded plain)) in
   error (hook (world s)) = Some "Gemini API error: 503 - Service Unavailable" /\
   In (Message.mk 1 "" user "hello" 0 []) (select_messages "" (world s)) /\
   ~ In (Message.mk 1 "" user "hello" 0 []) (select_messages "session" (world s)) /\
   avatarState (hook (world s)) = idle /\
   inflight s = []) /\
  (let s := run [Settle 0 BackendOk; Settle 0 BackendOk; Settle 0 (HttpReply no_body)]
              (spawn (handleUserSpeech firstRender "hello") (loaded plain)) in
   error (hook (world s)) =
     Some "Cannot read properties of null (reading 'candidates')" /\
   avatarState (hook (world s)) = idle).
Proof.
  intros typeError unavailable no_body.
  split; [reflexivity|]. split; [reflexivity|]. split; [reflexivity|].
  split; [reflexivity|]. split; [reflexivity|].
  destruct C5_generator_failure_keeps_user_message as [H _].
  split.
  - specialize (H firstRender "hello" (world (loaded plain)) [] unavailable
                  (Error "Gemini API error: 503 - Service Unavailable")
                  eq_refl eq_refl eq_refl eq_refl).
    cbv zeta in H. destruct H as (_ & H2 & _ & H4 & H5 & _ & _ & _ & H8).
    cbv zeta. split; [exact H4|].
    split; [apply (proj2 (H2 "")); reflexivity|].
    split; [intros K; apply (proj1 (H2 "session")) in K; discriminate K|].
    split; [exact H5 | exact H8].
  - specialize (H firstRender "hello" (world (loaded plain)) [] no_body
                  (Error "Cannot read properties of null (reading 'candidates')")
                  eq_refl eq_refl eq_refl eq_refl).
    cbv zeta in H. destruct H as (_ & _ & _ & H4 & H5 & _).
    cbv zeta. split; [exact H4 | exact H5].
Defined.

Lemma C1_witness :
  let render := hook (world (loaded with_history)) in
  let r := Resolved (mkHttpResponse true 200 "OK" (Resolved (body_with "sure"))) in
  truthy (trim "one more") = true /\
  isProcessing render = false /\
  geminiServiceInstance (gemini (world (loaded with_history))) = true /\
  Generates r "sure" /\
  messages render = messages (hook (world (loaded with_history))) /\
  ~ In VoiceChange [Settle 0 BackendOk] /\
  trim "one more" <> "" /\
  (let s := run [Settle 0 BackendOk; Settle 0 BackendOk; Settle 0 (HttpReply r);
                 Settle 0 BackendOk; UtteranceStart 0;
                 Settle 0 (SpeechReply UtteranceEnd)]
              (spawn (handleUserSpeech render "one more") (loaded with_history)) in
   length (messages (hook (world s))) = 27 /\
   map waiting_on (inflight s) =
     [SupabaseUpsertSummary
        (NewSummary.mk "session"
           "Conversation with 25 messages. Recent topics discussed." 25)]) /\
  (let s := run [RecognitionResult "one more" true; Elapse 1000;
                 Settle 0 BackendOk; Settle 0 BackendOk; Settle 0 (HttpReply r);
                 Settle 0 BackendOk; UtteranceStart 0;
                 Settle 0 (SpeechReply UtteranceEnd)]
              (run [Settle 0 BackendOk] (mount with_history)) in
   length (messages (hook (world s))) = 27 /\
   filter is_upsert (trace (world s)) = [] /\
   map waiting_on (inflight s) = []).
Proof.
  intros render r.
  assert (Hr : Generates r "sure") by (eapply generates; reflexivity).
  assert (Hno : ~ In VoiceChange [Settle 0 BackendOk])
    by (intros [H | []]; discriminate H).
  assert (HT : trim "one more" <> "") by (vm_compute; discriminate).
  split; [reflexivity|]. split; [reflexivity|]. split; [reflexivity|].
  split; [exact Hr|]. split; [reflexivity|]. split; [exact Hno|].
  split; [exact HT|].
  destruct C1_summary_after_a_submission as (_ & H2 & H3 & _).
  split.
  - specialize (H3 render "one more" (world (loaded with_history)) [] r "sure" true
                  eq_refl eq_refl eq_refl Hr eq_refl).
    cbv zeta in H3. destruct H3 as (H31 & H32).
    cbv zeta. split; [exact H31 | exact H32].
  - specialize (H2 with_history [Settle 0 BackendOk] "one more" r "sure" true
                  Hno HT eq_refl Hr).
    cbv zeta in H2. destruct H2 as (H21 & H22 & H23).
    cbv zeta. split; [exact H21|]. split; [exact H22 | exact H23].
Defined.

Lemma C8_witness :
  truthy (trim "yo what's good") = true /\
  isProcessing firstRender = false /\
  geminiServiceInstance (gemini (world (loaded plain))) = true /\
  messages firstRender = [] /\
  select_summary (sessionId firstRender) (world (loaded plain)) = None /\
  ~ In VoiceChange [Settle 0 BackendOk] /\
  trim "one more" <> "" /\
  geminiServiceInstance (gemini (world (run [Settle 0 BackendOk] (mount with_history)))) =
    true /\
  trace (world (run [Settle 0 BackendOk; Settle 0 BackendOk]
                  (spawn (handleUserSpeech firstRender "yo what's good")
                     (loaded plain)))) =
    [SupabaseSelectMessages "session";
     SupabaseInsertMessage (NewMessage.mk "" user "yo what's good" []);
     SupabaseSelectSummary "";
     Fetch "key" [Content.mk "user" "yo what's good"]] /\
  trace (world (run [RecognitionResult "one more" true; Elapse 1000;
                     Settle 0 BackendOk; Settle 0 BackendOk]
                  (run [Settle 0 BackendOk] (mount with_history)))) =
    [SupabaseSelectMessages "session";
     SupabaseInsertMessage (NewMessage.mk "" user "one more" []);
     SupabaseSelectSummary "";
     Fetch "key" [Content.mk "user" "one more"]].
Proof.
  assert (Hno : ~ In VoiceChange [Settle 0 BackendOk])
    by (intros [H | []]; discriminate H).
  assert (HT : trim "one more" <> "") by (vm_compute; discriminate).
  do 5 (split; [reflexivity|]).
  split; [exact Hno|]. split; [exact HT|]. split; [reflexivity|].
  destruct C8_generator_context as (_ & H & _ & H' & _).
  split.
  - specialize (H firstRender "yo what's good" (world (loaded plain)) []
                  eq_refl eq_refl eq_refl).
    cbv zeta in H. destruct H as [_ H]. exact (H eq_refl eq_refl).
  - exact (H' with_history [Settle 0 BackendOk] "one more" Hno HT eq_refl).
Defined.

Lemma C3_witness :
  registered (world (loaded plain)) = Some firstRender /\
  avatarState (hook (onSpeakingEnd firstRender
                       (onSpeakingStart (world (loaded plain))))) <> listening /\
  isSpeaking (hook (world (run [Settle 0 (SpeechReply (UtteranceError "interrupted"))]
                             (spawn (SpeechService.speak "hi") (loaded plain))))) = false.
Proof.
  split; [reflexivity|].
  split.
  - destruct (C3_playback_end firstRender (onSpeakingStart (world (loaded plain))))
      as (_ & _ & _ & H & _).
    intros K. apply H in K. discriminate K.
  - destruct (C3_playback_end firstRender (world (loaded plain)))
      as (H1 & _ & _ & _ & H4).
    cbv zeta in H4, H1.
    exact (eq_trans
             (f_equal isSpeaking (H4 "hi" [] (UtteranceError "interrupted") eq_refl))
             H1).
Defined.

Lemma C10_witness :
  ("no-speech" = "no-speech" \/ "no-speech" = "aborted") /\
  "network" <> "no-speech" /\
  "network" <> "aborted" /\
  registered (world (loaded plain)) = Some firstRender /\
  error (hook (world (step (RecognitionError "no-speech") (loaded plain)))) = None /\
  error (hook (world (step (RecognitionError "network") (loaded plain)))) =
    Some "Speech recognition error: network".
Proof.
  split; [left; reflexivity|].
  split; [discriminate|]. split; [discriminate|]. split; [reflexivity|].
  split.
  - destruct (C10_recognition_errors "no-speech") as [H _].
    destruct (H (or_introl eq_refl)) as [_ H2]. rewrite H2. reflexivity.
  - destruct (C10_recognition_errors "network") as [_ H].
    assert (H1 : "network" <> "no-speech") by discriminate.
    assert (H2 : "network" <> "aborted") by discriminate.
    destruct (H H1 H2) as [_ H3].
    rewrite (H3 (loaded plain) firstRender eq_refl). reflexivity.
Defined.

(** The page of [plain], listening, after one interim transcript. *)
Lemma C6_witness :
  trim padded_hello <> "" /\
  trim nbsp = "" /\
  999 < 1000 /\
  1000 <= 1000 /\
  let history := [Settle 0 BackendOk; StartListening; RecognitionResult " hel" false] in
  let s := run history (mount plain) in
  registered (world s) = Some firstRender /\
  isProcessing firstRender = false /\
  trace (world (elapse 999 (step (RecognitionResult padded_hello true) s))) =
    [SupabaseSelectMessages "session"] /\
  trace (world (elapse 1000 (step (RecognitionResult padded_hello true) s))) =
    [SupabaseSelectMessages "session";
     SupabaseInsertMessage (NewMessage.mk "" user "hello" [])] /\
  trace (world (elapse 1000 (step (RecognitionResult nbsp true) s))) =
    [SupabaseSelectMessages "session"].
Proof.
  assert (H0 : trim padded_hello <> "") by (vm_compute; discriminate).
  split; [exact H0|]. split; [reflexivity|]. split; [lia|]. split; [lia|].
  cbv zeta. split; [reflexivity|]. split; [reflexivity|].
  split; [|split].
  - destruct (C6_final_transcript_debounce plain
                [Settle 0 BackendOk; StartListening; RecognitionResult " hel" false]
                padded_hello 999) as (render & Hreg & H & _).
    destruct (H H0) as (_ & H2 & _). rewrite H2 by lia. reflexivity.
  - destruct (C6_final_transcript_debounce plain
                [Settle 0 BackendOk; StartListening; RecognitionResult " hel" false]
                padded_hello 1000) as (render & Hreg & H & _).
    assert (Hrender : Some render = Some firstRender)
      by (rewrite <- Hreg; reflexivity).
    injection Hrender as ->.
    destruct (H H0) as (_ & _ & H3).
    destruct (H3 (le_n _)) as (_ & H4 & _).
    destruct (H4 eq_refl) as (H5 & _). exact H5.
  - destruct (C6_final_transcript_debounce plain
                [Settle 0 BackendOk; StartListening; RecognitionResult " hel" false]
                nbsp 1000) as (render & _ & _ & H & _).
    destruct (H eq_refl) as (_ & H2). rewrite H2. reflexivity.
Defined.

Lemma C7_witness :
  trim " hello there" <> "" /\
  trim nbsp = "" /\
  1999 < 2000 /\
  2000 <= 2000 /\
  let history := [Settle 0 BackendOk; StartListening; RecognitionResult " hello" false] in
  let s := run history (mount plain) in
  registered (world s) = Some firstRender /\
  isProcessing firstRender = false /\
  trace (world (elapse 1999 (step (RecognitionResult " hello there" false) s))) =
    [SupabaseSelectMessages "session"] /\
  trace (world (elapse 2000 (step (RecognitionResult " hello there" false) s))) =
    [SupabaseSelectMessages "session";
     SupabaseInsertMessage (NewMessage.mk "" user "hello there" [])] /\
  trace (world (elapse 2000 (step (RecognitionResult nbsp false) s))) =
    [SupabaseSelectMessages "session"].
Proof.
  assert (H0 : trim " hello there" <> "") by (vm_compute; discriminate).
  split; [exact H0|]. split; [reflexivity|]. split; [lia|]. split; [lia|].
  cbv zeta. split; [reflexivity|]. split; [reflexivity|].
  split; [|split].
  - destruct (C7_interim_transcript_fallback plain
                [Settle 0 BackendOk; StartListening; RecognitionResult " hello" false]
                " hello there" 1999) as (render & _ & _ & H & _).
    rewrite H by lia. reflexivity.
  - destruct (C7_interim_transcript_fallback plain
                [Settle 0 BackendOk; StartListening; RecognitionResult " hello" false]
                " hello there" 2000) as (render & Hreg & _ & _ & H).
    assert (Hrender : Some render = Some firstRender)
      by (rewrite <- Hreg; reflexivity).
    injection Hrender as ->.
    destruct (H (le_n _)) as (_ & _ & H3 & _).
    destruct (H3 H0) as (_ & H4 & _).
    destruct (H4 eq_refl) as (H5 & _). exact H5.
  - destruct (C7_interim_transcript_fallback plain
                [Settle 0 BackendOk; StartListening; RecognitionResult " hello" false]
                nbsp 2000) as (render & _ & _ & _ & H).
    destruct (H (le_n _)) as (_ & _ & _ & H3).
    destruct (H3 eq_refl) as (_ & H4 & _). rewrite H4. reflexivity.
Defined.

(* ================================================================== *)
(** * Further properties *)

(* ------------------------------------------------------------------ *)
(** ** The generator's queue *)



(** X2.  The contents sent to the endpoint hold at most 11 entries, each
    with the role [user] or [model] (the role [assistant] is sent as
    [model]); and the last entry is always the last message of the list
    given, so that in the pipeline, which puts the saved user message last,
    the generator is asked about the utterance just made. *)
Theorem formatMessages_roles_and_last_entry :
  forall (msgs : list Message.t) (summary : option string),
    length (GeminiService.formatMessages msgs summary) <= 11 /\
    (forall c, In c (GeminiService.formatMessages msgs summary) ->
               Content.role c = "user" \/ Content.role c = "model") /\
    (forall m,
       exists before,
         GeminiService.formatMessages (msgs ++ [m]) summary =
         before ++ [Content.mk (GeminiService.roleOf (Message.role m))
                      (Message.content m)]).
Proof.
  intros msgs summary. rewrite formatMessages_eq.
  destruct (sliceLast_spec 10 msgs) as [_ Hl].
  split; [|split].
  - rewrite length_app, length_map, Hl.
    destruct summary as [s|]; [destruct (truthy s)|]; cbn [length]; lia.
  - intros c Hc. apply in_app_or in Hc as [Hc | Hc].
    + destruct summary as [s|]; [destruct (truthy s)|]; cbn in Hc;
        try contradiction.
      destruct Hc as [<- | []]. left. reflexivity.
    + apply in_map_iff in Hc as (m & <- & _). cbn [Content.role].
      destruct (Message.role m); [left | right]; reflexivity.
  - intros m. rewrite formatMessages_eq.
    unfold sliceLast. rewrite length_app. cbn [length].
    rewrite skipn_app.
    replace (length msgs + 1 - 10 - length msgs) with 0 by lia.
    cbn [skipn]. rewrite map_app. cbn [map].
    eexists. rewrite app_assoc. reflexivity.
Qed.

(* ------------------------------------------------------------------ *)
(** ** Where the pipeline can stop *)

(** X3.  When the Gemini service has not been initialised, the pipeline
    stops right after the user message was saved: the message is in the table
    and in the transcript, the only request made is its insertion (no summary
    lookup, no call of the endpoint), the error tells the user to set the API
    key, the state is [idle], the processing flag is down and the microphone
    flag stays down. *)
Theorem pipeline_without_api_key :
  forall (render : HookState) (text : string) (w : World) (fl : list Suspended),
    truthy (trim text) = true ->
    isProcessing render = false ->
    geminiServiceInstance (gemini w) = false ->
    let savedUserMessage :=
      Message.mk (S (rows (database w))) (sessionId render) user text (now w) [] in
    let s := run [Settle (length fl) BackendOk]
               (spawn (handleUserSpeech render text) (mkSystem w fl)) in
    error (hook (world s)) =
      Some "Gemini API is not configured. Please set your API key in settings." /\
    trace (world s) =
      trace w ++ [SupabaseInsertMessage (NewMessage.mk (sessionId render) user text [])] /\
    conversations (database (world s)) =
      conversations (database w) ++ [savedUserMessage] /\
    messages (hook (world s)) = messages (hook w) ++ [savedUserMessage] /\
    avatarState (hook (world s)) = idle /\
    isProcessing (hook (world s)) = false /\
    isListening (hook (world s)) = false /\
    inflight s = fl.
Proof.
  intros render text w fl Ht Hp Hg savedUserMessage s. subst savedUserMessage s.
  submit Ht Hp. settle_step. rewrite Hg. exec. rewrite app_nil_r.
  repeat split; reflexivity.
Qed.

(** X4.  When the lookup of the summary fails, the pipeline stops before the
    generator: the endpoint is never called, the saved user message stays in
    the table and in the transcript, the error of the database service is the
    current error and the state is [idle]. *)
Theorem pipeline_summary_lookup_fails :
  forall (render : HookState) (text : string) (w : World) (fl : list Suspended)
         (message : string),
    truthy (trim text) = true ->
    isProcessing render = false ->
    geminiServiceInstance (gemini w) = true ->
    let n := length fl in
    let savedUserMessage :=
      Message.mk (S (rows (database w))) (sessionId render) user text (now w) [] in
    let s := run [Settle n BackendOk; Settle n (BackendError message)]
               (spawn (handleUserSpeech render text) (mkSystem w fl)) in
    error (hook (world s)) = Some ("Failed to fetch summary: " ++ message)%string /\
    trace (world s) =
      trace w ++
      [SupabaseInsertMessage (NewMessage.mk (sessionId render) user text []);
       SupabaseSelectSummary (sessionId render)] /\
    gemini (world s) = gemini w /\
    conversations (database (world s)) =
      conversations (database w) ++ [savedUserMessage] /\
    messages (hook (world s)) = messages (hook w) ++ [savedUserMessage] /\
    avatarState (hook (world s)) = idle /\
    isProcessing (hook (world s)) = false /\
    inflight s = fl.
Proof.
  intros render text w fl message Ht Hp Hg n savedUserMessage s.
  subst n savedUserMessage s.
  submit Ht Hp. settle_step. rewrite Hg. exec. settle_step. rewrite app_nil_r.
  repeat split; try reflexivity.
  rewrite <- !app_assoc. reflexivity.
Qed.

(** X5.  When the reply was generated but saving the assistant message
    fails, the reply is lost: it is not spoken (the second insertion is the
    last request made, the synthesiser is never asked), and it is neither in
    the table nor in the transcript, which both hold the user message only;
    the error of the database service is the current error, the state is
    [idle] and the pipeline is over. *)
Theorem pipeline_reply_not_saved :
  forall (render : HookState) (text : string) (w : World) (fl : list Suspended)
         (r : Outcome HttpResponse) (aiResponse message : string),
    truthy (trim text) = true ->
    isProcessing render = false ->
    geminiServiceInstance (gemini w) = true ->
    Generates r aiResponse ->
    let n := length fl in
    let savedUserMessage :=
      Message.mk (S (rows (database w))) (sessionId render) user text (now w) [] in
    let s := run [Settle n BackendOk; Settle n BackendOk; Settle n (HttpReply r);
                  Settle n (BackendError message)]
               (spawn (handleUserSpeech render text) (mkSystem w fl)) in
    error (hook (world s)) = Some ("Failed to save message: " ++ message)%string /\
    trace (world s) =
      trace w ++
      [SupabaseInsertMessage (NewMessage.mk (sessionId render) user text []);
       SupabaseSelectSummary (sessionId render);
       Fetch (apiKey (gemini w))
         (GeminiService.formatMessages (messages render ++ [savedUserMessage])
            (option_map ConversationSummary.summary
               (select_summary (sessionId render) w)));
       SupabaseInsertMessage (NewMessage.mk (sessionId render) assistant aiResponse [])] /\
    synthesis_speaking (speech (world s)) = synthesis_speaking (speech w) /\
    conversations (database (world s)) =
      conversations (database w) ++ [savedUserMessage] /\
    messages (hook (world s)) = messages (hook w) ++ [savedUserMessage] /\
    avatarState (hook (world s)) = idle /\
    isProcessing (hook (world s)) = false /\
    inflight s = fl.
Proof.
  intros render text w fl r aiResponse message Ht Hp Hg Hr n savedUserMessage s.
  subst n savedUserMessage s.
  destruct Hr as [resp body ai H1 H2 H3].
  submit Ht Hp.
  settle_step. rewrite Hg. exec.
  settle_step.
  settle_step. generated H1 H2 H3.
  settle_step. rewrite app_nil_r.
  repeat split; try reflexivity.
  rewrite <- !app_assoc. reflexivity.
Qed.

(** X6.  When the synthesiser reports an error for the reply (this is also
    how an utterance that was cancelled finishes), the exchange itself is
    kept: both messages are in the table and in the transcript.  The error of
    the speech service is the current error, the state is [idle], the speaking
    flag is lowered by the callback of the service, and the summary is not
    written, however long the transcript is: the synthesiser's request is the
    last one made. *)
Theorem pipeline_speech_fails :
  forall (render : HookState) (text : string) (w : World) (fl : list Suspended)
         (r : Outcome HttpResponse) (aiResponse reason : string) (started : bool),
    truthy (trim text) = true ->
    isProcessing render = false ->
    geminiServiceInstance (gemini w) = true ->
    Generates r aiResponse ->
    registered w <> None ->
    let n := length fl in
    let savedUserMessage :=
      Message.mk (S (rows (database w))) (sessionId render) user text (now w) [] in
    let savedAiMessage :=
      Message.mk (S (S (rows (database w)))) (sessionId render) assistant aiResponse
        (now w) [] in
    let s := run ([Settle n BackendOk; Settle n BackendOk; Settle n (HttpReply r);
                   Settle n BackendOk] ++
                  (if started then [UtteranceStart n] else []) ++
                  [Settle n (SpeechReply (UtteranceError reason))])
               (spawn (handleUserSpeech render text) (mkSystem w fl)) in
    error (hook (world s)) = Some ("Speech synthesis error: " ++ reason)%string /\
    conversations (database (world s)) =
      conversations (database w) ++ [savedUserMessage; savedAiMessage] /\
    messages (hook (world s)) =
      messages (hook w) ++ [savedUserMessage; savedAiMessage] /\
    trace (world s) =
      trace w ++
      [SupabaseInsertMessage (NewMessage.mk (sessionId render) user text []);
       SupabaseSelectSummary (sessionId render);
       Fetch (apiKey (gemini w))
         (GeminiService.formatMessages (messages render ++ [savedUserMessage])
            (option_map ConversationSummary.summary
               (select_summary (sessionId render) w)));
       SupabaseInsertMessage (NewMessage.mk (sessionId render) assistant aiResponse []);
       SynthesisSpeak (instance (speech w)) aiResponse] /\
    avatarState (hook (world s)) = idle /\
    isSpeaking (hook (world s)) = false /\
    isProcessing (hook (world s)) = false /\
    inflight s = fl.
Proof.
  intros render text w fl r aiResponse reason started Ht Hp Hg Hr Hreg n
    savedUserMessage savedAiMessage s.
  subst n savedUserMessage savedAiMessage s.
  destruct Hr as [resp body ai H1 H2 H3].
  destruct (registered w) as [registeredRender|] eqn:Hw; [clear Hreg|congruence].
  submit Ht Hp.
  settle_step. rewrite Hg. exec.
  settle_step.
  settle_step. generated H1 H2 H3.
  settle_step.
  destruct started; exec; [start_step|]; settle_step;
    rewrite ?Nat.eqb_refl, ?Hw, ?app_nil_r; cbn [length];
    repeat split;
    try (rewrite <- !app_assoc; reflexivity).
Qed.

(** X7.  The summary is written inside the same [try] block, after the
    playback: when a render with more than 20 messages has taken an exchange
    to its end and the upsert then fails, the error of the database service
    becomes the current error and the state is set to [idle], although both
    messages were saved and spoken; the transcript keeps them and the table of
    summaries is unchanged. *)
Theorem pipeline_summary_not_saved :
  forall (render : HookState) (text : string) (w : World) (fl : list Suspended)
         (r : Outcome HttpResponse) (aiResponse message : string),
    truthy (trim text) = true ->
    isProcessing render = false ->
    geminiServiceInstance (gemini w) = true ->
    Generates r aiResponse ->
    20 < length (messages render) ->
    let n := length fl in
    let savedUserMessage :=
      Message.mk (S (rows (database w))) (sessionId render) user text (now w) [] in
    let savedAiMessage :=
      Message.mk (S (S (rows (database w)))) (sessionId render) assistant aiResponse
        (now w) [] in
    let s := run [Settle n BackendOk; Settle n BackendOk; Settle n (HttpReply r);
                  Settle n BackendOk; Settle n (SpeechReply UtteranceEnd);
                  Settle n (BackendError message)]
               (spawn (handleUserSpeech render text) (mkSystem w fl)) in
    error (hook (world s)) = Some ("Failed to save summary: " ++ message)%string /\
    avatarState (hook (world s)) = idle /\
    messages (hook (world s)) =
      messages (hook w) ++ [savedUserMessage; savedAiMessage] /\
    conversations (database (world s)) =
      conversations (database w) ++ [savedUserMessage; savedAiMessage] /\
    conversation_summaries (database (world s)) =
      conversation_summaries (database w) /\
    inflight s = fl.
Proof.
  intros render text w fl r aiResponse message Ht Hp Hg Hr Hlen n
    savedUserMessage savedAiMessage s.
  subst n savedUserMessage savedAiMessage s.
  destruct Hr as [resp body ai H1 H2 H3].
  apply Nat.ltb_lt in Hlen.
  submit Ht Hp.
  settle_step. rewrite Hg. exec.
  settle_step.
  settle_step. generated H1 H2 H3.
  settle_step.
  settle_step. rewrite Hlen. exec.
  settle_step. rewrite app_nil_r.
  repeat split; try (rewrite <- !app_assoc; reflexivity).
Qed.

(** X8.  What an exchange that runs to the end of playback leaves behind,
    besides the transcript: the two rows in the table are the two messages of
    the transcript, the live transcript text and the pending text are empty,
    the processing flag is down, and the microphone is off, in the hook and in
    the service: the pipeline switches it off when it starts and never
    switches it on again.  The error of an earlier failure is still the
    current error: nothing in the pipeline clears it. *)
Theorem pipeline_leaves_the_microphone_off :
  forall (render : HookState) (text : string) (w : World) (fl : list Suspended)
         (r : Outcome HttpResponse) (aiResponse : string),
    truthy (trim text) = true ->
    isProcessing render = false ->
    geminiServiceInstance (gemini w) = true ->
    Generates r aiResponse ->
    recognition (speech w) = true ->
    let n := length fl in
    let savedUserMessage :=
      Message.mk (S (rows (database w))) (sessionId render) user text (now w) [] in
    let savedAiMessage :=
      Message.mk (S (S (rows (database w)))) (sessionId render) assistant aiResponse
        (now w) [] in
    let s := run [Settle n BackendOk; Settle n BackendOk; Settle n (HttpReply r);
                  Settle n BackendOk; UtteranceStart n;
                  Settle n (SpeechReply UtteranceEnd)]
               (spawn (handleUserSpeech render text) (mkSystem w fl)) in
    isListening (hook (world s)) = false /\
    isListeningFlag (speech (world s)) = false /\
    conversations (database (world s)) =
      conversations (database w) ++ [savedUserMessage; savedAiMessage] /\
    messages (hook (world s)) =
      messages (hook w) ++ [savedUserMessage; savedAiMessage] /\
    currentTranscript (hook (world s)) = "" /\
    pendingTranscriptRef (world s) = "" /\
    isProcessing (hook (world s)) = false /\
    error (hook (world s)) = error (hook w).
Proof.
  intros render text w fl r aiResponse Ht Hp Hg Hr Hrec n
    savedUserMessage savedAiMessage s.
  subst n savedUserMessage savedAiMessage s.
  destruct Hr as [resp body ai H1 H2 H3].
  submit Ht Hp.
  settle_step. rewrite Hg. exec.
  settle_step.
  settle_step. generated H1 H2 H3.
  settle_step.
  start_step. settle_step.
  destruct (20 <? length (messages render)); exec;
    rewrite ?Hrec, ?andb_false_r;
    repeat split;
    try (rewrite <- !app_assoc; reflexivity).
Qed.

(* ------------------------------------------------------------------ *)
(** ** The controls of the hook *)

(** X9.  [startListening] is idempotent.  In a browser without speech
    recognition it changes nothing but the error, which names the missing
    support: the microphone flag stays down and the state is not
    [listening].  In a browser that has it, the flags of the hook and of the
    service go up, the state is [listening] and the earlier error is
    cleared. *)
Theorem startListening_idempotent :
  forall (w : World),
    startListening (startListening w) = startListening w /\
    (SpeechService.isSupported w = false ->
     startListening w =
       setError (Some "Speech recognition is not supported in this browser") w) /\
    (SpeechService.isSupported w = true ->
     isListening (hook (startListening w)) = true /\
     isListeningFlag (speech (startListening w)) = true /\
     avatarState (hook (startListening w)) = listening /\
     error (hook (startListening w)) = None).
Proof.
  intros w. unfold startListening, SpeechService.isSupported,
    SpeechService.startListening.
  destruct w as [[m c a l sp pr e sid] p t r [i [|] [|] sk sc] g ts ids nw db tr ut te];
    cbn; repeat split; intros; try reflexivity; try discriminate.
Qed.

(** X10.  Switching the microphone on and off again brings a hook at rest
    back to the very state it was in.  In general [stopListening] lowers both
    microphone flags, and sets the state to [idle] only when the render that
    created the handler was neither speaking nor processing: otherwise the
    state stays what it was. *)
Theorem stopListening_undoes_startListening :
  forall (render : HookState) (w : World),
    recognition (speech w) = true ->
    (isListening (hook w) = false ->
     isListeningFlag (speech w) = false ->
     avatarState (hook w) = idle ->
     error (hook w) = None ->
     isSpeaking render = false ->
     isProcessing render = false ->
     stopListening render (startListening w) = w) /\
    isListening (hook (stopListening render w)) = false /\
    isListeningFlag (speech (stopListening render w)) = false /\
    avatarState (hook (stopListening render w)) =
      (if negb (isSpeaking render) && negb (isProcessing render)
       then idle else avatarState (hook w)).
Proof.
  intros render w Hrec. unfold stopListening, startListening,
    SpeechService.isSupported, SpeechService.startListening.
  rewrite !stopListening_eq.
  destruct w as [[m c a l sp pr e sid] p t r [i rc lf sk sc] g ts ids nw db tr ut te].
  cbn in Hrec. subst rc. split.
  - cbn. intros -> -> -> -> -> ->. reflexivity.
  - destruct (negb (isSpeaking render) && negb (isProcessing render));
      cbn; rewrite ?andb_false_r; repeat split.
Qed.

(** X11.  A recognition error that is reported (any reason but [no-speech]
    and [aborted]) lowers the microphone flag of the hook and sets the state
    to [idle], but the speech service is not told to stop: its own flag, with
    which [recognition.onend] decides to start the recogniser again, is
    unchanged, and so are the pending timer and the transcript. *)
Theorem recognition_error_does_not_stop_the_service :
  forall (s : System) (reason : string),
    registered (world s) <> None ->
    reason <> "no-speech" ->
    reason <> "aborted" ->
    let s' := step (RecognitionError reason) s in
    isListening (hook (world s')) = false /\
    avatarState (hook (world s')) = idle /\
    error (hook (world s')) = Some ("Speech recognition error: " ++ reason)%string /\
    speech (world s') = speech (world s) /\
    timers (world s') = timers (world s) /\
    pendingTranscriptRef (world s') = pendingTranscriptRef (world s) /\
    messages (hook (world s')) = messages (hook (world s)) /\
    inflight s' = inflight s.
Proof.
  intros s reason Hreg H1 H2 s'. subst s'.
  cbn [step over_world world inflight].
  unfold SpeechService.recognition_onerror, SpeechService.onErrorCallback,
    SpeechService.slot.
  apply String.eqb_neq in H1, H2. rewrite H1, H2, Nat.eqb_refl.
  destruct (registered (world s)) as [render|]; [|congruence].
  cbn. repeat split.
Qed.

(** X12.  A change of a voice preference drops the utterance that is
    waiting for its timer: in any state the hook can reach, after the change
    no timer is set, and however much time then passes no call of
    [handleUserSpeech] is made and no request is issued.  The new speech
    service does not listen, while the microphone flag of the hook is what it
    was. *)
Theorem voice_change_drops_the_pending_utterance :
  forall (b : Boot) (history : list Event) (quiet : nat),
    let s := run history (mount b) in
    let s1 := step VoiceChange s in
    timers (world s1) = [] /\
    utterances (world (elapse quiet s1)) = utterances (world s) /\
    trace (world (elapse quiet s1)) = trace (world s) /\
    inflight (elapse quiet s1) = inflight s /\
    isListeningFlag (speech (world s1)) = false /\
    isListening (hook (world s1)) = isListening (hook (world s)).
Proof.
  intros b history quiet s s1.
  destruct (reachable_inv b history) as (Hs & _ & _). fold s in Hs.
  assert (Ht : timers (world s1) = []).
  { subst s1. cbn [step over_world world].
    unfold speechEffect, speechEffectCleanup, SpeechService.cleanup.
    rewrite stopSpeaking_eq, stopListening_eq.
    unfold single_timer in Hs. cbn.
    destruct (transcriptTimeoutRef (world s)) as [t|] eqn:Hr; cbn.
    - destruct (timers (world s)) as [|x [|y l]]; cbn;
        [reflexivity | | contradiction].
      injection Hs as ->. rewrite Nat.eqb_refl. reflexivity.
    - destruct (timers (world s)) as [|x [|y l]];
        [reflexivity | discriminate | contradiction]. }
  split; [exact Ht|].
  rewrite (elapse_no_timer quiet s1 Ht).
  subst s1. cbn [step over_world world inflight].
  unfold speechEffect, speechEffectCleanup, SpeechService.cleanup.
  rewrite stopSpeaking_eq, stopListening_eq.
  cbn. destruct (transcriptTimeoutRef (world s)); cbn; repeat split.
Qed.

(** X13.  When a voice preference changes while a reply is being spoken,
    the callbacks of the service that speaks are removed (and the utterance
    is cancelled); whichever way the utterance then finishes, nothing lowers
    the speaking flag of the hook: it stays up after the pipeline is over. *)
Theorem voice_change_during_playback :
  forall (render : HookState) (text : string) (w : World) (fl : list Suspended)
         (r : Outcome HttpResponse) (aiResponse : string) (ev : UtteranceEvent),
    truthy (trim text) = true ->
    isProcessing render = false ->
    geminiServiceInstance (gemini w) = true ->
    Generates r aiResponse ->
    registered w <> None ->
    length (messages render) <= 20 ->
    let n := length fl in
    let speaking_now :=
      run [Settle n BackendOk; Settle n BackendOk; Settle n (HttpReply r);
           Settle n BackendOk; UtteranceStart n]
        (spawn (handleUserSpeech render text) (mkSystem w fl)) in
    let s := run [VoiceChange; Settle n (SpeechReply ev)] speaking_now in
    isSpeaking (hook (world speaking_now)) = true /\
    synthesis_cancels (speech (world s)) = S (synthesis_cancels (speech w)) +
      (if synthesis_speaking (speech w) then 1 else 0) /\
    isSpeaking (hook (world s)) = true /\
    inflight s = fl.
Proof.
  intros render text w fl r aiResponse ev Ht Hp Hg Hr Hreg Hlen n speaking_now s.
  subst n s speaking_now.
  destruct Hr as [resp body ai H1 H2 H3].
  destruct (registered w) as [registeredRender|] eqn:Hw; [clear Hreg|congruence].
  assert (Hc : (20 <? length (messages render)) = false)
    by (apply Nat.ltb_ge; exact Hlen).
  submit Ht Hp.
  settle_step. rewrite Hg. exec.
  settle_step.
  settle_step. generated H1 H2 H3.
  settle_step.
  start_step. rewrite Nat.eqb_refl, Hw.
  split; [reflexivity|].
  cbn [step]. unfold over_world, speechEffect, speechEffectCleanup,
    SpeechService.cleanup.
  rewrite stopSpeaking_eq, stopListening_eq. cbn [world inflight].
  exec. settle_step.
  assert (Hne : forall k, match k with 0 => false | S m => k =? m end = false).
  { intros [|k]; [reflexivity | apply Nat.eqb_neq; lia]. }
  rewrite ?(Hne (instance (speech w))).
  destruct ev; exec; rewrite ?(Hne (instance (speech w))), ?Hc; exec;
    rewrite ?(Hne (instance (speech w))), ?app_nil_r;
    destruct (synthesis_speaking (speech w)); repeat split; cbn; lia || reflexivity.
Qed.

(* ------------------------------------------------------------------ *)
(** ** The session of the hook *)

(** X14.  [initSession] takes the stored session identifier when it is a
    non-empty string and the newly generated one otherwise.  With the memory
    preference off it asks nothing of the database and the transcript stays
    empty.  With the preference on it asks for the messages of that session
    and of no other; when they arrive the transcript holds exactly the rows
    of the table that belong to the session; when the query fails the
    failure is not shown: the transcript stays empty and there is no error. *)
Theorem initSession_loads_the_session :
  forall (b : Boot),
    let session :=
      match current_session_id b with
      | Some s => if truthy s then s else next_session_id b
      | None => next_session_id b
      end in
    sessionId (hook (world (mount b))) = session /\
    (memory_enabled b = false ->
     inflight (mount b) = [] /\
     trace (world (mount b)) = [] /\
     messages (hook (world (mount b))) = []) /\
    (memory_enabled b = true ->
     trace (world (mount b)) = [SupabaseSelectMessages session] /\
     (let s := run [Settle 0 BackendOk] (mount b) in
      messages (hook (world s)) = select_messages session (world (mount b)) /\
      (forall m, In m (messages (hook (world s))) <->
                 In m (conversations (stored b)) /\ Message.session_id m = session) /\
      error (hook (world s)) = None /\
      inflight s = []) /\
     (forall message,
        let s := run [Settle 0 (BackendError message)] (mount b) in
        messages (hook (world s)) = [] /\
        error (hook (world s)) = None /\
        sessionId (hook (world s)) = session /\
        inflight s = [])).
Proof.
  intros b session. unfold mount, initSession. fold session.
  destruct b as [key stored_id next memory db].
  cbn [gemini_api_key current_session_id next_session_id memory_enabled stored] in *.
  split; [destruct memory, key; reflexivity|].
  split; intros ->.
  - destruct key; repeat split.
  - destruct key; (split; [reflexivity|]);
      (split; [|intros message; repeat split]);
      cbv zeta; (split; [reflexivity|]); (split; [|split; reflexivity]);
      intros m; cbn -[select_messages]; rewrite select_messages_iff; cbn; reflexivity.
Qed.

(** X15.  The speech callbacks are registered once, by the effect of the
    first render, and only a change of a voice preference registers new ones.
    Until then, in every state the hook can reach, an utterance that is
    finalized is handled by the [handleUserSpeech] of the first render, whose
    [sessionId] is the empty string: one second after a final transcript
    with text, the user message is sent for insertion with the empty session
    identifier, not with the session of the hook (which [initSession] has set
    to a non-empty string). *)
Theorem utterances_use_the_first_render :
  forall (b : Boot) (history : list Event) (T : string),
    ~ In VoiceChange history ->
    trim T <> "" ->
    let s := run history (mount b) in
    registered (world s) = Some firstRender /\
    trace (world (run [RecognitionResult T true; Elapse 1000] s)) =
      trace (world s) ++ [SupabaseInsertMessage (NewMessage.mk "" user (trim T) [])].
Proof.
  intros b history T Hno HT s.
  pose proof (registered_first_render b history Hno) as Hreg. fold s in Hreg.
  split; [exact Hreg|].
  destruct (reachable_inv b history) as (Hs & _ & _). fold s in Hs.
  apply truthy_true in HT.
  destruct (@final_transcript_fires firstRender T 1000 s Hs Hreg HT) as (Ht & _ & Hq).
  unfold run. cbn [fold_left].
  change (step (Elapse 1000) ?x) with (elapse 1000 x).
  rewrite (Hq (le_n _)).
  set (s2 := over_world _ _).
  pose proof (@spawn_handleUserSpeech firstRender (trim T) s2) as Hf.
  rewrite trim_idempotent in Hf. destruct (Hf HT eq_refl) as (Hf1 & _).
  rewrite Hf1. subst s2.
  cbn [over_world world trace log_utterance clearTimeout set_timers set_now].
  rewrite (recognition_result_world T true s Hreg).
  destruct (onTranscript_rest firstRender T true (world s)) as (Htr & _).
  rewrite Htr. reflexivity.
Qed.

(* ------------------------------------------------------------------ *)
(** ** Identifiers kept in the browser *)

Section WebStorage.

Import Session.

Lemma getItem_removeItem key st : getItem key (removeItem key st) = None.
Proof.
  unfold getItem, removeItem.
  induction st as [|[k v] st IH]; cbn [filter find fst]; [reflexivity|].
  destruct (String.eqb k key) eqn:E; cbn [negb]; [exact IH|].
  cbn [find fst]. rewrite E. exact IH.
Qed.

Lemma getItem_app key st st' :
  getItem key (st ++ st') =
  match getItem key st with Some v => Some v | None => getItem key st' end.
Proof.
  unfold getItem.
  induction st as [|[k v] st IH]; cbn [app find fst]; [reflexivity|].
  destruct (String.eqb k key); [reflexivity | exact IH].
Qed.

Lemma getItem_setItem key value st : getItem key (setItem key value st) = Some value.
Proof.
  unfold setItem. rewrite getItem_app, getItem_removeItem.
  unfold getItem. cbn [find fst]. rewrite String.eqb_refl. reflexivity.
Qed.

End WebStorage.

(** X16.  The device identifier is made once: [generateDeviceId] returns a
    non-empty string, stores it, and every later call returns the same
    string and leaves the storage alone, whatever the clock and the random
    source then give, also after the current session was cleared.  A stored
    identifier that is the empty string counts as none. *)
Theorem generateDeviceId_is_stable :
  forall (date_now date_later : nat) (random random_later : string)
         (b : Session.Browser),
    let id := fst (Session.generateDeviceId date_now random b) in
    let b1 := snd (Session.generateDeviceId date_now random b) in
    truthy id = true /\
    Session.generateDeviceId date_later random_later b1 = (id, b1) /\
    Session.generateDeviceId date_later random_later (Session.clearCurrentSession b1) =
      (id, Session.clearCurrentSession b1) /\
    (Session.getItem "device_id" (Session.localStorage b) = Some "" ->
     id = ("device_" ++ ofNat date_now ++ "_" ++ random)%string).
Proof.
  intros date_now date_later random random_later b id b1. subst id b1.
  unfold Session.generateDeviceId.
  destruct (Session.getItem "device_id" (Session.localStorage b)) as [stored|] eqn:E;
    [destruct (truthy stored) eqn:Hs|]; cbn [fst snd].
  - unfold Session.clearCurrentSession. cbn [Session.localStorage].
    rewrite E, Hs. repeat split. intros [= ->]. discriminate Hs.
  - unfold Session.clearCurrentSession. cbn [Session.localStorage].
    rewrite getItem_setItem.
    cbn -[ofNat]. repeat split.
  - unfold Session.clearCurrentSession. cbn [Session.localStorage].
    rewrite getItem_setItem.
    cbn -[ofNat]. repeat split.
Qed.

(** X17.  The session of a tab is made once: the first lines of
    [initSession] yield a non-empty identifier and store it, and they yield
    the same one, without touching the storage, each time they run again
    (the effect runs again when the memory preference changes), until
    [clearCurrentSession] is called, after which they yield the identifier
    that is then generated.  It is the identifier the hook is mounted
    with. *)
Theorem currentSession_is_kept_until_cleared :
  forall (date_now date_later : nat) (random random_later : string)
         (b : Session.Browser),
    let session := fst (currentSession date_now random b) in
    let b1 := snd (currentSession date_now random b) in
    truthy session = true /\
    Session.getCurrentSessionId b1 = Some session /\
    currentSession date_later random_later b1 = (session, b1) /\
    fst (currentSession date_later random_later (Session.clearCurrentSession b1)) =
      Session.generateSessionId date_later random_later /\
    (forall (memory : bool) (d : Database),
       sessionId (hook (world (mount (App.boot date_now random memory b d)))) =
       session).
Proof.
  intros date_now date_later random random_later b session b1. subst session b1.
  unfold currentSession, Session.getCurrentSessionId.
  assert (Hfresh : forall n r, truthy (Session.generateSessionId n r) = true)
    by reflexivity.
  assert (Hmount : forall key stored next memory d te,
            sessionId (hook (world (mount (mkBoot key stored next memory d te)))) =
            match stored with
            | Some s => if truthy s then s else next
            | None => next
            end).
  { intros key stored next memory d te. unfold mount, initSession.
    destruct key, memory; reflexivity. }
  destruct (Session.getItem "current_session_id" (Session.sessionStorage b))
    as [stored|] eqn:E; [destruct (truthy stored) eqn:Hs|]; cbn [fst snd].
  - rewrite E, Hs. unfold Session.clearCurrentSession. cbn [Session.sessionStorage].
    rewrite getItem_removeItem.
    repeat split; try assumption.
    intros memory d. unfold App.boot. rewrite Hmount.
    unfold Session.getCurrentSessionId. rewrite E, Hs. reflexivity.
  - unfold Session.setCurrentSessionId, Session.clearCurrentSession.
    cbn [Session.sessionStorage].
    rewrite getItem_setItem, getItem_removeItem, Hfresh.
    repeat split.
    intros memory d. unfold App.boot. rewrite Hmount.
    unfold Session.getCurrentSessionId. rewrite E, Hs. reflexivity.
  - unfold Session.setCurrentSessionId, Session.clearCurrentSession.
    cbn [Session.sessionStorage].
    rewrite getItem_setItem, getItem_removeItem, Hfresh.
    repeat split.
    intros memory d. unfold App.boot. rewrite Hmount.
    unfold Session.getCurrentSessionId. rewrite E. reflexivity.
Qed.

(** X18.  [formatTimeAgo] reads: ["Just now"] for a date less than a minute
    ago, and for any date in the future; a number of minutes from 1 to 59; a
    number of hours from 1 to 23; a number of days from 1 to 6; the date of
    the locale from 7 days on; the unit is in the plural exactly when the
    number is not 1.  A date that does not parse reads ["Invalid Date"]. *)
Theorem formatTimeAgo_ranges :
  forall (toLocaleDateString : Z -> string) (date now : Z),
    let ago := (now - date)%Z in
    let shown := Session.formatTimeAgo toLocaleDateString (Some date) now in
    ((ago < 60000)%Z -> shown = "Just now") /\
    ((60000 <= ago < 3600000)%Z ->
     exists m, (1 <= m <= 59)%Z /\ m = (ago / 60000)%Z /\
               shown = (JsOps.ofInt m ++ " min ago")%string) /\
    ((3600000 <= ago < 7200000)%Z -> shown = "1 hour ago") /\
    ((7200000 <= ago < 86400000)%Z ->
     exists h, (2 <= h <= 23)%Z /\ h = (ago / 3600000)%Z /\
               shown = (JsOps.ofInt h ++ " hours ago")%string) /\
    ((86400000 <= ago < 172800000)%Z -> shown = "1 day ago") /\
    ((172800000 <= ago < 604800000)%Z ->
     exists d, (2 <= d <= 6)%Z /\ d = (ago / 86400000)%Z /\
               shown = (JsOps.ofInt d ++ " days ago")%string) /\
    ((604800000 <= ago)%Z -> shown = toLocaleDateString date) /\
    Session.formatTimeAgo toLocaleDateString None now = "Invalid Date".
Proof.
  intros toLocaleDateString date now ago shown. subst shown.
  unfold Session.formatTimeAgo. fold ago.
  assert (Hm : forall k, (k * 60000 <= ago -> k <= ago / 60000)%Z)
    by (intros k Hk; apply Z.div_le_lower_bound; lia).
  assert (Hm' : forall k, (ago < k * 60000 -> ago / 60000 < k)%Z)
    by (intros k Hk; apply Z.div_lt_upper_bound; lia).
  assert (Hh : forall k, (k * 3600000 <= ago -> k <= ago / 3600000)%Z)
    by (intros k Hk; apply Z.div_le_lower_bound; lia).
  assert (Hh' : forall k, (ago < k * 3600000 -> ago / 3600000 < k)%Z)
    by (intros k Hk; apply Z.div_lt_upper_bound; lia).
  assert (Hd : forall k, (k * 86400000 <= ago -> k <= ago / 86400000)%Z)
    by (intros k Hk; apply Z.div_le_lower_bound; lia).
  assert (Hd' : forall k, (ago < k * 86400000 -> ago / 86400000 < k)%Z)
    by (intros k Hk; apply Z.div_lt_upper_bound; lia).
  repeat split.
  - intros H. specialize (Hm' 1%Z).
    replace (ago / 60000 <? 1)%Z with true by (symmetry; apply Z.ltb_lt; lia).
    reflexivity.
  - intros H. exists (ago / 60000)%Z.
    specialize (Hm 1%Z). specialize (Hm' 60%Z).
    replace (ago / 60000 <? 1)%Z with false by (symmetry; apply Z.ltb_ge; lia).
    replace (ago / 60000 <? 60)%Z with true by (symmetry; apply Z.ltb_lt; lia).
    repeat split; lia.
  - intros H.
    specialize (Hm 60%Z). specialize (Hh 1%Z). specialize (Hh' 2%Z).
    replace (ago / 60000 <? 1)%Z with false by (symmetry; apply Z.ltb_ge; lia).
    replace (ago / 60000 <? 60)%Z with false by (symmetry; apply Z.ltb_ge; lia).
    replace (ago / 3600000)%Z with 1%Z by lia. reflexivity.
  - intros H. exists (ago / 3600000)%Z.
    specialize (Hm 60%Z). specialize (Hh 2%Z). specialize (Hh' 24%Z).
    replace (ago / 60000 <? 1)%Z with false by (symmetry; apply Z.ltb_ge; lia).
    replace (ago / 60000 <? 60)%Z with false by (symmetry; apply Z.ltb_ge; lia).
    replace (ago / 3600000 <? 24)%Z with true by (symmetry; apply Z.ltb_lt; lia).
    replace (1 <? ago / 3600000)%Z with true by (symmetry; apply Z.ltb_lt; lia).
    repeat split; lia.
  - intros H.
    specialize (Hm 60%Z). specialize (Hh 24%Z). specialize (Hd 1%Z).
    specialize (Hd' 2%Z).
    replace (ago / 60000 <? 1)%Z with false by (symmetry; apply Z.ltb_ge; lia).
    replace (ago / 60000 <? 60)%Z with false by (symmetry; apply Z.ltb_ge; lia).
    replace (ago / 3600000 <? 24)%Z with false by (symmetry; apply Z.ltb_ge; lia).
    replace (ago / 86400000)%Z with 1%Z by lia. reflexivity.
  - intros H. exists (ago / 86400000)%Z.
    specialize (Hm 60%Z). specialize (Hh 24%Z). specialize (Hd 2%Z).
    specialize (Hd' 7%Z).
    replace (ago / 60000 <? 1)%Z with false by (symmetry; apply Z.ltb_ge; lia).
    replace (ago / 60000 <? 60)%Z with false by (symmetry; apply Z.ltb_ge; lia).
    replace (ago / 3600000 <? 24)%Z with false by (symmetry; apply Z.ltb_ge; lia).
    replace (ago / 86400000 <? 7)%Z with true by (symmetry; apply Z.ltb_lt; lia).
    replace (1 <? ago / 86400000)%Z with true by (symmetry; apply Z.ltb_lt; lia).
    repeat split; lia.
  - intros H.
    specialize (Hm 60%Z). specialize (Hh 24%Z). specialize (Hd 7%Z).
    replace (ago / 60000 <? 1)%Z with false by (symmetry; apply Z.ltb_ge; lia).
    replace (ago / 60000 <? 60)%Z with false by (symmetry; apply Z.ltb_ge; lia).
    replace (ago / 3600000 <? 24)%Z with false by (symmetry; apply Z.ltb_ge; lia).
    replace (ago / 86400000 <? 7)%Z with false by (symmetry; apply Z.ltb_ge; lia).
    reflexivity.
Qed.

(* ------------------------------------------------------------------ *)
(** ** The list of sessions *)

Section SessionMap.

Import SessionStore.

Lemma gt_irreflexive (a : string) : JsOps.gt a a = false.
Proof.
  induction a as [|x a IH]; cbn [JsOps.gt]; [reflexivity|].
  rewrite Nat.ltb_irrefl. exact IH.
Qed.

Lemma gt_transitive (a b c : string) :
  JsOps.gt a b = true -> JsOps.gt b c = true -> JsOps.gt a c = true.
Proof.
  revert b c. induction a as [|x a IH]; intros [|y b] [|z c]; cbn [JsOps.gt];
    try discriminate; try reflexivity.
  destruct (Nat.ltb_spec (nat_of_ascii y) (nat_of_ascii x)),
           (Nat.ltb_spec (nat_of_ascii x) (nat_of_ascii y)),
           (Nat.ltb_spec (nat_of_ascii z) (nat_of_ascii y)),
           (Nat.ltb_spec (nat_of_ascii y) (nat_of_ascii z)),
           (Nat.ltb_spec (nat_of_ascii z) (nat_of_ascii x)),
           (Nat.ltb_spec (nat_of_ascii x) (nat_of_ascii z));
    try discriminate; try reflexivity; try lia.
  apply IH.
Qed.

Variable V : Type.

Lemma Map_get_set_same key (v : V) m : Map_get key (Map_set key v m) = Some v.
Proof.
  unfold Map_get. induction m as [|[k old] m IH]; cbn [Map_set find fst].
  - rewrite String.eqb_refl. reflexivity.
  - destruct (String.eqb k key) eqn:E; cbn [find fst]; rewrite E;
      [reflexivity | exact IH].
Qed.

Lemma Map_get_set_other key key' (v : V) m :
  key <> key' -> Map_get key' (Map_set key v m) = Map_get key' m.
Proof.
  intros Hne. unfold Map_get. induction m as [|[k old] m IH]; cbn [Map_set find fst].
  - replace (String.eqb key key') with false
      by (symmetry; apply String.eqb_neq; exact Hne). reflexivity.
  - destruct (String.eqb k key) eqn:E; cbn [find fst].
    + apply String.eqb_eq in E. subst k.
      replace (String.eqb key key') with false
        by (symmetry; apply String.eqb_neq; exact Hne). reflexivity.
    + destruct (String.eqb k key'); [reflexivity | exact IH].
Qed.

Lemma Map_get_None key (m : Map V) : Map_get key m = None <-> ~ In key (map fst m).
Proof.
  unfold Map_get. induction m as [|[k v] m IH]; cbn [find fst map In].
  - split; [intros _ [] | reflexivity].
  - destruct (String.eqb k key) eqn:E.
    + apply String.eqb_eq in E. split; [discriminate | intros H; exfalso; auto].
    + apply String.eqb_neq in E. rewrite IH. tauto.
Qed.

Lemma Map_get_In key (v : V) m : Map_get key m = Some v -> In (key, v) m.
Proof.
  unfold Map_get. induction m as [|[k v'] m IH]; cbn [find fst]; [discriminate|].
  destruct (String.eqb k key) eqn:E.
  - apply String.eqb_eq in E. subst k. intros [= ->]. left. reflexivity.
  - intros H. right. apply IH, H.
Qed.

Lemma In_Map_get key (v : V) m :
  NoDup (map fst m) -> In (key, v) m -> Map_get key m = Some v.
Proof.
  unfold Map_get. induction m as [|[k v'] m IH]; cbn [find fst map In];
    [intros _ []|].
  intros Hnd [[= -> ->] | Hin].
  - rewrite String.eqb_refl. reflexivity.
  - inversion Hnd as [|? ? Hk Hm]; subst.
    destruct (String.eqb k key) eqn:E; [|apply IH; assumption].
    apply String.eqb_eq in E. subst k. exfalso. apply Hk.
    apply (in_map fst) in Hin. exact Hin.
Qed.

Lemma Map_set_absent key (v : V) m :
  Map_get key m = None -> Map_set key v m = m ++ [(key, v)].
Proof.
  unfold Map_get. induction m as [|[k old] m IH]; cbn [Map_set find fst app];
    [reflexivity|].
  destruct (String.eqb k key); [discriminate|].
  intros H. rewrite (IH H). reflexivity.
Qed.

Lemma Map_set_present key (v old : V) m :
  Map_get key m = Some old ->
  exists before after,
    m = before ++ (key, old) :: after /\
    Map_set key v m = before ++ (key, v) :: after.
Proof.
  unfold Map_get. induction m as [|[k v'] m IH]; cbn [Map_set find fst];
    [discriminate|].
  destruct (String.eqb k key) eqn:E.
  - apply String.eqb_eq in E. subst k. intros [= ->].
    exists [], m. split; reflexivity.
  - intros H. destruct (IH H) as (before & after & -> & ->).
    exists ((k, v') :: before), after. split; reflexivity.
Qed.

End SessionMap.

Section Counting.

Import SessionStore.

Lemma rows_of_app session data data' :
  rows_of session (data ++ data') = rows_of session data ++ rows_of session data'.
Proof. apply filter_app. Qed.

Lemma rows_of_one session msg :
  rows_of session [msg] =
  if String.eqb (SessionRow.session_id msg) session then [msg] else [].
Proof. reflexivity. Qed.

Lemma counted_nil : counted [] [].
Proof.
  repeat split; try reflexivity; try discriminate.
  constructor.
Qed.

(** One round of the [forEach]. *)
Lemma counted_step data sessionMap msg :
  counted data sessionMap -> counted (data ++ [msg]) (countMessage sessionMap msg).
Proof.
  intros (Hnd & Hnone & Hsome & Hsum).
  destruct msg as [sid created]. unfold countMessage.
  cbn [SessionRow.session_id SessionRow.created_at].
  destruct (Map_get sid sessionMap) as [existing|] eqn:Hget.
  - (* the session is in the map *)
    destruct (Hsome sid existing Hget) as (Hcount & Hin & Hmax).
    set (updated :=
           if JsOps.gt created (SessionData.last_activity existing)
           then SessionData.mk created (S (SessionData.message_count existing))
           else SessionData.mk (SessionData.last_activity existing)
                  (S (SessionData.message_count existing))).
    assert (Hupd : Map_set sid
              (if JsOps.gt created
                    (SessionData.last_activity
                       (SessionData.mk (SessionData.last_activity existing)
                          (S (SessionData.message_count existing))))
               then SessionData.mk created
                      (SessionData.message_count
                         (SessionData.mk (SessionData.last_activity existing)
                            (S (SessionData.message_count existing))))
               else SessionData.mk (SessionData.last_activity existing)
                      (S (SessionData.message_count existing))) sessionMap =
            Map_set sid updated sessionMap).
    { subst updated. cbn [SessionData.last_activity SessionData.message_count].
      destruct (JsOps.gt _ _); reflexivity. }
    rewrite Hupd. clear Hupd.
    assert (Hc : SessionData.message_count updated =
                 S (SessionData.message_count existing))
      by (subst updated; destruct (JsOps.gt _ _); reflexivity).
    destruct (@Map_set_present _ sid updated existing sessionMap Hget)
      as (before & after & Em & Es).
    rewrite Es. split; [|split; [|split]].
    + rewrite Em in Hnd. rewrite map_app in *. exact Hnd.
    + intros session. rewrite <- Es.
      destruct (String.eqb sid session) eqn:E.
      * apply String.eqb_eq in E. subst session.
        rewrite Map_get_set_same, rows_of_app, rows_of_one.
        cbn [SessionRow.session_id]. rewrite String.eqb_refl.
        split; [discriminate|]. intros H. apply app_eq_nil in H as [_ H].
        discriminate H.
      * apply String.eqb_neq in E.
        rewrite (@Map_get_set_other _ sid session _ sessionMap E), rows_of_app,
          rows_of_one.
        cbn [SessionRow.session_id].
        replace (String.eqb sid session) with false
          by (symmetry; apply String.eqb_neq; exact E).
        rewrite app_nil_r. apply Hnone.
    + intros session e. rewrite <- Es.
      destruct (String.eqb sid session) eqn:E.
      * apply String.eqb_eq in E. subst session.
        rewrite Map_get_set_same. intros [= <-].
        rewrite rows_of_app, rows_of_one. cbn [SessionRow.session_id].
        rewrite String.eqb_refl, length_app. cbn [length].
        split; [rewrite Hc, Hcount; lia|].
        subst updated.
        destruct (JsOps.gt created (SessionData.last_activity existing)) eqn:G;
          cbn [SessionData.last_activity]; split.
        -- apply in_or_app. right. left. reflexivity.
        -- intros m Hm. apply in_app_or in Hm as [Hm | [<- | []]].
           ++ destruct (JsOps.gt (SessionRow.created_at m) created) eqn:G';
                [|reflexivity].
              rewrite <- (Hmax m Hm). symmetry.
              eapply gt_transitive; eassumption.
           ++ apply gt_irreflexive.
        -- apply in_or_app. left. exact Hin.
        -- intros m Hm. apply in_app_or in Hm as [Hm | [<- | []]].
           ++ apply Hmax, Hm.
           ++ exact G.
      * apply String.eqb_neq in E.
        rewrite (@Map_get_set_other _ sid session _ sessionMap E), rows_of_app,
          rows_of_one.
        cbn [SessionRow.session_id].
        replace (String.eqb sid session) with false
          by (symmetry; apply String.eqb_neq; exact E).
        rewrite app_nil_r. intros He.
        destruct (Hsome session e He) as (H1 & H2 & H3).
        split; [exact H1|]. split; [apply in_or_app; left; exact H2 | exact H3].
    + rewrite Em in Hsum. rewrite map_app, list_sum_app in *.
      cbn [map snd] in *. unfold list_sum in *. cbn [fold_right] in *.
      rewrite length_app. cbn [length]. rewrite Hc. lia.
  - (* the session is new *)
    rewrite (@Map_set_absent _ sid _ sessionMap Hget).
    assert (Hrows : rows_of sid data = []) by (apply Hnone, Hget).
    split; [|split; [|split]].
    + rewrite map_app. cbn [map fst].
      apply (NoDup_Add (a := sid) (l := map fst sessionMap)).
      * rewrite <- (app_nil_r (map fst sessionMap)) at 1. apply Add_app.
      * split; [exact Hnd|]. apply Map_get_None, Hget.
    + intros session. rewrite <- (@Map_set_absent _ sid _ sessionMap Hget).
      destruct (String.eqb sid session) eqn:E.
      * apply String.eqb_eq in E. subst session.
        rewrite Map_get_set_same, rows_of_app, rows_of_one.
        cbn [SessionRow.session_id]. rewrite String.eqb_refl.
        split; [discriminate|]. intros H. apply app_eq_nil in H as [_ H].
        discriminate H.
      * apply String.eqb_neq in E.
        rewrite (@Map_get_set_other _ sid session _ sessionMap E), rows_of_app,
          rows_of_one.
        cbn [SessionRow.session_id].
        replace (String.eqb sid session) with false
          by (symmetry; apply String.eqb_neq; exact E).
        rewrite app_nil_r. apply Hnone.
    + intros session e. rewrite <- (@Map_set_absent _ sid _ sessionMap Hget).
      destruct (String.eqb sid session) eqn:E.
      * apply String.eqb_eq in E. subst session.
        rewrite Map_get_set_same. intros [= <-].
        rewrite rows_of_app, rows_of_one. cbn [SessionRow.session_id].
        rewrite String.eqb_refl, Hrows.
        cbn [app length SessionData.message_count SessionData.last_activity].
        split; [reflexivity|]. split.
        -- apply in_or_app. right. left. reflexivity.
        -- intros m [<- | []]. apply gt_irreflexive.
      * apply String.eqb_neq in E.
        rewrite (@Map_get_set_other _ sid session _ sessionMap E), rows_of_app,
          rows_of_one.
        cbn [SessionRow.session_id].
        replace (String.eqb sid session) with false
          by (symmetry; apply String.eqb_neq; exact E).
        rewrite app_nil_r. intros He.
        destruct (Hsome session e He) as (H1 & H2 & H3).
        split; [exact H1|]. split; [apply in_or_app; left; exact H2 | exact H3].
    + rewrite map_app, list_sum_app, length_app. cbn. lia.
Qed.

Lemma counted_fold data done sessionMap :
  counted done sessionMap ->
  counted (done ++ data) (fold_left countMessage data sessionMap).
Proof.
  revert done sessionMap.
  induction data as [|msg data IH]; intros done sessionMap H; cbn [fold_left].
  - rewrite app_nil_r. exact H.
  - replace (done ++ msg :: data) with ((done ++ [msg]) ++ data)
      by (rewrite <- app_assoc; reflexivity).
    apply IH, counted_step, H.
Qed.

Lemma counted_all data : counted data (fold_left countMessage data []).
Proof. apply (counted_fold data counted_nil). Qed.

Lemma rows_of_nil session data :
  rows_of session data = [] <-> ~ In session (map SessionRow.session_id data).
Proof.
  unfold rows_of. induction data as [|msg data IH]; cbn [filter map In].
  - split; [intros _ [] | reflexivity].
  - destruct (String.eqb (SessionRow.session_id msg) session) eqn:E.
    + apply String.eqb_eq in E. split; [discriminate | intros H; exfalso; auto].
    + apply String.eqb_neq in E. rewrite IH. tauto.
Qed.

Lemma In_rows_of session msg data :
  In msg (rows_of session data) <->
  In msg data /\ SessionRow.session_id msg = session.
Proof. unfold rows_of. rewrite filter_In, String.eqb_eq. reflexivity. Qed.

(** The array returned and the map it is made from. *)
Lemma entries_of_map (sessionMap : Map SessionData.t) :
  let sessions :=
    map (fun '(session_id, data) =>
           SessionEntry.mk session_id (SessionData.last_activity data)
             (SessionData.message_count data)) sessionMap in
  map SessionEntry.session_id sessions = map fst sessionMap /\
  map SessionEntry.message_count sessions =
    map (fun kv => SessionData.message_count (snd kv)) sessionMap /\
  map SessionEntry.last_activity sessions =
    map (fun kv => SessionData.last_activity (snd kv)) sessionMap /\
  (forall e, In e sessions ->
     In (SessionEntry.session_id e,
         SessionData.mk (SessionEntry.last_activity e) (SessionEntry.message_count e))
        sessionMap).
Proof.
  induction sessionMap as [|[k [l c]] m (H1 & H2 & H3 & H4)]; cbn.
  - repeat split. intros e [].
  - rewrite H1, H2, H3. repeat split.
    intros e [<- | He]; [left; reflexivity | right; apply H4, He].
Qed.

Lemma newest_first_tail c times :
  newest_first (c :: times) = true -> newest_first times = true.
Proof. cbn [newest_first]. intros H. apply andb_prop in H. apply H. Qed.

Lemma newest_first_head c times b :
  newest_first (c :: times) = true -> In b times -> JsOps.gt b c = false.
Proof.
  cbn [newest_first]. intros H Hb. apply andb_prop in H as [H _].
  rewrite forallb_forall in H. apply negb_true_iff, H, Hb.
Qed.

Lemma newest_first_snoc c times :
  newest_first times = true -> (forall a, In a times -> JsOps.gt c a = false) ->
  newest_first (times ++ [c]) = true.
Proof.
  induction times as [|t times IH]; intros H Hc; [reflexivity|].
  cbn [app newest_first] in *. apply andb_prop in H as [H1 H2].
  apply andb_true_intro. split.
  - rewrite forallb_app, H1. cbn [forallb]. rewrite (Hc t (or_introl eq_refl)).
    reflexivity.
  - apply IH; [exact H2|]. intros a Ha. apply Hc. right. exact Ha.
Qed.

(** When the rows come newest first, no entry of the map is ever given a
    later time, and the entries stay newest first. *)
Lemma newest_first_fold data sessionMap :
  newest_first (map SessionRow.created_at data) = true ->
  newest_first (map (fun kv => SessionData.last_activity (snd kv)) sessionMap) = true ->
  (forall kv msg, In kv sessionMap -> In msg data ->
     JsOps.gt (SessionRow.created_at msg) (SessionData.last_activity (snd kv)) = false) ->
  newest_first
    (map (fun kv => SessionData.last_activity (snd kv))
       (fold_left countMessage data sessionMap)) = true.
Proof.
  revert sessionMap.
  induction data as [|[sid created] data IH]; intros sessionMap Hd Hm Hle;
    cbn [fold_left]; [exact Hm|].
  cbn [map SessionRow.created_at] in Hd.
  apply IH; [eapply newest_first_tail, Hd | |];
    unfold countMessage; cbn [SessionRow.session_id SessionRow.created_at];
    destruct (Map_get sid sessionMap) as [existing|] eqn:Hget.
  - pose proof (Map_get_In _ _ Hget) as Hin.
    pose proof (Hle (sid, existing) (SessionRow.mk sid created) Hin
                  (or_introl eq_refl)) as G.
    cbn [snd SessionRow.created_at] in G.
    cbn [SessionData.last_activity SessionData.message_count]. rewrite G.
    destruct (@Map_set_present _ sid
                (SessionData.mk (SessionData.last_activity existing)
                   (S (SessionData.message_count existing)))
                existing sessionMap Hget) as (before & after & Em & Es).
    cbn [SessionData.last_activity SessionData.message_count].
    rewrite Es. rewrite Em in Hm. rewrite map_app in *. exact Hm.
  - rewrite (@Map_set_absent _ sid _ sessionMap Hget), map_app.
    apply newest_first_snoc; [exact Hm|].
    intros a Ha. apply in_map_iff in Ha as (kv & <- & Hkv).
    apply (Hle kv (SessionRow.mk sid created) Hkv (or_introl eq_refl)).
  - pose proof (Map_get_In _ _ Hget) as Hin.
    pose proof (Hle (sid, existing) (SessionRow.mk sid created) Hin
                  (or_introl eq_refl)) as G.
    cbn [snd SessionRow.created_at] in G.
    cbn [SessionData.last_activity SessionData.message_count]. rewrite G.
    destruct (@Map_set_present _ sid
                (SessionData.mk (SessionData.last_activity existing)
                   (S (SessionData.message_count existing)))
                existing sessionMap Hget) as (before & after & Em & Es).
    cbn [SessionData.last_activity SessionData.message_count].
    rewrite Es. intros kv msg Hkv Hmsg.
    apply in_app_or in Hkv as [Hkv | [<- | Hkv]].
    + apply Hle; [rewrite Em; apply in_or_app; left; exact Hkv | right; exact Hmsg].
    + apply (Hle (sid, existing)); [exact Hin | right; exact Hmsg].
    + apply Hle; [rewrite Em; apply in_or_app; right; right; exact Hkv
                 | right; exact Hmsg].
  - rewrite (@Map_set_absent _ sid _ sessionMap Hget).
    intros kv msg Hkv Hmsg. apply in_app_or in Hkv as [Hkv | [<- | []]].
    + apply Hle; [exact Hkv | right; exact Hmsg].
    + cbn [snd SessionData.last_activity].
      apply (@newest_first_head created (map SessionRow.created_at data) _ Hd).
      apply in_map, Hmsg.
Qed.

End Counting.

(** X19.  [getAllSessions] (the listing that aggregates in the client)
    returns one entry for each session that has a row and no other: no
    session appears twice, whatever the order of the rows.  A [null] result
    gives the empty list, and an error of the query is thrown with its
    message. *)
Theorem getAllSessions_one_entry_per_session :
  forall (data : list SessionRow.t),
    match SessionStore.getAllSessions (SbData (Some data)) with
    | Resolved sessions =>
        NoDup (map SessionEntry.session_id sessions) /\
        (forall session,
           In session (map SessionEntry.session_id sessions) <->
           In session (map SessionRow.session_id data))
    | Rejected _ => False
    end /\
    SessionStore.getAllSessions (SbData None) = Resolved [] /\
    (forall message,
       SessionStore.getAllSessions (SbError message) =
       Rejected (Error ("Failed to fetch sessions: " ++ message)%string)).
Proof.
  intros data. split; [|split; reflexivity].
  cbn [SessionStore.getAllSessions].
  destruct (counted_all data) as (Hnd & Hnone & _ & _).
  destruct (entries_of_map (fold_left SessionStore.countMessage data []))
    as (E1 & _ & _ & _).
  cbv zeta in E1. rewrite E1. split; [exact Hnd|].
  intros session.
  destruct (Hnone session) as [N1 N2].
  pose proof (rows_of_nil session data) as [R1 R2].
  pose proof (Map_get_None session (fold_left SessionStore.countMessage data []))
    as [M1 M2].
  destruct (in_dec string_dec session
              (map fst (fold_left SessionStore.countMessage data []))) as [Hi | Hi];
    destruct (in_dec string_dec session (map SessionRow.session_id data)) as [Hj | Hj];
    try tauto.
Qed.

(** X20.  The [message_count] of each entry is the number of rows of its
    session, and the counts add up to the number of rows: every row is
    counted once. *)
Theorem getAllSessions_counts_every_row :
  forall (data : list SessionRow.t),
    match SessionStore.getAllSessions (SbData (Some data)) with
    | Resolved sessions =>
        (forall e, In e sessions ->
           SessionEntry.message_count e =
           length (SessionStore.rows_of (SessionEntry.session_id e) data)) /\
        list_sum (map SessionEntry.message_count sessions) = length data
    | Rejected _ => False
    end.
Proof.
  intros data. cbn [SessionStore.getAllSessions].
  destruct (counted_all data) as (Hnd & _ & Hsome & Hsum).
  destruct (entries_of_map (fold_left SessionStore.countMessage data []))
    as (_ & E2 & _ & E4).
  cbv zeta in E2, E4. rewrite E2. split; [|exact Hsum].
  intros e He. apply E4, (In_Map_get _ _ _ Hnd), Hsome in He.
  cbn [SessionData.message_count] in He. apply He.
Qed.

(** X21.  The [last_activity] of each entry is the greatest time among the
    rows of its session, in the order in which the code compares the time
    strings: it is the time of one of these rows, and none of them has a
    greater one; this does not depend on the order of the rows. *)
Theorem getAllSessions_last_activity_is_the_latest :
  forall (data : list SessionRow.t),
    match SessionStore.getAllSessions (SbData (Some data)) with
    | Resolved sessions =>
        forall e, In e sessions ->
          In (SessionRow.mk (SessionEntry.session_id e) (SessionEntry.last_activity e))
             data /\
          (forall msg, In msg data ->
             SessionRow.session_id msg = SessionEntry.session_id e ->
             JsOps.gt (SessionRow.created_at msg) (SessionEntry.last_activity e) = false)
    | Rejected _ => False
    end.
Proof.
  intros data. cbn [SessionStore.getAllSessions].
  destruct (counted_all data) as (Hnd & _ & Hsome & _).
  destruct (entries_of_map (fold_left SessionStore.countMessage data []))
    as (_ & _ & _ & E4).
  cbv zeta in E4.
  intros e He. apply E4, (In_Map_get _ _ _ Hnd), Hsome in He.
  cbn [SessionData.last_activity] in He. destruct He as (_ & H2 & H3).
  split; [exact H2|].
  intros msg Hmsg Hs. apply H3, In_rows_of. split; assumption.
Qed.

(** X22.  When the rows come with the newest first, as the query orders
    them, the sessions are returned with the most recently active first. *)
Theorem getAllSessions_most_recent_first :
  forall (data : list SessionRow.t),
    SessionStore.newest_first (map SessionRow.created_at data) = true ->
    match SessionStore.getAllSessions (SbData (Some data)) with
    | Resolved sessions =>
        SessionStore.newest_first (map SessionEntry.last_activity sessions) = true
    | Rejected _ => False
    end.
Proof.
  intros data Hd. cbn [SessionStore.getAllSessions].
  destruct (entries_of_map (fold_left SessionStore.countMessage data []))
    as (_ & _ & E3 & _).
  cbv zeta in E3. rewrite E3.
  apply newest_first_fold; [exact Hd | reflexivity | intros kv msg []].
Qed.

(* ------------------------------------------------------------------ *)
(** ** Deleting a session *)

Section Tables.

Lemma filter_filter_implied A (p q : A -> bool) (l : list A) :
  (forall x, p x = true -> q x = true) ->
  filter p (filter q l) = filter p l.
Proof.
  intros H. induction l as [|x l IH]; cbn [filter]; [reflexivity|].
  destruct (q x) eqn:Q; cbn [filter].
  - rewrite IH. reflexivity.
  - destruct (p x) eqn:P; [|exact IH].
    rewrite (H x P) in Q. discriminate Q.
Qed.

Lemma filter_filter_none A (p q : A -> bool) (l : list A) :
  (forall x, p x = true -> q x = false) ->
  filter p (filter q l) = [].
Proof.
  intros H. induction l as [|x l IH]; cbn [filter]; [reflexivity|].
  destruct (q x) eqn:Q; cbn [filter]; [|exact IH].
  destruct (p x) eqn:P; [|exact IH].
  rewrite (H x P) in Q. discriminate Q.
Qed.

Lemma find_filter_implied A (p q : A -> bool) (l : list A) :
  (forall x, p x = true -> q x = true) ->
  find p (filter q l) = find p l.
Proof.
  intros H. induction l as [|x l IH]; cbn [filter find]; [reflexivity|].
  destruct (q x) eqn:Q; cbn [find].
  - destruct (p x); [reflexivity | exact IH].
  - destruct (p x) eqn:P; [|exact IH].
    rewrite (H x P) in Q. discriminate Q.
Qed.

Lemma find_filter_none A (p q : A -> bool) (l : list A) :
  (forall x, p x = true -> q x = false) ->
  find p (filter q l) = None.
Proof.
  intros H. induction l as [|x l IH]; cbn [filter find]; [reflexivity|].
  destruct (q x) eqn:Q; cbn [find]; [|exact IH].
  destruct (p x) eqn:P; [|exact IH].
  rewrite (H x P) in Q. discriminate Q.
Qed.

Lemma find_app A (p : A -> bool) (l l' : list A) :
  find p (l ++ l') = match find p l with Some x => Some x | None => find p l' end.
Proof.
  induction l as [|x l IH]; cbn [app find]; [reflexivity|].
  destruct (p x); [reflexivity | exact IH].
Qed.

Lemma same_session_not_other (a session other : string) :
  other <> session ->
  String.eqb a other = true -> negb (String.eqb a session) = true.
Proof.
  intros Hne H. apply String.eqb_eq in H. subst a.
  apply negb_true_iff, String.eqb_neq, Hne.
Qed.

Lemma same_session_not_kept (a session : string) :
  String.eqb a session = true -> negb (String.eqb a session) = false.
Proof. intros ->. reflexivity. Qed.

End Tables.

(** X23.  When both statements of [deleteSession] run, the session is gone:
    the query of its messages returns none and it has no summary, while the
    messages and the summary of every other session are what they were. *)
Theorem deleteSession_removes_the_session_only :
  forall (sessionId : string) (d : Database) (w : World),
    let outcome := fst (SessionStore.deleteSession sessionId None None d) in
    let d' := snd (SessionStore.deleteSession sessionId None None d) in
    outcome = Resolved tt /\
    select_messages sessionId (set_database d' w) = [] /\
    select_summary sessionId (set_database d' w) = None /\
    (forall other, other <> sessionId ->
       select_messages other (set_database d' w) =
         select_messages other (set_database d w) /\
       select_summary other (set_database d' w) =
         select_summary other (set_database d w)).
Proof.
  intros sessionId d w outcome d'. subst outcome d'.
  unfold select_messages, select_summary. cbn.
  split; [reflexivity|]. split; [|split].
  - rewrite filter_filter_none; [reflexivity|].
    intros m. apply same_session_not_kept.
  - apply find_filter_none. intros s. apply same_session_not_kept.
  - intros other Hne. split.
    + rewrite filter_filter_implied; [reflexivity|].
      intros m. apply same_session_not_other, Hne.
    + apply find_filter_implied. intros s. apply same_session_not_other, Hne.
Qed.

(** X24.  [deleteSession] is not atomic.  When the deletion of the messages
    fails, nothing is deleted and the error is thrown.  When it succeeds and
    the deletion of the summary fails, the error is thrown although the
    messages are already gone, and the summary stays; if the code of that
    error is [PGRST116] the call even resolves. *)
Theorem deleteSession_partial_failure :
  forall (sessionId : string) (e : PostgrestError.t)
         (summaryError : option PostgrestError.t) (d : Database) (w : World),
    SessionStore.deleteSession sessionId (Some e) summaryError d =
      (Rejected (Error ("Failed to delete messages: " ++ PostgrestError.message e)%string),
       d) /\
    (let outcome := fst (SessionStore.deleteSession sessionId None (Some e) d) in
     let d' := snd (SessionStore.deleteSession sessionId None (Some e) d) in
     outcome =
       (if String.eqb (PostgrestError.code e) "PGRST116" then Resolved tt
        else Rejected
               (Error ("Failed to delete summary: " ++ PostgrestError.message e)%string)) /\
     select_messages sessionId (set_database d' w) = [] /\
     select_summary sessionId (set_database d' w) =
       select_summary sessionId (set_database d w)).
Proof.
  intros sessionId e summaryError d w. split; [reflexivity|].
  unfold SessionStore.deleteSession. cbn [SessionStore.run_statement].
  destruct (String.eqb (PostgrestError.code e) "PGRST116"); cbn [negb fst snd];
    (split; [reflexivity|]); (split; [|reflexivity]);
    unfold select_messages; cbn;
    (rewrite filter_filter_none; [reflexivity|]);
    intros m; apply same_session_not_kept.
Qed.

(* ------------------------------------------------------------------ *)
(** ** The summary of a session *)

(** X25.  A summary that was saved is the summary of its session:
    [getSummary] returns the row that [saveSummary] returned, with the text
    and the count that were given; the table then holds exactly one summary
    for that session, the summaries of the other sessions are what they were,
    and no message is touched. *)
Theorem saveSummary_then_getSummary :
  forall (summary : NewSummary.t) (w : World),
    exists saved w1 w2,
      perform (DatabaseService.saveSummary summary) [BackendOk] w =
        Some (Resolved saved, w1) /\
      perform (DatabaseService.getSummary (NewSummary.session_id summary))
        [BackendOk] w1 = Some (Resolved (Some saved), w2) /\
      ConversationSummary.session_id saved = NewSummary.session_id summary /\
      ConversationSummary.summary saved = NewSummary.summary summary /\
      ConversationSummary.message_count saved = NewSummary.message_count summary /\
      filter (fun s => String.eqb (ConversationSummary.session_id s)
                         (NewSummary.session_id summary))
        (conversation_summaries (database w1)) = [saved] /\
      (forall other, other <> NewSummary.session_id summary ->
         select_summary other w1 = select_summary other w) /\
      conversations (database w1) = conversations (database w) /\
      database w2 = database w1.
Proof.
  intros [sid text count] w.
  assert (Hfind : forall row,
            ConversationSummary.session_id row = sid ->
            find (fun s => String.eqb (ConversationSummary.session_id s) sid)
              (filter (fun x => negb (String.eqb (ConversationSummary.session_id x) sid))
                 (conversation_summaries (database w)) ++ [row]) = Some row).
  { intros row Hrow. rewrite find_app, find_filter_none.
    - cbn [find]. rewrite Hrow, String.eqb_refl. reflexivity.
    - intros s. apply same_session_not_kept. }
  assert (Hfilter : forall row,
            ConversationSummary.session_id row = sid ->
            filter (fun s => String.eqb (ConversationSummary.session_id s) sid)
              (filter (fun x => negb (String.eqb (ConversationSummary.session_id x) sid))
                 (conversation_summaries (database w)) ++ [row]) = [row]).
  { intros row Hrow. rewrite filter_app, filter_filter_none.
    - cbn [filter app]. rewrite Hrow, String.eqb_refl. reflexivity.
    - intros s. apply same_session_not_kept. }
  assert (Hother : forall other row,
            other <> sid ->
            ConversationSummary.session_id row = sid ->
            find (fun s => String.eqb (ConversationSummary.session_id s) other)
              (filter (fun x => negb (String.eqb (ConversationSummary.session_id x) sid))
                 (conversation_summaries (database w)) ++ [row]) =
            find (fun s => String.eqb (ConversationSummary.session_id s) other)
              (conversation_summaries (database w))).
  { intros other row Hne Hrow. rewrite find_app, find_filter_implied.
    - destruct (find _ (conversation_summaries (database w))); [reflexivity|].
      cbn [find]. rewrite Hrow.
      replace (String.eqb sid other) with false
        by (symmetry; apply String.eqb_neq; congruence).
      reflexivity.
    - intros s. apply same_session_not_other, Hne. }
  unfold DatabaseService.saveSummary, DatabaseService.getSummary.
  cbn [perform bind await answer NewSummary.session_id].
  unfold upsert_summary.
  cbn [NewSummary.session_id NewSummary.summary NewSummary.message_count].
  destruct (select_summary sid (log_request _ w)) as [old|];
    cbn [perform bind]; do 3 eexists.
  all: split; [reflexivity|].
  all: split;
    [cbn [perform bind await answer]; unfold select_summary;
     cbn [database log_request set_database conversation_summaries conversations];
     rewrite Hfind by reflexivity; reflexivity|].
  all: unfold select_summary;
    cbn [ConversationSummary.session_id ConversationSummary.summary
           ConversationSummary.message_count database set_database log_request
           conversation_summaries conversations].
  all: repeat split; try (apply Hfilter; reflexivity).
  all: intros other Hne; apply Hother; [exact Hne | reflexivity].
Qed.

(* ------------------------------------------------------------------ *)
(** ** Preferences *)

(** X26.  [getOrCreatePreferences] creates the row of a user once: when the
    user has a row it is returned and nothing is written; when there is none
    the defaults (no voice name, rate and pitch 1, the dark theme, memory on,
    push-to-talk off) are saved for that user and returned; either way a
    second call returns the same row and writes nothing, even if saving
    would then fail.  A failure of the lookup is thrown and writes nothing. *)
Theorem getOrCreatePreferences_creates_once :
  forall (number : Type) (one : number) (userId : string)
         (t : PreferencesTable number),
    exists prefs,
      fst (getOrCreatePreferences one userId None None t) = Resolved prefs /\
      pref_user_id prefs = userId /\
      match select_preferences userId t with
      | Some existing =>
          prefs = existing /\ snd (getOrCreatePreferences one userId None None t) = t
      | None =>
          pref_settings prefs = mkNewPreferences userId "" one one "dark" true false
      end /\
      (forall saveError,
         getOrCreatePreferences one userId None saveError
           (snd (getOrCreatePreferences one userId None None t)) =
         (Resolved prefs, snd (getOrCreatePreferences one userId None None t))) /\
      (forall e saveError,
         getOrCreatePreferences one userId (Some e) saveError t =
         (Rejected (Error ("Failed to fetch preferences: " ++
                           PostgrestError.message e)%string), t)).
Proof.
  intros number one userId t.
  unfold getOrCreatePreferences, getPreferences.
  destruct (select_preferences userId t) as [existing|] eqn:E.
  - exists existing. cbn [fst snd]. rewrite E.
    repeat split.
    unfold select_preferences in E. apply find_some in E as [_ E].
    apply String.eqb_eq, E.
  - unfold savePreferences, upsert_preferences.
    cbn [new_user_id]. rewrite E. cbn [fst snd].
    eexists. split; [reflexivity|].
    cbn [pref_user_id pref_settings new_user_id].
    split; [reflexivity|]. split; [reflexivity|]. split; [|reflexivity].
    intros saveError. unfold select_preferences at 1.
    cbn [user_preferences].
    rewrite find_app, find_filter_none.
    + cbn [find pref_user_id pref_settings new_user_id].
      rewrite String.eqb_refl. reflexivity.
    + intros p. apply same_session_not_kept.
Qed.

(* ------------------------------------------------------------------ *)
(** ** The handlers of the page *)

Lemma getItem_setItem_other key key' value st :
  key <> key' ->
  Session.getItem key' (Session.setItem key value st) = Session.getItem key' st.
Proof.
  intros Hne. unfold Session.setItem. rewrite getItem_app.
  assert (H : Session.getItem key' (Session.removeItem key st) = Session.getItem key' st).
  { unfold Session.getItem, Session.removeItem. f_equal.
    apply find_filter_implied. intros [k v]. cbn [fst]. intros H.
    apply String.eqb_eq in H. subst k.
    apply negb_true_iff, String.eqb_neq. congruence. }
  rewrite H. destruct (Session.getItem key' st); [reflexivity|].
  unfold Session.getItem. cbn [find fst].
  replace (String.eqb key key') with false
    by (symmetry; apply String.eqb_neq; exact Hne).
  reflexivity.
Qed.

Lemma mount_database (b : Boot) : database (world (mount b)) = stored b.
Proof.
  unfold mount, initSession.
  destruct (gemini_api_key b), (memory_enabled b); reflexivity.
Qed.

(** X27.  Clearing the conversation, when it is confirmed and the deletion
    goes through, reloads the page into a new session: the stored session
    identifier is removed (the device identifier and the API key stay), so
    that the hook is then mounted with the identifier generated at that
    time, and the old session has neither messages nor a summary left.  When
    the deletion of the messages fails nothing changes and the page is not
    reloaded; when only the deletion of the summary fails the page is not
    reloaded and keeps its session, although the messages are gone from the
    table.  Without the confirmation nothing happens. *)
Theorem handleClearConversation_starts_a_new_session :
  forall (session : string) (b : Session.Browser) (d : Database)
         (date_now : nat) (random : string) (memory : bool),
    let cleared := App.handleClearConversation true session None None b d in
    let b' := snd (fst cleared) in
    let d' := snd cleared in
    let s := mount (App.boot date_now random memory b' d') in
    fst (fst cleared) = true /\
    Session.getCurrentSessionId b' = None /\
    Session.localStorage b' = Session.localStorage b /\
    sessionId (hook (world s)) = Session.generateSessionId date_now random /\
    select_messages session (world s) = [] /\
    select_summary session (world s) = None /\
    (forall e summaryError,
       App.handleClearConversation true session (Some e) summaryError b d =
       (false, b, d)) /\
    (forall e,
       PostgrestError.code e <> "PGRST116" ->
       App.handleClearConversation true session None (Some e) b d =
       (false, b, SessionStore.delete_messages session d)) /\
    (forall messagesError summaryError,
       App.handleClearConversation false session messagesError summaryError b d =
       (false, b, d)).
Proof.
  intros session b d date_now random memory cleared b' d' s.
  subst s d' b' cleared. cbn [App.handleClearConversation negb fst snd
    SessionStore.deleteSession SessionStore.run_statement].
  split; [reflexivity|].
  split; [apply getItem_removeItem|].
  split; [reflexivity|].
  split.
  { unfold mount, initSession, App.boot.
    cbn [current_session_id next_session_id gemini_api_key
           memory_enabled].
    unfold Session.getCurrentSessionId, Session.clearCurrentSession.
    cbn [Session.sessionStorage]. rewrite getItem_removeItem.
    destruct (match Session.getItem "gemini_api_key" _ with
              | Some k => _ | None => _ end), memory; reflexivity. }
  split.
  { unfold select_messages. rewrite mount_database. cbn.
    rewrite filter_filter_none; [reflexivity|].
    intros m. apply same_session_not_kept. }
  split.
  { unfold select_summary. rewrite mount_database. cbn.
    apply find_filter_none. intros m. apply same_session_not_kept. }
  split; [reflexivity|]. split; [|reflexivity].
  intros e He. apply String.eqb_neq in He.
  unfold App.handleClearConversation, SessionStore.deleteSession.
  cbn [negb SessionStore.run_statement]. rewrite He. reflexivity.
Qed.

(** X28.  An API key entered in the dialog is trimmed, stored and used at
    once, and it is the key the page initialises the service with when it is
    loaded again; the device and session identifiers are not disturbed.  An
    entry that is blank changes nothing. *)
Theorem handleSetApiKey_round_trip :
  forall (apiKeyInput : string) (b : Session.Browser) (w reloaded : World),
    let b' := fst (App.handleSetApiKey apiKeyInput b w) in
    let w' := snd (App.handleSetApiKey apiKeyInput b w) in
    if truthy (trim apiKeyInput) then
      gemini w' = mkGeminiService true (trim apiKeyInput) [] (promises (gemini w)) /\
      gemini (App.loadApiKey b' reloaded) =
        mkGeminiService true (trim apiKeyInput) [] (promises (gemini reloaded)) /\
      Session.getItem "device_id" (Session.localStorage b') =
        Session.getItem "device_id" (Session.localStorage b) /\
      Session.sessionStorage b' = Session.sessionStorage b
    else
      b' = b /\ w' = w.
Proof.
  intros apiKeyInput b w reloaded b' w'. subst b' w'.
  unfold App.handleSetApiKey.
  destruct (truthy (trim apiKeyInput)) eqn:Ht; cbn [negb fst snd];
    [|split; reflexivity].
  split; [reflexivity|]. split.
  - unfold App.loadApiKey. cbn [Session.localStorage].
    rewrite getItem_setItem, Ht. reflexivity.
  - cbn [Session.localStorage Session.sessionStorage]. split; [|reflexivity].
    apply getItem_setItem_other. discriminate.
Qed.

(* ------------------------------------------------------------------ *)
(** ** The recogniser *)

(** X29.  Once listening has started, the recogniser is started again each
    time it ends, so that listening goes on through any number of ends,
    without a failed [start()] and without a call of the end callback.  After
    [stopListening] the next end is final: the recogniser stays stopped and
    the end callback, if there is one, is called once.  If [startListening]
    is called again before that end has come, its [start()] fails (the
    recogniser is still running) and the exception is caught, but the end
    then starts the recogniser again: listening resumes. *)
Theorem recognition_restarts_while_listening :
  forall (r : Recogniser.t) (onEndCallback : bool) (n : nat),
    Recogniser.isListeningFlag r = false ->
    Recogniser.running r = false ->
    let later :=
      Nat.iter n (Recogniser.onend onEndCallback) (Recogniser.startListening r) in
    let stopped := Recogniser.onend onEndCallback (Recogniser.stopListening later) in
    let toggled :=
      Recogniser.onend onEndCallback
        (Recogniser.startListening (Recogniser.stopListening later)) in
    later = Recogniser.mk true true (S (Recogniser.starts r) + n)
              (Recogniser.failed_starts r) (Recogniser.end_callbacks r) /\
    stopped = Recogniser.mk false false (S (Recogniser.starts r) + n)
                (Recogniser.failed_starts r)
                (Recogniser.end_callbacks r + (if onEndCallback then 1 else 0)) /\
    toggled = Recogniser.mk true true (S (S (Recogniser.starts r)) + n)
                (S (Recogniser.failed_starts r)) (Recogniser.end_callbacks r).
Proof.
  intros [flag running starts failed ends] onEndCallback n Hf Hr later stopped toggled.
  cbn in Hf, Hr. subst flag running.
  assert (Hlater : later = Recogniser.mk true true (S starts + n) failed ends).
  { subst later. clear stopped toggled.
    induction n as [|n IH].
    - cbn. rewrite Nat.add_0_r. reflexivity.
    - rewrite Nat.iter_succ, IH. cbn. rewrite Nat.add_succ_r. reflexivity. }
  subst stopped toggled. rewrite Hlater. cbn.
  split; [reflexivity|]. split; [|reflexivity].
  destruct onEndCallback; cbn; rewrite ?Nat.add_1_r, ?Nat.add_0_r; reflexivity.
Qed.

(* ------------------------------------------------------------------ *)
(** ** The generator's queue, seen from outside *)

(** X30.  [isProcessing()] tells whether a request is outstanding: on a
    service whose queue is empty it is false; it is true from the call of
    [generateResponse] until the request settles, and false again from then
    on, whether the request succeeded or failed. *)
Theorem isProcessing_while_the_request_is_pending :
  forall (msgs : list Message.t) (summary : option string) (w : World)
         (fl : list Suspended) (r : Outcome HttpResponse),
    requestQueue (gemini w) = [] ->
    let s := spawn (GeminiService.generateResponse msgs summary ;; Return tt)
               (mkSystem w fl) in
    GeminiService.isProcessing (gemini w) = false /\
    GeminiService.isProcessing (gemini (world s)) = true /\
    GeminiService.isProcessing
      (gemini (world (step (Settle (length fl) (HttpReply r)) s))) = false /\
    inflight (step (Settle (length fl) (HttpReply r)) s) = fl.
Proof.
  intros msgs summary w fl r Hq s. subst s.
  unfold GeminiService.isProcessing. rewrite Hq.
  split; [reflexivity|].
  unfold spawn, GeminiService.generateResponse. exec. rewrite Hq.
  split; [reflexivity|].
  settle_step.
  destruct (GeminiService.readReply r) as [v | e | te]; exec;
    rewrite Nat.eqb_refl, app_nil_r; split; reflexivity.
Qed.

(* ------------------------------------------------------------------ *)
(** ** The further properties at concrete inputs *)


Lemma pipeline_without_api_key_witness :
  let b := mkBoot None (Some "session") "session_1" true (mkDatabase [] [] 0) v8 in
  truthy (trim "hello") = true /\
  isProcessing firstRender = false /\
  geminiServiceInstance (gemini (world (loaded b))) = false /\
  let s := run [Settle 0 BackendOk]
             (spawn (handleUserSpeech firstRender "hello") (loaded b)) in
  error (hook (world s)) =
    Some "Gemini API is not configured. Please set your API key in settings." /\
  conversations (database (world s)) = [Message.mk 1 "" user "hello" 0 []] /\
  inflight s = [].
Proof.
  intros b.
  split; [reflexivity|]. split; [reflexivity|]. split; [reflexivity|].
  pose proof (pipeline_without_api_key firstRender "hello" (world (loaded b)) []
                eq_refl eq_refl eq_refl) as H.
  cbv zeta in H. destruct H as (H1 & _ & H3 & _ & _ & _ & _ & H8).
  cbv zeta. split; [exact H1|]. split; [exact H3 | exact H8].
Defined.

Lemma pipeline_summary_lookup_fails_witness :
  truthy (trim "hello") = true /\
  isProcessing firstRender = false /\
  geminiServiceInstance (gemini (world (loaded plain))) = true /\
  let s := run [Settle 0 BackendOk; Settle 0 (BackendError "timeout")]
             (spawn (handleUserSpeech firstRender "hello") (loaded plain)) in
  error (hook (world s)) = Some "Failed to fetch summary: timeout" /\
  trace (world s) =
    [SupabaseSelectMessages "session";
     SupabaseInsertMessage (NewMessage.mk "" user "hello" []);
     SupabaseSelectSummary ""] /\
  inflight s = [].
Proof.
  split; [reflexivity|]. split; [reflexivity|]. split; [reflexivity|].
  pose proof (pipeline_summary_lookup_fails firstRender "hello"
                (world (loaded plain)) [] "timeout" eq_refl eq_refl eq_refl) as H.
  cbv zeta in H. destruct H as (H1 & H2 & _ & _ & _ & _ & _ & H8).
  cbv zeta. split; [exact H1|]. split; [exact H2 | exact H8].
Defined.

Lemma pipeline_reply_not_saved_witness :
  let r := Resolved (mkHttpResponse true 200 "OK"
             (Resolved (body_with "hi"))) in
  truthy (trim "hello") = true /\
  isProcessing firstRender = false /\
  geminiServiceInstance (gemini (world (loaded plain))) = true /\
  Generates r "hi" /\
  let s := run [Settle 0 BackendOk; Settle 0 BackendOk; Settle 0 (HttpReply r);
                Settle 0 (BackendError "timeout")]
             (spawn (handleUserSpeech firstRender "hello") (loaded plain)) in
  error (hook (world s)) = Some "Failed to save message: timeout" /\
  conversations (database (world s)) = [Message.mk 1 "" user "hello" 0 []] /\
  messages (hook (world s)) = [Message.mk 1 "" user "hello" 0 []] /\
  inflight s = [].
Proof.
  intros r.
  assert (Hr : Generates r "hi") by (eapply generates; reflexivity).
  split; [reflexivity|]. split; [reflexivity|]. split; [reflexivity|].
  split; [exact Hr|].
  pose proof (pipeline_reply_not_saved firstRender "hello" (world (loaded plain)) []
                "timeout" eq_refl eq_refl eq_refl Hr) as H.
  cbv zeta in H. destruct H as (H1 & _ & _ & H4 & H5 & _ & _ & H8).
  cbv zeta. split; [exact H1|]. split; [exact H4|]. split; [exact H5 | exact H8].
Defined.

Lemma pipeline_speech_fails_witness :
  let r := Resolved (mkHttpResponse true 200 "OK"
             (Resolved (body_with "hi"))) in
  truthy (trim "hello") = true /\
  isProcessing firstRender = false /\
  geminiServiceInstance (gemini (world (loaded plain))) = true /\
  Generates r "hi" /\
  registered (world (loaded plain)) <> None /\
  let s := run [Settle 0 BackendOk; Settle 0 BackendOk; Settle 0 (HttpReply r);
                Settle 0 BackendOk; UtteranceStart 0;
                Settle 0 (SpeechReply (UtteranceError "synthesis-failed"))]
             (spawn (handleUserSpeech firstRender "hello") (loaded plain)) in
  error (hook (world s)) = Some "Speech synthesis error: synthesis-failed" /\
  isSpeaking (hook (world s)) = false /\
  length (conversations (database (world s))) = 2 /\
  inflight s = [].
Proof.
  intros r.
  assert (Hr : Generates r "hi") by (eapply generates; reflexivity).
  assert (Hreg : registered (world (loaded plain)) <> None)
    by (vm_compute; discriminate).
  split; [reflexivity|]. split; [reflexivity|]. split; [reflexivity|].
  split; [exact Hr|]. split; [exact Hreg|].
  pose proof (pipeline_speech_fails firstRender "hello" (world (loaded plain)) []
                "synthesis-failed" true eq_refl eq_refl eq_refl Hr Hreg) as H.
  cbv zeta in H. destruct H as (H1 & H2 & _ & _ & _ & H6 & _ & H8).
  cbv zeta. split; [exact H1|]. split; [exact H6|].
  split; [|exact H8].
  exact (eq_trans (f_equal (@length Message.t) H2) eq_refl).
Defined.

Lemma pipeline_summary_not_saved_witness :
  let render := hook (world (loaded with_history)) in
  let r := Resolved (mkHttpResponse true 200 "OK"
             (Resolved (body_with "sure"))) in
  truthy (trim "one more") = true /\
  isProcessing render = false /\
  geminiServiceInstance (gemini (world (loaded with_history))) = true /\
  Generates r "sure" /\
  20 < length (messages render) /\
  let s := run [Settle 0 BackendOk; Settle 0 BackendOk; Settle 0 (HttpReply r);
                Settle 0 BackendOk; Settle 0 (SpeechReply UtteranceEnd);
                Settle 0 (BackendError "timeout")]
             (spawn (handleUserSpeech render "one more") (loaded with_history)) in
  error (hook (world s)) = Some "Failed to save summary: timeout" /\
  avatarState (hook (world s)) = idle /\
  conversation_summaries (database (world s)) = [] /\
  inflight s = [].
Proof.
  intros render r.
  assert (Hr : Generates r "sure") by (eapply generates; reflexivity).
  assert (Hlen : 20 < length (messages render)) by (vm_compute; repeat constructor).
  split; [reflexivity|]. split; [reflexivity|]. split; [reflexivity|].
  split; [exact Hr|]. split; [exact Hlen|].
  pose proof (pipeline_summary_not_saved render "one more"
                (world (loaded with_history)) [] "timeout"
                eq_refl eq_refl eq_refl Hr Hlen) as H.
  cbv zeta in H. destruct H as (H1 & H2 & _ & _ & H5 & H6).
  cbv zeta. split; [exact H1|]. split; [exact H2|]. split; [exact H5 | exact H6].
Defined.

Lemma pipeline_leaves_the_microphone_off_witness :
  let r := Resolved (mkHttpResponse true 200 "OK"
             (Resolved (body_with "hi"))) in
  let listening := run [StartListening] (loaded plain) in
  truthy (trim "hello") = true /\
  isProcessing firstRender = false /\
  geminiServiceInstance (gemini (world listening)) = true /\
  Generates r "hi" /\
  recognition (speech (world listening)) = true /\
  isListening (hook (world listening)) = true /\
  let s := run [Settle 0 BackendOk; Settle 0 BackendOk; Settle 0 (HttpReply r);
                Settle 0 BackendOk; UtteranceStart 0;
                Settle 0 (SpeechReply UtteranceEnd)]
             (spawn (handleUserSpeech firstRender "hello")
                (mkSystem (world listening) [])) in
  isListening (hook (world s)) = false /\
  isListeningFlag (speech (world s)) = false /\
  length (messages (hook (world s))) = 2.
Proof.
  intros r listening.
  assert (Hr : Generates r "hi") by (eapply generates; reflexivity).
  split; [reflexivity|]. split; [reflexivity|]. split; [reflexivity|].
  split; [exact Hr|]. split; [reflexivity|]. split; [reflexivity|].
  pose proof (pipeline_leaves_the_microphone_off firstRender "hello"
                (world listening) [] eq_refl eq_refl eq_refl Hr eq_refl) as H.
  cbv zeta in H. destruct H as (H1 & H2 & _ & H4 & _).
  cbv zeta. split; [exact H1|]. split; [exact H2|].
  exact (eq_trans (f_equal (@length Message.t) H4) eq_refl).
Defined.

Lemma stopListening_undoes_startListening_witness :
  let w := world (loaded plain) in
  recognition (speech w) = true /\
  isListening (hook (startListening w)) = true /\
  stopListening firstRender (startListening w) = w.
Proof.
  intros w. split; [reflexivity|]. split; [reflexivity|].
  exact (proj1 (stopListening_undoes_startListening firstRender w eq_refl)
           eq_refl eq_refl eq_refl eq_refl eq_refl eq_refl).
Defined.

Lemma recognition_error_witness :
  let s := run [StartListening] (loaded plain) in
  registered (world s) <> None /\
  "network" <> "no-speech" /\
  "network" <> "aborted" /\
  isListeningFlag (speech (world s)) = true /\
  let s' := step (RecognitionError "network") s in
  isListening (hook (world s')) = false /\
  isListeningFlag (speech (world s')) = true.
Proof.
  intros s.
  assert (Hreg : registered (world s) <> None) by (vm_compute; discriminate).
  assert (H1 : "network" <> "no-speech") by discriminate.
  assert (H2 : "network" <> "aborted") by discriminate.
  split; [exact Hreg|]. split; [exact H1|]. split; [exact H2|].
  split; [reflexivity|].
  pose proof (recognition_error_does_not_stop_the_service s Hreg H1 H2) as H.
  cbv zeta in H. destruct H as (K1 & _ & _ & K4 & _).
  cbv zeta. split; [exact K1|]. rewrite K4. reflexivity.
Defined.

Lemma voice_change_during_playback_witness :
  let r := Resolved (mkHttpResponse true 200 "OK"
             (Resolved (body_with "hi"))) in
  truthy (trim "hello") = true /\
  isProcessing firstRender = false /\
  geminiServiceInstance (gemini (world (loaded plain))) = true /\
  Generates r "hi" /\
  registered (world (loaded plain)) <> None /\
  length (messages firstRender) <= 20 /\
  let speaking_now :=
    run [Settle 0 BackendOk; Settle 0 BackendOk; Settle 0 (HttpReply r);
         Settle 0 BackendOk; UtteranceStart 0]
      (spawn (handleUserSpeech firstRender "hello")
         (mkSystem (world (loaded plain)) [])) in
  let s := run [VoiceChange; Settle 0 (SpeechReply (UtteranceError "interrupted"))]
             speaking_now in
  isSpeaking (hook (world s)) = true /\
  inflight s = [].
Proof.
  intros r.
  assert (Hr : Generates r "hi") by (eapply generates; reflexivity).
  assert (Hreg : registered (world (loaded plain)) <> None)
    by (vm_compute; discriminate).
  assert (Hlen : length (messages firstRender) <= 20) by (cbn; lia).
  split; [reflexivity|]. split; [reflexivity|]. split; [reflexivity|].
  split; [exact Hr|]. split; [exact Hreg|]. split; [exact Hlen|].
  pose proof (voice_change_during_playback firstRender "hello"
                (world (loaded plain)) [] (UtteranceError "interrupted")
                eq_refl eq_refl eq_refl Hr Hreg Hlen) as H.
  cbv zeta in H. destruct H as (_ & _ & H3 & H4).
  cbv zeta. split; [exact H3 | exact H4].
Defined.

Lemma utterances_use_the_first_render_witness :
  let history := [Settle 0 BackendOk; StartListening] in
  ~ In VoiceChange history /\
  trim padded_hello <> "" /\
  sessionId (hook (world (run history (mount plain)))) = "session" /\
  trace (world (run [RecognitionResult padded_hello true; Elapse 1000]
                  (run history (mount plain)))) =
    [SupabaseSelectMessages "session";
     SupabaseInsertMessage (NewMessage.mk "" user "hello" [])].
Proof.
  intros history.
  assert (Hno : ~ In VoiceChange history)
    by (intros [H | [H | []]]; discriminate H).
  assert (HT : trim padded_hello <> "") by (vm_compute; discriminate).
  split; [exact Hno|]. split; [exact HT|]. split; [reflexivity|].
  pose proof (@utterances_use_the_first_render plain history padded_hello Hno HT)
    as H.
  cbv zeta in H. destruct H as [_ H]. rewrite H. reflexivity.
Defined.

Lemma getAllSessions_most_recent_first_witness :
  let data :=
    [SessionRow.mk "session-2" "2023-01-02T12:00:00Z";
     SessionRow.mk "session-1" "2023-01-01T13:00:00Z";
     SessionRow.mk "session-1" "2023-01-01T12:00:00Z"] in
  SessionStore.newest_first (map SessionRow.created_at data) = true /\
  SessionStore.getAllSessions (SbData (Some data)) =
    Resolved [SessionEntry.mk "session-2" "2023-01-02T12:00:00Z" 1;
              SessionEntry.mk "session-1" "2023-01-01T13:00:00Z" 2] /\
  match SessionStore.getAllSessions (SbData (Some data)) with
  | Resolved sessions =>
      SessionStore.newest_first (map SessionEntry.last_activity sessions) = true
  | Rejected _ => False
  end.
Proof.
  intros data. split; [reflexivity|]. split; [reflexivity|].
  apply (getAllSessions_most_recent_first data). reflexivity.
Defined.

Lemma recognition_restarts_witness :
  let r := Recogniser.mk false false 0 0 0 in
  Recogniser.isListeningFlag r = false /\
  Recogniser.running r = false /\
  Nat.iter 3 (Recogniser.onend false) (Recogniser.startListening r) =
    Recogniser.mk true true 4 0 0 /\
  Recogniser.onend false
    (Recogniser.startListening
       (Recogniser.stopListening
          (Nat.iter 3 (Recogniser.onend false) (Recogniser.startListening r)))) =
    Recogniser.mk true true 5 1 0.
Proof.
  intros r. split; [reflexivity|]. split; [reflexivity|].
  pose proof (recognition_restarts_while_listening r false 3 eq_refl eq_refl) as H.
  cbv zeta in H. destruct H as (H1 & _ & H3).
  split; [exact H1 | exact H3].
Defined.

Lemma isProcessing_witness :
  requestQueue (gemini (world (loaded plain))) = [] /\
  let s := spawn (GeminiService.generateResponse [greeting 1 "first"] None ;; Return tt)
             (mkSystem (world (loaded plain)) []) in
  GeminiService.isProcessing (gemini (world s)) = true /\
  GeminiService.isProcessing
    (gemini (world (step (Settle 0 (HttpReply (Rejected NonError))) s))) = false.
Proof.
  split; [reflexivity|].
  pose proof (isProcessing_while_the_request_is_pending [greeting 1 "first"] None
                (world (loaded plain)) [] (Rejected NonError) eq_refl) as H.
  cbv zeta in H. destruct H as (_ & H2 & H3 & _).
  cbv zeta. split; [exact H2 | exact H3].
Defined.

Lemma handleSetApiKey_witness :
  let b := Session.mkBrowser [("device_id", "device_1_abc")] [] v8 in
  let w := world (loaded plain) in
  gemini (snd (App.handleSetApiKey padded_key b w)) =
    mkGeminiService true "AIza-key" [] 0 /\
  gemini (App.loadApiKey (fst (App.handleSetApiKey padded_key b w)) w) =
    mkGeminiService true "AIza-key" [] 0 /\
  App.handleSetApiKey nbsp b w = (b, w).
Proof.
  intros b w.
  pose proof (handleSetApiKey_round_trip padded_key b w w) as H.
  pose proof (handleSetApiKey_round_trip nbsp b w w) as H'.
  cbv zeta in H, H'.
  change (truthy (trim padded_key)) with true in H.
  change (truthy (trim nbsp)) with false in H'.
  destruct H as (H1 & H2 & _). destruct H' as (H3 & H4).
  split; [exact H1|]. split; [exact H2|].
  rewrite (surjective_pairing (App.handleSetApiKey nbsp b w)).
  rewrite H3, H4. reflexivity.
Defined.
